(** * LegalBeacon: the case-management pages and their queries

    A shallow embedding of the page logic of the LegalBeacon web
    application (dashboard, case list, document list, case creation, case
    detail and deletion, the scripted assistant) together with the
    relational schema it runs against, and the properties of the
    specification that can be stated over it.

    Conventions.
    - A JavaScript string is a [string]: a sequence of code units, here of
      eight bits (the Latin-1 range).  [toLowerCase], [trim] and
      [includes] are given on that range as ECMAScript defines them.
    - A nullable column is an [option]; [None] is SQL NULL / JS null.
    - Timestamps are integers: microseconds for the database columns,
      milliseconds for the JavaScript clock.
    - A request to the backend answers with a [Result]: [Ok] with the data,
      or [Err] with the reason, as the client library's
      [{ data, error }] pair does. *)

From Stdlib Require Import ZArith List String Ascii Bool Lia Arith.
From Stdlib Require Import DecimalString.
From Stdlib Require Import Permutation Sorted.
Import ListNotations.

Set Implicit Arguments.

Local Open Scope string_scope.
Local Open Scope Z_scope.

(* ------------------------------------------------------------------ *)
(** ** JavaScript values and string operations *)

Module Js.

(** A value read from a nullable text column. *)
Definition nullable := option string.

(** Truthiness of a nullable string: null and the empty string are falsy. *)
Definition truthy (v : nullable) : bool :=
  match v with
  | Some s => negb (s =? "")%string
  | None => false
  end.

(** [v || d] on a nullable string with a string default. *)
Definition or_else (v : nullable) (d : string) : string :=
  match v with
  | Some s => if (s =? "")%string then d else s
  | None => d
  end.

(** The text a template literal inserts for [${v}]. *)
Definition interpolate (v : nullable) : string :=
  match v with
  | Some s => s
  | None => "null"
  end.

(** WhiteSpace and LineTerminator code units below 256:
    TAB, LF, VT, FF, CR, SP, NBSP. *)
Definition isWhiteSpace (c : ascii) : bool :=
  let n := nat_of_ascii c in
  ((n =? 9) || (n =? 10) || (n =? 11) || (n =? 12) || (n =? 13)
   || (n =? 32) || (n =? 160))%nat.

Fixpoint trimStart (s : string) : string :=
  match s with
  | EmptyString => EmptyString
  | String c s' => if isWhiteSpace c then trimStart s' else s
  end.

Fixpoint trimEnd (s : string) : string :=
  match s with
  | EmptyString => EmptyString
  | String c s' =>
      let t := trimEnd s' in
      if isWhiteSpace c && (t =? "")%string then EmptyString else String c t
  end.

(** [String.prototype.trim]. *)
Definition trim (s : string) : string := trimEnd (trimStart s).

(** Lower-casing of one code unit: A-Z, and the Latin-1 capitals
    (C0-DE without the multiplication sign D7), move up by 32. *)
Definition lowerChar (c : ascii) : ascii :=
  let n := nat_of_ascii c in
  if ((65 <=? n) && (n <=? 90))%nat then ascii_of_nat (n + 32)
  else if ((192 <=? n) && (n <=? 222) && negb (n =? 215))%nat
       then ascii_of_nat (n + 32)
       else c.

Fixpoint toLowerCase (s : string) : string :=
  match s with
  | EmptyString => EmptyString
  | String c s' => String (lowerChar c) (toLowerCase s')
  end.

(** [s.includes(k)]: [k] occurs in [s] as a contiguous run. *)
Fixpoint includes (s k : string) : bool :=
  String.prefix k s
  || match s with
     | EmptyString => false
     | String _ s' => includes s' k
     end.

(** Strings made of white space only. *)
Fixpoint blank (s : string) : bool :=
  match s with
  | EmptyString => true
  | String c s' => isWhiteSpace c && blank s'
  end.

Definition startsWithSpace (s : string) : bool :=
  match s with
  | EmptyString => false
  | String c _ => isWhiteSpace c
  end.

Fixpoint endsWithSpace (s : string) : bool :=
  match s with
  | EmptyString => false
  | String c EmptyString => isWhiteSpace c
  | String _ s' => endsWithSpace s'
  end.

End Js.

(* ------------------------------------------------------------------ *)
(** ** The relational schema

    One module per table, its record carrying the table's columns under
    their own names.  DECIMAL(15,2) amounts are counted in hundredths,
    DATE columns in days, TIMESTAMP WITH TIME ZONE columns in
    microseconds. *)

Definition uuid := string.
Definition timestamp := Z.

Module Firms.
Record row := {
  id : uuid;
  created_at : timestamp;
  name : string;
  address : string;
  phone : string;
  email : string;
  logo_url : Js.nullable;
  subscription_tier : string;
  is_active : bool
}.
End Firms.

Module Users.
Record row := {
  id : uuid;
  created_at : timestamp;
  email : string;
  first_name : string;
  last_name : string;
  role : string;
  phone : Js.nullable;
  firm_id : uuid;
  avatar_url : Js.nullable;
  is_active : bool;
  last_sign_in : option timestamp
}.
End Users.

Module Parties.
Record row := {
  id : uuid;
  created_at : timestamp;
  firm_id : uuid;
  type : string;
  first_name : Js.nullable;
  last_name : Js.nullable;
  organization_name : Js.nullable;
  email : Js.nullable;
  phone : Js.nullable;
  address : Js.nullable;
  notes : Js.nullable;
  is_client : bool
}.

(** The table's CHECK constraint [valid_name]. *)
Definition valid_name (p : row) : bool :=
  match first_name p, last_name p, organization_name p with
  | Some _, Some _, _ => true
  | _, _, Some _ => true
  | _, _, _ => false
  end.
End Parties.

Module Cases.
Record row := {
  id : uuid;
  created_at : timestamp;
  firm_id : uuid;
  case_number : string;
  title : string;
  case_type : string;
  status : string;
  description : Js.nullable;
  assigned_to : option uuid;
  client_id : uuid;
  opposing_party_id : option uuid;
  court_name : Js.nullable;
  court_location : Js.nullable;
  judge_name : Js.nullable;
  filing_date : option Z;
  closure_date : option Z
}.
End Cases.

Module SecurityInterests.
Record row := {
  id : uuid;
  created_at : timestamp;
  firm_id : uuid;
  case_id : uuid;
  type : string;
  description : string;
  property_address : Js.nullable;
  recorded_date : option Z;
  amount : Z;
  lien_position : option Z;
  lender_id : uuid;
  borrower_id : uuid;
  maturity_date : option Z;
  interest_rate : option Z;
  property_value : option Z
}.
End SecurityInterests.

Module Documents.
Record row := {
  id : uuid;
  created_at : timestamp;
  firm_id : uuid;
  case_id : uuid;
  name : string;
  document_type : string;
  file_path : string;
  file_size : Z;
  uploaded_by : uuid;
  version : Z;
  is_template : bool;
  related_party_id : option uuid
}.
End Documents.

Module Deadlines.
Record row := {
  id : uuid;
  created_at : timestamp;
  firm_id : uuid;
  case_id : uuid;
  title : string;
  description : Js.nullable;
  due_date : timestamp;
  priority : string;
  status : string;
  assigned_to : option uuid;
  reminder_date : option timestamp
}.
End Deadlines.

Module Financials.
Record row := {
  id : uuid;
  created_at : timestamp;
  firm_id : uuid;
  case_id : uuid;
  transaction_type : string;
  amount : Z;
  description : Js.nullable;
  transaction_date : Z;
  recorded_by : uuid;
  invoice_id : Js.nullable;
  party_id : option uuid
}.
End Financials.

(** The database: one list of rows per table. *)
Record Store := {
  firms : list Firms.row;
  users : list Users.row;
  parties : list Parties.row;
  cases : list Cases.row;
  security_interests : list SecurityInterests.row;
  documents : list Documents.row;
  deadlines : list Deadlines.row;
  financials : list Financials.row
}.

(** Every table but [firms] carries the tenant in a [firm_id] column. *)
Class FirmScoped (Row : Type) := firm_of : Row -> uuid.

#[export] Instance users_firm : FirmScoped Users.row := Users.firm_id.
#[export] Instance parties_firm : FirmScoped Parties.row := Parties.firm_id.
#[export] Instance cases_firm : FirmScoped Cases.row := Cases.firm_id.
#[export] Instance security_interests_firm : FirmScoped SecurityInterests.row :=
  SecurityInterests.firm_id.
#[export] Instance documents_firm : FirmScoped Documents.row := Documents.firm_id.
#[export] Instance deadlines_firm : FirmScoped Deadlines.row := Deadlines.firm_id.
#[export] Instance financials_firm : FirmScoped Financials.row := Financials.firm_id.

(* ------------------------------------------------------------------ *)
(** ** The query client

    A query is what the builder calls have accumulated: the conjunction
    of the filters, the ordering, and the window of rows asked for.
    Executing it on a table filters, then sorts, then cuts the window, in
    that order whatever the order of the calls.  A builder is taken as the
    value it denotes: each call gives the query extended, and two requests
    made from one builder are two requests under the same filters. *)

Module Supabase.

Inductive Error :=
| NoRows               (* [.single()] on an empty result *)
| MultipleRows         (* [.single()] on more than one row *)
| ForeignKeyViolation  (* a row still references the one to delete *)
| Unavailable          (* the request did not go through *)
| Malformed.           (* the database cannot read a filter of the request *)

Inductive Result (A : Type) :=
| Ok (data : A)
| Err (error : Error).
Arguments Err {A} error.

(** [data] of a response: the rows, or null. *)
Definition data {A} (r : Result A) : option A :=
  match r with Ok d => Some d | Err _ => None end.

Section Builder.
Variable Row : Type.

Record Query := {
  q_where : Row -> bool;
  q_order : option (Row -> Row -> bool);
  q_offset : Z;
  q_limit : option Z
}.

(** [supabase.from(t).select(columns)]. *)
Definition select : Query :=
  {| q_where := fun _ => true; q_order := None;
     q_offset := 0; q_limit := None |}.

(** Any filter call: [.eq], [.or], [.ilike], [.gte], [.lte], [.in]. *)
Definition filter_ (p : Row -> bool) (q : Query) : Query :=
  {| q_where := fun r => q_where q r && p r; q_order := q_order q;
     q_offset := q_offset q; q_limit := q_limit q |}.

Definition eq (col : Row -> string) (v : string) : Query -> Query :=
  filter_ (fun r => (col r =? v)%string).

Definition eq_bool (col : Row -> bool) (v : bool) : Query -> Query :=
  filter_ (fun r => Bool.eqb (col r) v).

Definition gte (col : Row -> Z) (v : Z) : Query -> Query :=
  filter_ (fun r => v <=? col r).

Definition lte (col : Row -> Z) (v : Z) : Query -> Query :=
  filter_ (fun r => col r <=? v).

(** [.in(col, values)]. *)
Definition in_ (col : Row -> string) (vs : list string) : Query -> Query :=
  filter_ (fun r => existsb (fun v => (col r =? v)%string) vs).

(** [.order(col, { ascending })] on an integer-valued column. *)
Definition order (col : Row -> Z) (ascending : bool) (q : Query) : Query :=
  {| q_where := q_where q;
     q_order := Some (fun a b => if ascending then col a <=? col b
                                 else col b <=? col a);
     q_offset := q_offset q; q_limit := q_limit q |}.

(** [.range(from, to)]: rows [from] to [to], both included. *)
Definition range (from to : Z) (q : Query) : Query :=
  {| q_where := q_where q; q_order := q_order q;
     q_offset := from; q_limit := Some (to - from + 1) |}.

(** [.limit(n)]. *)
Definition limit (n : Z) (q : Query) : Query :=
  {| q_where := q_where q; q_order := q_order q;
     q_offset := q_offset q; q_limit := Some n |}.

Fixpoint insert_sorted (le : Row -> Row -> bool) (x : Row) (l : list Row)
  : list Row :=
  match l with
  | [] => [x]
  | y :: l' => if le x y then x :: l else y :: insert_sorted le x l'
  end.

Fixpoint sort (le : Row -> Row -> bool) (l : list Row) : list Row :=
  match l with
  | [] => []
  | x :: l' => insert_sorted le x (sort le l')
  end.

Definition window (offset : Z) (lim : option Z) (l : list Row) : list Row :=
  let rest := skipn (Z.to_nat offset) l in
  match lim with
  | Some n => firstn (Z.to_nat n) rest
  | None => rest
  end.

(** The rows matching the filters, ordered, before the window. *)
Definition matching (q : Query) (table : list Row) : list Row :=
  let hits := filter (q_where q) table in
  match q_order q with
  | Some le => sort le hits
  | None => hits
  end.

(** The rows a request for [q] answers with. *)
Definition rows (q : Query) (table : list Row) : list Row :=
  window (q_offset q) (q_limit q) (matching q table).

(** The count of [from(t).select(columns, { count: 'exact', head: true })]:
    the number of rows under the filters of [q], whatever its window. *)
Definition count_exact (q : Query) (table : list Row) : Z :=
  Z.of_nat (List.length (filter (q_where q) table)).

(** [count] of the response to [builder.select(columns, options)] on a
    builder that already carries filters.  There [select] names the columns
    of the rows to return and takes nothing else: what is handed to it as
    options is not read, no count is asked for, and [count] is null.  Only
    [from(t).select(columns, { count })] asks for one. *)
Definition count_reselected (q : Query) (table : list Row) : option Z := None.

(** [.single()]: the one row of the answer, an error otherwise. *)
Definition single (q : Query) (table : list Row) : Result Row :=
  match rows q table with
  | [r] => Ok r
  | [] => Err NoRows
  | _ => Err MultipleRows
  end.

(** [.delete()] under a filter: the table without the rows hit. *)
Definition delete (p : Row -> bool) (table : list Row) : list Row :=
  filter (fun r => negb (p r)) table.

End Builder.

Arguments select {Row}.
Arguments Ok {A} data.

End Supabase.

(* ------------------------------------------------------------------ *)
(** ** The authorization gate *)

Module Rls.

(** The authenticated principal, [auth.uid()]; [None] when nobody is
    signed in. *)
Definition Principal := option uuid.

(** The firm the caller is resolved to: the [firm_id] of the one users
    row keyed by the principal. *)
Definition caller_firm (st : Store) (caller : Principal) : option uuid :=
  match caller with
  | None => None
  | Some uid =>
      match filter (fun u => (Users.id u =? uid)%string) (users st) with
      | [u] => Some (Users.firm_id u)
      | _ => None
      end
  end.

(** The policy of the schema on [firms], "Users can view their own firm":
    [auth.uid() IN (SELECT id FROM users WHERE firm_id = firms.id)]. *)
Definition firm_policy (st : Store) (caller : Principal) (f : Firms.row) : bool :=
  match caller with
  | None => false
  | Some uid =>
      existsb (fun u => (Users.id u =? uid)%string
                        && (Users.firm_id u =? Firms.id f)%string) (users st)
  end.

(** Modelled from the spec: the row-level policies of the firm-scoped
    tables, which the schema enables and leaves to be created ("Create
    additional RLS policies for each table").  The spec gives them:
    every read is restricted to the rows whose [firm_id] is the firm of
    the caller's User record, and a principal without a User record
    sees nothing.  Written on the pattern of the policy on [firms]. *)
Definition row_policy {Row} `{FirmScoped Row}
    (st : Store) (caller : Principal) (r : Row) : bool :=
  match caller with
  | None => false
  | Some uid =>
      existsb (fun u => (Users.id u =? uid)%string
                        && (Users.firm_id u =? firm_of r)%string) (users st)
  end.

(** The schema as it stands: row-level security is enabled on every
    table and no policy is declared for the firm-scoped ones; until one
    is created, no row of them passes. *)
Definition no_policy {Row} (r : Row) : bool := false.

(** The rows of a table the gate lets the caller read. *)
Definition visible {Row} `{FirmScoped Row}
    (st : Store) (caller : Principal) (table : list Row) : list Row :=
  filter (row_policy st caller) table.

(** The database as the caller reads it. *)
Definition view (st : Store) (caller : Principal) : Store :=
  {| firms := filter (firm_policy st caller) (firms st);
     users := visible st caller (users st);
     parties := visible st caller (parties st);
     cases := visible st caller (cases st);
     security_interests := visible st caller (security_interests st);
     documents := visible st caller (documents st);
     deadlines := visible st caller (deadlines st);
     financials := visible st caller (financials st) |}.

End Rls.

(* ------------------------------------------------------------------ *)
(** ** Party display names *)

Module DisplayName.
Import Js.

(** [getPartyDisplayName] of the case-detail page. *)
Definition getPartyDisplayName (party : option Parties.row) : string :=
  match party with
  | None => "Unknown"
  | Some p =>
      if truthy (Parties.organization_name p)
      then interpolate (Parties.organization_name p)
      else trim (or_else (Parties.first_name p) "" ++ " "
                 ++ or_else (Parties.last_name p) "")
  end.

(** [getPartyDisplayName] of the document-upload page: the same rule,
    with the empty string for a missing record. *)
Definition getPartyDisplayName_upload (party : option Parties.row) : string :=
  match party with
  | None => ""
  | Some p =>
      if truthy (Parties.organization_name p)
      then interpolate (Parties.organization_name p)
      else trim (or_else (Parties.first_name p) "" ++ " "
                 ++ or_else (Parties.last_name p) "")
  end.

(** The client name the dashboard and the case list compute inline
    from the row [clientData] of the client lookup. *)
Definition clientName (clientData : option Parties.row) : string :=
  match clientData with
  | None => "Unknown Client"
  | Some p =>
      if truthy (Parties.organization_name p)
      then interpolate (Parties.organization_name p)
      else interpolate (Parties.first_name p) ++ " "
           ++ interpolate (Parties.last_name p)
  end.

(** The name of a user, as every page builds it. *)
Definition userName (u : Users.row) : string :=
  Users.first_name u ++ " " ++ Users.last_name u.

End DisplayName.

(* ------------------------------------------------------------------ *)
(** ** Lookups shared by the pages *)

Module Lookup.
Import Supabase.

(** [from('users').select('firm_id').eq('id', user.id).single()], then
    the test [data?.firm_id]. *)
Definition firmIdOf (db : Store) (user : option uuid) : option uuid :=
  match user with
  | None => None
  | Some uid =>
      match data (single (eq Users.id uid select) (users db)) with
      | Some userData =>
          if Js.truthy (Some (Users.firm_id userData))
          then Some (Users.firm_id userData) else None
      | None => None
      end
  end.

Definition partyById (db : Store) (pid : uuid) : option Parties.row :=
  data (single (eq Parties.id pid select) (parties db)).

Definition userById (db : Store) (uid : uuid) : option Users.row :=
  data (single (eq Users.id uid select) (users db)).

Definition caseById (db : Store) (cid : uuid) : option Cases.row :=
  data (single (eq Cases.id cid select) (cases db)).

End Lookup.

(** [Math.ceil(a / b)] on integers, for a positive [b]. *)
Definition ceil_div (a b : Z) : Z := - ((- a) / b).

(* ------------------------------------------------------------------ *)
(** ** The dashboard *)

Module Dashboard.
Import Supabase.

Record CaseItem := {
  item : Cases.row;
  client_name : string
}.

Record DashboardStats := {
  totalCases : Z;
  activeCases : Z;
  upcomingDeadlines : Z;
  totalParties : Z;
  totalDocuments : Z
}.

Record State := {
  user : option uuid;
  recentCases : list CaseItem;
  isLoading : bool;
  stats : DashboardStats
}.

Definition initial : State :=
  {| user := None; recentCases := []; isLoading := true;
     stats := {| totalCases := 0; activeCases := 0; upcomingDeadlines := 0;
                 totalParties := 0; totalDocuments := 0 |} |}.

(** [7 * 24 * 60 * 60 * 1000] milliseconds. *)
Definition sevenDays : Z := 7 * 24 * 60 * 60 * 1000.

(** The instant [new Date(ms).toISOString()] denotes, at the
    resolution of the database. *)
Definition toISOString (ms : Z) : timestamp := ms * 1000.

Definition recentCasesQuery (firmId : uuid) : Query Cases.row :=
  limit 5 (order Cases.created_at false (eq Cases.firm_id firmId select)).

(** The deadlines counted as upcoming; [now1] and [now2] are the two
    readings of the clock, in the order the request is built. *)
Definition upcomingQuery (firmId : uuid) (now1 now2 : Z) : Query Deadlines.row :=
  lte Deadlines.due_date (toISOString (now2 + sevenDays))
    (gte Deadlines.due_date (toISOString now1)
       (eq Deadlines.firm_id firmId select)).

Definition fetchStats (db : Store) (firmId : uuid) (now1 now2 : Z)
  : DashboardStats :=
  {| totalCases := count_exact (eq Cases.firm_id firmId select) (cases db);
     activeCases :=
       count_exact (eq Cases.status "active"
                      (eq Cases.firm_id firmId select)) (cases db);
     upcomingDeadlines :=
       count_exact (upcomingQuery firmId now1 now2) (deadlines db);
     totalParties := count_exact (eq Parties.firm_id firmId select) (parties db);
     totalDocuments :=
       count_exact (eq Documents.firm_id firmId select) (documents db) |}.

Definition withClient (db : Store) (caseItem : Cases.row) : CaseItem :=
  {| item := caseItem;
     client_name :=
       DisplayName.clientName (Lookup.partyById db (Cases.client_id caseItem)) |}.

Definition fetchUserAndData (db : Store) (authUser : option uuid)
    (now1 now2 : Z) (s : State) : State :=
  match Lookup.firmIdOf db authUser with
  | Some firmId =>
      {| user := authUser;
         recentCases :=
           map (withClient db) (rows (recentCasesQuery firmId) (cases db));
         isLoading := false;
         stats := fetchStats db firmId now1 now2 |}
  | None =>
      {| user := authUser; recentCases := recentCases s;
         isLoading := false; stats := stats s |}
  end.

End Dashboard.

(* ------------------------------------------------------------------ *)
(** ** The list views: cases and documents *)

(** The fixed page size of both list views. *)
Definition itemsPerPage : Z := 10.

(** [count || 0]. *)
Definition orZero (count : option Z) : Z :=
  match count with
  | Some n => n
  | None => 0
  end.

Module CasesPage.
Import Supabase.

Record CaseItem := {
  item : Cases.row;
  client_name : string;
  assigned_to_name : option string
}.

Record State := {
  cases_shown : list CaseItem;
  isLoading : bool;
  firmId : option uuid;
  searchTerm : string;
  statusFilter : string;
  typeFilter : string;
  currentPage : Z;
  totalPages : Z
}.

Definition initial : State :=
  {| cases_shown := []; isLoading := true; firmId := None;
     searchTerm := ""; statusFilter := "all"; typeFilter := "all";
     currentPage := 1; totalPages := 1 |}.

(** What is written under the table when there is more than one page. *)
Record Footer := {
  showing_from : Z;
  showing_to : Z;
  total_results : Z;
  page_buttons : list Z
}.

(** The value the page hands to [.or]: the search term as typed, spliced
    twice into a comma-separated list of conditions. *)
Definition searchExpression (s : State) : string :=
  "title.ilike.%" ++ searchTerm s ++ "%,case_number.ilike.%"
  ++ searchTerm s ++ "%".

Section WithBackend.

(** How the database reads the value of an [or] parameter: the condition
    on a row it stands for, or nothing when it cannot read it.  What a
    comma, a parenthesis or a quote inside the search term makes of the
    value is the database's to say. *)
Variable logic : string -> option (Cases.row -> bool).

(** The query of [fetchCases] once the filters are applied, as the
    requests made from it are read: with an [or] value the database
    cannot read, every request made from the builder fails. *)
Definition listQuery (firm : uuid) (s : State) : Result (Query Cases.row) :=
  let query := order Cases.created_at false (eq Cases.firm_id firm select) in
  let searched :=
    if negb (searchTerm s =? "")%string
    then match logic (searchExpression s) with
         | Some condition => Ok (filter_ condition query)
         | None => Err Malformed
         end
    else Ok query in
  match searched with
  | Err e => Err e
  | Ok query =>
      let query :=
        if negb (statusFilter s =? "all")%string
        then eq Cases.status (statusFilter s) query else query in
      let query :=
        if negb (typeFilter s =? "all")%string
        then eq Cases.case_type (typeFilter s) query else query in
      Ok query
  end.

(** The window of the current page. *)
Definition pageFrom (s : State) : Z := (currentPage s - 1) * itemsPerPage.
Definition pageTo (s : State) : Z := pageFrom s + itemsPerPage - 1.

(** The count request of [fetchCases],
    [query.select('id', { count: 'exact', head: true })], as far as the
    page reads it: [count] alone, the error left unread. *)
Definition countRequest (db : Store) (firm : uuid) (s : State) : option Z :=
  match listQuery firm s with
  | Ok query => count_reselected query (cases db)
  | Err _ => None
  end.

(** The page request of [fetchCases]: it answers with rows, none when
    the window holds none.  The rows are taken whole: which of their
    columns the request still names after the [select] of the count
    request is not followed here. *)
Definition pageRequest (db : Store) (firm : uuid) (s : State)
  : Result (list Cases.row) :=
  match listQuery firm s with
  | Ok query => Ok (rows (range (pageFrom s) (pageTo s) query) (cases db))
  | Err e => Err e
  end.

Definition withDetails (db : Store) (caseItem : Cases.row) : CaseItem :=
  {| item := caseItem;
     client_name :=
       DisplayName.clientName (Lookup.partyById db (Cases.client_id caseItem));
     assigned_to_name :=
       if Js.truthy (Cases.assigned_to caseItem)
       then option_map DisplayName.userName
              (Lookup.userById db (Js.interpolate (Cases.assigned_to caseItem)))
       else None |}.

Definition fetchCases (db : Store) (s : State) : State :=
  match firmId s with
  | None => s
  | Some firm =>
      let count := countRequest db firm s in
      match pageRequest db firm s with
      | Err _ =>
          {| cases_shown := cases_shown s; isLoading := false;
             firmId := firmId s; searchTerm := searchTerm s;
             statusFilter := statusFilter s; typeFilter := typeFilter s;
             currentPage := currentPage s; totalPages := totalPages s |}
      | Ok casesData =>
          {| cases_shown := map (withDetails db) casesData;
             isLoading := false;
             firmId := firmId s; searchTerm := searchTerm s;
             statusFilter := statusFilter s; typeFilter := typeFilter s;
             currentPage := currentPage s;
             totalPages := ceil_div (orZero count) itemsPerPage |}
      end
  end.

End WithBackend.

Definition handlePageChange (page : Z) (s : State) : State :=
  {| cases_shown := cases_shown s; isLoading := isLoading s;
     firmId := firmId s; searchTerm := searchTerm s;
     statusFilter := statusFilter s; typeFilter := typeFilter s;
     currentPage := page; totalPages := totalPages s |}.

(** The pagination footer, rendered when [totalPages > 1]. *)
Definition paginationFooter (s : State) : option Footer :=
  if totalPages s >? 1
  then Some {| showing_from := (currentPage s - 1) * itemsPerPage + 1;
               showing_to := Z.min (currentPage s * itemsPerPage)
                                   (Z.of_nat (List.length (cases_shown s)));
               total_results := totalPages s * itemsPerPage;
               page_buttons :=
                 map (fun i => Z.of_nat i + 1)
                     (seq 0 (Z.to_nat (totalPages s))) |}
  else None.

(** What happens on the page: the firm of the user is resolved, a filter
    is changed, a button of the footer is pressed, a fetch runs to its end
    on some state of the database. *)
Inductive Event :=
| FirmResolved (firm : uuid)
| SearchTyped (term : string)
| StatusChosen (status : string)
| TypeChosen (type : string)
| PagePressed (page : Z)
| Fetched (logic : string -> option (Cases.row -> bool)) (db : Store).

Definition step (s : State) (e : Event) : State :=
  match e with
  | FirmResolved firm =>
      if Js.truthy (Some firm)
      then {| cases_shown := cases_shown s; isLoading := isLoading s;
              firmId := Some firm; searchTerm := searchTerm s;
              statusFilter := statusFilter s; typeFilter := typeFilter s;
              currentPage := currentPage s; totalPages := totalPages s |}
      else s
  | SearchTyped term =>
      {| cases_shown := cases_shown s; isLoading := isLoading s;
         firmId := firmId s; searchTerm := term;
         statusFilter := statusFilter s; typeFilter := typeFilter s;
         currentPage := currentPage s; totalPages := totalPages s |}
  | StatusChosen status =>
      {| cases_shown := cases_shown s; isLoading := isLoading s;
         firmId := firmId s; searchTerm := searchTerm s;
         statusFilter := status; typeFilter := typeFilter s;
         currentPage := currentPage s; totalPages := totalPages s |}
  | TypeChosen type =>
      {| cases_shown := cases_shown s; isLoading := isLoading s;
         firmId := firmId s; searchTerm := searchTerm s;
         statusFilter := statusFilter s; typeFilter := type;
         currentPage := currentPage s; totalPages := totalPages s |}
  | PagePressed page =>
      (* the buttons are part of the footer *)
      match paginationFooter s with
      | Some _ => handlePageChange page s
      | None => s
      end
  | Fetched logic db => fetchCases logic db s
  end.

End CasesPage.

Module DocumentsPage.
Import Supabase.

Record DocumentItem := {
  item : Documents.row;
  case_title : string;
  uploader_name : string
}.

Record State := {
  documents_shown : list DocumentItem;
  isLoading : bool;
  firmId : option uuid;
  searchTerm : string;
  typeFilter : string;
  caseFilter : string;
  currentPage : Z;
  totalPages : Z
}.

Section WithBackend.

Variable ilike : string -> string -> bool.

(** The query of [fetchDocuments] once the filters are applied. *)
Definition listQuery (firm : uuid) (s : State) : Query Documents.row :=
  let query :=
    order Documents.created_at false (eq Documents.firm_id firm select) in
  let query :=
    if negb (searchTerm s =? "")%string
    then filter_ (fun d => ilike ("%" ++ searchTerm s ++ "%") (Documents.name d))
                 query
    else query in
  let query :=
    if negb (typeFilter s =? "all")%string
    then eq Documents.document_type (typeFilter s) query else query in
  let query :=
    if negb (caseFilter s =? "all")%string
    then eq Documents.case_id (caseFilter s) query else query in
  query.

Definition pageFrom (s : State) : Z := (currentPage s - 1) * itemsPerPage.
Definition pageTo (s : State) : Z := pageFrom s + itemsPerPage - 1.

(** The count request of [fetchDocuments],
    [query.select('id', { count: 'exact', head: true })], as far as the
    page reads it: [count] alone. *)
Definition countRequest (db : Store) (firm : uuid) (s : State) : option Z :=
  count_reselected (listQuery firm s) (documents db).

(** The page request of [fetchDocuments]; its rows too are taken whole. *)
Definition pageRequest (db : Store) (firm : uuid) (s : State)
  : Result (list Documents.row) :=
  Ok (rows (range (pageFrom s) (pageTo s) (listQuery firm s)) (documents db)).

Definition withDetails (db : Store) (doc : Documents.row) : DocumentItem :=
  {| item := doc;
     case_title :=
       match Lookup.caseById db (Documents.case_id doc) with
       | Some caseData => Js.or_else (Some (Cases.title caseData)) "Unknown Case"
       | None => "Unknown Case"
       end;
     uploader_name :=
       match Lookup.userById db (Documents.uploaded_by doc) with
       | Some userData => DisplayName.userName userData
       | None => "Unknown"
       end |}.

Definition fetchDocuments (db : Store) (s : State) : State :=
  match firmId s with
  | None => s
  | Some firm =>
      let count := countRequest db firm s in
      match pageRequest db firm s with
      | Err _ =>
          {| documents_shown := documents_shown s; isLoading := false;
             firmId := firmId s; searchTerm := searchTerm s;
             typeFilter := typeFilter s; caseFilter := caseFilter s;
             currentPage := currentPage s; totalPages := totalPages s |}
      | Ok documentsData =>
          {| documents_shown := map (withDetails db) documentsData;
             isLoading := false;
             firmId := firmId s; searchTerm := searchTerm s;
             typeFilter := typeFilter s; caseFilter := caseFilter s;
             currentPage := currentPage s;
             totalPages := ceil_div (orZero count) itemsPerPage |}
      end
  end.

End WithBackend.

End DocumentsPage.

(* ------------------------------------------------------------------ *)
(** ** Writing to the store *)

Definition with_cases (db : Store) (l : list Cases.row) : Store :=
  {| firms := firms db; users := users db; parties := parties db;
     cases := l; security_interests := security_interests db;
     documents := documents db; deadlines := deadlines db;
     financials := financials db |}.

Definition with_security_interests (db : Store) (l : list SecurityInterests.row)
  : Store :=
  {| firms := firms db; users := users db; parties := parties db;
     cases := cases db; security_interests := l;
     documents := documents db; deadlines := deadlines db;
     financials := financials db |}.

Definition with_documents (db : Store) (l : list Documents.row) : Store :=
  {| firms := firms db; users := users db; parties := parties db;
     cases := cases db; security_interests := security_interests db;
     documents := l; deadlines := deadlines db;
     financials := financials db |}.

Definition with_deadlines (db : Store) (l : list Deadlines.row) : Store :=
  {| firms := firms db; users := users db; parties := parties db;
     cases := cases db; security_interests := security_interests db;
     documents := documents db; deadlines := l;
     financials := financials db |}.

Definition with_financials (db : Store) (l : list Financials.row) : Store :=
  {| firms := firms db; users := users db; parties := parties db;
     cases := cases db; security_interests := security_interests db;
     documents := documents db; deadlines := deadlines db;
     financials := l |}.

(** What a handler leaves the user with. *)
Inductive Outcome :=
| Nothing                      (* the handler returned at once *)
| Redirected (path : string)   (* [router.push(path)] *)
| Alerted (message : string).  (* [alert(message)] *)

(* ------------------------------------------------------------------ *)
(** ** Creating a case *)

Module NewCasePage.
Import Supabase.

Record NewCaseFormValues := {
  title : string;
  case_number : string;
  case_type : string;
  status : string;
  description : Js.nullable;
  client_id : string;
  opposing_party_id : Js.nullable;
  assigned_to : Js.nullable;
  court_name : Js.nullable;
  court_location : Js.nullable;
  judge_name : Js.nullable;
  filing_date : option Z
}.

(** The parties and users offered in the form, [fetchParties] and
    [fetchUsers]. *)
Definition clientsQuery (firmId : uuid) : Query Parties.row :=
  eq_bool Parties.is_client true (eq Parties.firm_id firmId select).

Definition opposingPartiesQuery (firmId : uuid) : Query Parties.row :=
  eq_bool Parties.is_client false (eq Parties.firm_id firmId select).

Definition usersQuery (firmId : uuid) : Query Users.row :=
  eq Users.firm_id firmId select.

(** [v || null]. *)
Definition orNull (v : Js.nullable) : Js.nullable :=
  if Js.truthy v then v else None.

(** How the database answers the two inserts: the defaults it fills in
    and whether it takes the row. *)
Record Backend := {
  case_uuid : uuid;
  interest_uuid : uuid;
  now : timestamp;
  case_accepted : bool;
  interest_accepted : bool
}.

Definition caseRow (be : Backend) (firmId : uuid) (data : NewCaseFormValues)
  : Cases.row :=
  {| Cases.id := case_uuid be;
     Cases.created_at := now be;
     Cases.firm_id := firmId;
     Cases.case_number := case_number data;
     Cases.title := title data;
     Cases.case_type := case_type data;
     Cases.status := status data;
     Cases.description := orNull (description data);
     Cases.assigned_to := orNull (assigned_to data);
     Cases.client_id := client_id data;
     Cases.opposing_party_id := orNull (opposing_party_id data);
     Cases.court_name := orNull (court_name data);
     Cases.court_location := orNull (court_location data);
     Cases.judge_name := orNull (judge_name data);
     Cases.filing_date := filing_date data;
     Cases.closure_date := None |}.

(** The placeholder security interest of a foreclosure case. *)
Definition placeholderInterest (be : Backend) (firmId : uuid)
    (data : NewCaseFormValues) (newCase : Cases.row) : SecurityInterests.row :=
  {| SecurityInterests.id := interest_uuid be;
     SecurityInterests.created_at := now be;
     SecurityInterests.firm_id := firmId;
     SecurityInterests.case_id := Cases.id newCase;
     SecurityInterests.type := "Mortgage";
     SecurityInterests.description := "Primary mortgage on property";
     SecurityInterests.property_address := None;
     SecurityInterests.recorded_date := None;
     SecurityInterests.amount := 0;
     SecurityInterests.lien_position := None;
     SecurityInterests.lender_id := client_id data;
     SecurityInterests.borrower_id :=
       Js.or_else (opposing_party_id data) (client_id data);
     SecurityInterests.maturity_date := None;
     SecurityInterests.interest_rate := None;
     SecurityInterests.property_value := None |}.

(** [.insert(row)]: the row is appended when the database takes it. *)
Definition insert {Row} (accepted : bool) (r : Row) (table : list Row)
  : list Row * Result Row :=
  if accepted then ((table ++ [r])%list, Ok r) else (table, Err Unavailable).

Definition onSubmit (be : Backend) (firmId : option uuid)
    (data : NewCaseFormValues) (db : Store) : Store * Outcome :=
  match firmId with
  | None => (db, Nothing)
  | Some firm =>
      match insert (case_accepted be) (caseRow be firm data) (cases db) with
      | (_, Err _) => (db, Alerted "Failed to create case. Please try again.")
      | (cases', Ok newCase) =>
          let db1 := with_cases db cases' in
          let db2 :=
            if (case_type data =? "foreclosure")%string
            then with_security_interests db1
                   (fst (insert (interest_accepted be)
                           (placeholderInterest be firm data newCase)
                           (security_interests db1)))
            else db1 in
          (db2, Redirected ("/cases/" ++ Cases.id newCase))
      end
  end.

End NewCasePage.

(* ------------------------------------------------------------------ *)
(** ** The case-detail page *)

Module CaseDetailPage.
Import Supabase.

Record SecurityInterestItem := {
  interest : SecurityInterests.row;
  lender_name : string;
  borrower_name : string
}.

Record DocumentItem := {
  document : Documents.row;
  uploader_name : string
}.

Record DeadlineItem := {
  deadline : Deadlines.row;
  assignee_name : string
}.

Record FinancialItem := {
  financial : Financials.row;
  recorder_name : string;
  party_name : option string
}.

Record State := {
  caseData : option Cases.row;
  client : option Parties.row;
  opposingParty : option Parties.row;
  assignedUser : option Users.row;
  securityInterests : list SecurityInterestItem;
  documents_shown : list DocumentItem;
  deadlines_shown : list DeadlineItem;
  financials_shown : list FinancialItem;
  isLoading : bool;
  went_to : Outcome
}.

Definition initial : State :=
  {| caseData := None; client := None; opposingParty := None;
     assignedUser := None; securityInterests := []; documents_shown := [];
     deadlines_shown := []; financials_shown := []; isLoading := true;
     went_to := Nothing |}.

(** A foreclosure case, as the page tests it. *)
Definition isForeclosure (c : Cases.row) : bool :=
  (Js.toLowerCase (Cases.case_type c) =? "foreclosure")%string.

(** What the child fetches bring back; [None] where a fetch leaves its
    part of the state as it was. *)
Definition fetchClient (db : Store) (c : Cases.row) : option (option Parties.row) :=
  if Js.truthy (Some (Cases.client_id c))
  then Some (Lookup.partyById db (Cases.client_id c)) else None.

Definition fetchOpposingParty (db : Store) (c : Cases.row)
  : option (option Parties.row) :=
  if Js.truthy (Cases.opposing_party_id c)
  then Some (Lookup.partyById db (Js.interpolate (Cases.opposing_party_id c)))
  else None.

Definition fetchAssignedUser (db : Store) (c : Cases.row)
  : option (option Users.row) :=
  if Js.truthy (Cases.assigned_to c)
  then Some (Lookup.userById db (Js.interpolate (Cases.assigned_to c)))
  else None.

Definition interestsQuery (c : Cases.row) : Query SecurityInterests.row :=
  eq SecurityInterests.case_id (Cases.id c) select.

Definition fetchSecurityInterests (db : Store) (c : Cases.row)
  : option (list SecurityInterestItem) :=
  if isForeclosure c
  then Some (map (fun i =>
                    {| interest := i;
                       lender_name :=
                         DisplayName.getPartyDisplayName
                           (Lookup.partyById db (SecurityInterests.lender_id i));
                       borrower_name :=
                         DisplayName.getPartyDisplayName
                           (Lookup.partyById db (SecurityInterests.borrower_id i)) |})
                 (rows (interestsQuery c) (security_interests db)))
  else None.

Definition documentsQuery (c : Cases.row) : Query Documents.row :=
  order Documents.created_at false (eq Documents.case_id (Cases.id c) select).

Definition fetchDocuments (db : Store) (c : Cases.row) : list DocumentItem :=
  map (fun d =>
         {| document := d;
            uploader_name :=
              match Lookup.userById db (Documents.uploaded_by d) with
              | Some u => DisplayName.userName u
              | None => "Unknown"
              end |})
      (rows (documentsQuery c) (documents db)).

Definition deadlinesQuery (c : Cases.row) : Query Deadlines.row :=
  order Deadlines.due_date true (eq Deadlines.case_id (Cases.id c) select).

Definition fetchDeadlines (db : Store) (c : Cases.row) : list DeadlineItem :=
  map (fun d =>
         {| deadline := d;
            assignee_name :=
              if Js.truthy (Deadlines.assigned_to d)
              then match Lookup.userById db
                           (Js.interpolate (Deadlines.assigned_to d)) with
                   | Some u => DisplayName.userName u
                   | None => "Unassigned"
                   end
              else "Unassigned" |})
      (rows (deadlinesQuery c) (deadlines db)).

Definition financialsQuery (c : Cases.row) : Query Financials.row :=
  order Financials.transaction_date false
    (eq Financials.case_id (Cases.id c) select).

Definition fetchFinancials (db : Store) (c : Cases.row) : list FinancialItem :=
  map (fun f =>
         {| financial := f;
            recorder_name :=
              match Lookup.userById db (Financials.recorded_by f) with
              | Some u => DisplayName.userName u
              | None => "Unknown"
              end;
            party_name :=
              if Js.truthy (Financials.party_id f)
              then Some (DisplayName.getPartyDisplayName
                           (Lookup.partyById db
                              (Js.interpolate (Financials.party_id f))))
              else None |})
      (rows (financialsQuery c) (financials db)).

Definition keep {A} (fetched : option A) (old : A) : A :=
  match fetched with Some v => v | None => old end.

(** The lookup of the case by the id of the route. *)
Definition caseLookup (db : Store) (caseId : uuid) : Result Cases.row :=
  single (eq Cases.id caseId select) (cases db).

Definition fetchCaseData (db : Store) (caseId : uuid) (s : State) : State :=
  match caseLookup db caseId with
  | Err _ =>
(* [throw caseError], caught: [router.push('/cases')] *)
{| caseData := caseData s; client := client s;
   opposingParty := opposingParty s; assignedUser := assignedUser s;
   securityInterests := securityInterests s;
   documents_shown := documents_shown s;
   deadlines_shown := deadlines_shown s;
   financials_shown := financials_shown s;
   isLoading := false;
   went_to := Redirected "/cases" |}
| Ok c =>
    {| caseData := Some c;
       client := keep (fetchClient db c) (client s);
       opposingParty := keep (fetchOpposingParty db c) (opposingParty s);
       assignedUser := keep (fetchAssignedUser db c) (assignedUser s);
       securityInterests :=
         keep (fetchSecurityInterests db c) (securityInterests s);
       documents_shown := fetchDocuments db c;
       deadlines_shown := fetchDeadlines db c;
       financials_shown := fetchFinancials db c;
       isLoading := false;
       went_to := went_to s |}
end.

(** *** Deleting the case *)

Inductive ChildTable :=
| security_interests_t
| documents_t
| deadlines_t
| financials_t.

(** The four deletions handed to [Promise.all], as written. *)
Definition childDeletions : list ChildTable :=
  [security_interests_t; documents_t; deadlines_t; financials_t].

(** A request the database has answered. *)
Inductive Request :=
| DeleteChildren (t : ChildTable)
| DeleteCase.

(** The store together with the requests answered so far, oldest first. *)
Record World := {
  store : Store;
  answered : list Request
}.

(** Which requests do not go through. *)
Record Faults := {
  child_fails : ChildTable -> bool;
  case_fails : bool
}.

Definition noFaults : Faults :=
  {| child_fails := fun _ => false; case_fails := false |}.

(** [from(t).delete().eq('case_id', id)] on a child table. *)
Definition deleteFrom (t : ChildTable) (cid : uuid) (db : Store) : Store :=
  match t with
  | security_interests_t =>
      with_security_interests db
        (delete (fun r => (SecurityInterests.case_id r =? cid)%string)
                (security_interests db))
  | documents_t =>
      with_documents db
        (delete (fun r => (Documents.case_id r =? cid)%string) (documents db))
  | deadlines_t =>
      with_deadlines db
        (delete (fun r => (Deadlines.case_id r =? cid)%string) (deadlines db))
  | financials_t =>
      with_financials db
        (delete (fun r => (Financials.case_id r =? cid)%string) (financials db))
  end.

(** One of the four child deletions; its error, if any, is not read. *)
Definition deleteChildren (fl : Faults) (cid : uuid) (w : World)
    (t : ChildTable) : World :=
  {| store := if child_fails fl t then store w else deleteFrom t cid (store w);
     answered := (answered w ++ [DeleteChildren t])%list |}.

(** The rows a query by [case_id] finds in a child table. *)
Definition childRows (t : ChildTable) (cid : uuid) (db : Store) : nat :=
  match t with
  | security_interests_t =>
      List.length (rows (eq SecurityInterests.case_id cid select)
                        (security_interests db))
  | documents_t =>
      List.length (rows (eq Documents.case_id cid select) (documents db))
  | deadlines_t =>
      List.length (rows (eq Deadlines.case_id cid select) (deadlines db))
  | financials_t =>
      List.length (rows (eq Financials.case_id cid select) (financials db))
  end.

(** The schema's [case_id ... REFERENCES cases(id)] on the four child
    tables: a case still referenced cannot be deleted. *)
Definition referenced (cid : uuid) (db : Store) : bool :=
  existsb (fun t => negb (childRows t cid db =? 0)%nat) childDeletions.

(** [from('cases').delete().eq('id', id)]. *)
Definition deleteCase (fl : Faults) (cid : uuid) (w : World)
  : World * Result unit :=
  let answered' := (answered w ++ [DeleteCase])%list in
  if case_fails fl
  then ({| store := store w; answered := answered' |}, Err Unavailable)
  else if referenced cid (store w)
  then ({| store := store w; answered := answered' |}, Err ForeignKeyViolation)
  else ({| store := with_cases (store w)
                      (delete (fun c => (Cases.id c =? cid)%string)
                              (cases (store w)));
           answered := answered' |}, Ok tt).

(** [handleDeleteCase].  [order] is the order in which the database
    answers the four deletions of [Promise.all]; [confirmed] is the
    answer to [window.confirm]. *)
Definition handleDeleteCase (fl : Faults) (order : list ChildTable)
    (confirmed : bool) (s : State) (w : World) : World * Outcome :=
  match caseData s with
  | None => (w, Nothing)
  | Some c =>
      if confirmed
      then
        let w1 := fold_left (deleteChildren fl (Cases.id c)) order w in
        match deleteCase fl (Cases.id c) w1 with
        | (w2, Err _) =>
            (w2, Alerted "Failed to delete the case. Please try again.")
        | (w2, Ok _) => (w2, Redirected "/cases")
        end
      else (w, Nothing)
  end.

End CaseDetailPage.

(* ------------------------------------------------------------------ *)
(** ** The document-upload page *)

Module NewDocumentPage.
Import Supabase.

(** The case lookup of [fetchData]: by id, within the caller's firm. *)
Definition caseLookup (db : Store) (firm caseId : uuid) : Result Cases.row :=
  single (eq Cases.firm_id firm (eq Cases.id caseId select)) (cases db).

(** The lookup of the parties of the case, within the caller's firm. *)
Definition partiesQuery (firm : uuid) (c : Cases.row) : Query Parties.row :=
  in_ Parties.id
    (map Js.interpolate
       (filter Js.truthy [Some (Cases.client_id c); Cases.opposing_party_id c]))
    (eq Parties.firm_id firm select).

End NewDocumentPage.

(* ------------------------------------------------------------------ *)
(** ** The scripted assistant *)

Module Assistant.
Import Js.

Definition draftingReply : string :=
  "I have drafted the document based on your requirements. Here is the suggested text:

[Document content would appear here with proper formatting and legal language based on the case details provided]".

Definition analysisReply : string :=
  "Based on my analysis of the document, here are my observations:

1. The agreement contains several ambiguous clauses in sections 3.2 and 5.1 that could be clarified.
2. The indemnification clause is more favorable to the opposing party.
3. There are potential compliance issues with local regulations in section 7.

I recommend revising these sections to strengthen your client's position.".

Definition summaryReply : string :=
  "Summary of the document:

This is a mortgage foreclosure complaint filed against John Doe regarding the property at 123 Main St. The complaint alleges that the defendant has failed to make payments for 6 months, totaling $12,500 in arrears. The plaintiff is seeking foreclosure and sale of the property to satisfy the debt of $275,000 plus interest and costs.".

Definition deadlinesReply : string :=
  "Based on the foreclosure regulations in this jurisdiction, here are the key deadlines to be aware of:

- Defendant has 21 days to file an answer to the complaint
- If no answer is filed, you can move for default judgment after day 22
- Redemption period is 6 months from judgment
- Sale can be scheduled approximately 30-45 days after judgment
- Confirmation hearing typically 30 days after sale".

Definition defaultReply : string :=
  "I've analyzed your request and the case information provided. To best assist you with this legal matter, I would need more specific details about what you're looking to accomplish. Would you like me to draft a document, review existing content, provide legal analysis, or suggest strategy?".

(** [fetchAIResponse]: the reply the promise resolves with. *)
Definition fetchAIResponse (prompt : string) : string :=
  if includes (toLowerCase prompt) "draft"
     || includes (toLowerCase prompt) "write"
  then draftingReply
  else if includes (toLowerCase prompt) "analyze"
          || includes (toLowerCase prompt) "review"
  then analysisReply
  else if includes (toLowerCase prompt) "summarize"
  then summaryReply
  else if includes (toLowerCase prompt) "deadline"
          || includes (toLowerCase prompt) "timeline"
  then deadlinesReply
  else defaultReply.

End Assistant.

(* ------------------------------------------------------------------ *)
(** ** The specification's wording, for comparison *)

Module AsSpecified.
Import Js.

(** The reply table as the specification words it: "draft", then
    "analyze" or "review", then "summarize", then "deadline" or
    "timeline", else the clarifying default. *)
Definition reply (prompt : string) : string :=
  if includes (toLowerCase prompt) "draft"
  then Assistant.draftingReply
  else if includes (toLowerCase prompt) "analyze"
          || includes (toLowerCase prompt) "review"
  then Assistant.analysisReply
  else if includes (toLowerCase prompt) "summarize"
  then Assistant.summaryReply
  else if includes (toLowerCase prompt) "deadline"
          || includes (toLowerCase prompt) "timeline"
  then Assistant.deadlinesReply
  else Assistant.defaultReply.

(** The display-name rule as the specification words it, for a function
    [f] rendering a party with the fallback literal [fallback]. *)
Definition displayNameRule (f : option Parties.row -> string)
    (fallback : string) (p : Parties.row) : Prop :=
  (truthy (Parties.organization_name p) = true ->
     Some (f (Some p)) = Parties.organization_name p)
  /\ (truthy (Parties.organization_name p) = false ->
      ~ (Parties.organization_name p = None /\ Parties.first_name p = None
         /\ Parties.last_name p = None) ->
      f (Some p) = trim (or_else (Parties.first_name p) "" ++ " "
                         ++ or_else (Parties.last_name p) ""))
  /\ (Parties.organization_name p = None -> Parties.first_name p = None ->
      Parties.last_name p = None -> f (Some p) = fallback)
  /\ f (Some p) <> "undefined undefined"
  /\ f (Some p) <> "null null".

(** The trigger of the placeholder security interest as the
    specification words it: "foreclosure" under any letter casing. *)
Definition isForeclosureType (case_type : string) : bool :=
  (toLowerCase case_type =? "foreclosure")%string.

(** A deadline of the firm due between [now] and seven days later, both
    ends included; [now] in milliseconds, the column in microseconds. *)
Definition dueWithinWeek (firm : uuid) (now : Z) (d : Deadlines.row) : bool :=
  (Deadlines.firm_id d =? firm)%string
  && (now * 1000 <=? Deadlines.due_date d)
  && (Deadlines.due_date d <=? (now + 604800000) * 1000).

(** The prompt, lower-cased, contains the keyword. *)
Definition mentions (prompt keyword : string) : Prop :=
  exists a b, toLowerCase prompt = a ++ keyword ++ b.

End AsSpecified.

(** Rows used in the examples. *)
Module Sample.

Definition party (pid firm : uuid) (first last org : Js.nullable)
    (client : bool) : Parties.row :=
  {| Parties.id := pid; Parties.created_at := 0; Parties.firm_id := firm;
     Parties.type := if client then "Client" else "Opposing Party";
     Parties.first_name := first; Parties.last_name := last;
     Parties.organization_name := org; Parties.email := None;
     Parties.phone := None; Parties.address := None; Parties.notes := None;
     Parties.is_client := client |}.

Definition jane : Parties.row :=
  party "jane" "acme" (Some "Jane") (Some "Roe") None true.

(** A party whose organization name is the empty string and whose
    person names are absent; the CHECK constraint admits it. *)
Definition blankOrg : Parties.row :=
  party "blank" "acme" None None (Some "") true.

(** A record with none of the three names. *)
Definition nameless : Parties.row :=
  party "nameless" "acme" None None None true.

Definition user (uid firm : uuid) (first last : string) : Users.row :=
  {| Users.id := uid; Users.created_at := 0; Users.email := uid;
     Users.first_name := first; Users.last_name := last;
     Users.role := "admin"; Users.phone := None; Users.firm_id := firm;
     Users.avatar_url := None; Users.is_active := true;
     Users.last_sign_in := None |}.

Definition case (cid firm : uuid) (created : Z) (type status : string)
    (client : uuid) : Cases.row :=
  {| Cases.id := cid; Cases.created_at := created; Cases.firm_id := firm;
     Cases.case_number := cid; Cases.title := cid; Cases.case_type := type;
     Cases.status := status; Cases.description := None;
     Cases.assigned_to := None; Cases.client_id := client;
     Cases.opposing_party_id := None; Cases.court_name := None;
     Cases.court_location := None; Cases.judge_name := None;
     Cases.filing_date := None; Cases.closure_date := None |}.

Definition deadline (did firm cid : uuid) (due : timestamp) : Deadlines.row :=
  {| Deadlines.id := did; Deadlines.created_at := 0;
     Deadlines.firm_id := firm; Deadlines.case_id := cid;
     Deadlines.title := did; Deadlines.description := None;
     Deadlines.due_date := due; Deadlines.priority := "High";
     Deadlines.status := "Pending"; Deadlines.assigned_to := None;
     Deadlines.reminder_date := None |}.

Definition document (did firm cid : uuid) (created : Z) : Documents.row :=
  {| Documents.id := did; Documents.created_at := created;
     Documents.firm_id := firm; Documents.case_id := cid;
     Documents.name := did; Documents.document_type := "pleading";
     Documents.file_path := did; Documents.file_size := 1;
     Documents.uploaded_by := "ann"; Documents.version := 1;
     Documents.is_template := false; Documents.related_party_id := None |}.

Definition financial (fid firm cid : uuid) : Financials.row :=
  {| Financials.id := fid; Financials.created_at := 0;
     Financials.firm_id := firm; Financials.case_id := cid;
     Financials.transaction_type := "Fee"; Financials.amount := 100;
     Financials.description := None; Financials.transaction_date := 0;
     Financials.recorded_by := "ann"; Financials.invoice_id := None;
     Financials.party_id := None |}.

Definition interest (iid firm cid lender borrower : uuid)
  : SecurityInterests.row :=
  {| SecurityInterests.id := iid; SecurityInterests.created_at := 0;
     SecurityInterests.firm_id := firm; SecurityInterests.case_id := cid;
     SecurityInterests.type := "Mortgage";
     SecurityInterests.description := "Primary mortgage on property";
     SecurityInterests.property_address := None;
     SecurityInterests.recorded_date := None;
     SecurityInterests.amount := 0; SecurityInterests.lien_position := None;
     SecurityInterests.lender_id := lender;
     SecurityInterests.borrower_id := borrower;
     SecurityInterests.maturity_date := None;
     SecurityInterests.interest_rate := None;
     SecurityInterests.property_value := None |}.

(** Two firms: "acme" with the user "ann", twelve cases created at the
    instants 1 to 12, and deadlines around the instant 1000 ms; "birch"
    with the user "bob" and one case with its children. *)
Definition acmeCases : list Cases.row :=
  map (fun n => case (String (ascii_of_nat (96 + n)) "") "acme" (Z.of_nat n)
                     "foreclosure" "active" "jane")
      (seq 1 12).

Definition db : Store :=
  {| firms := [];
     users := [user "ann" "acme" "Ann" "Lee"; user "bob" "birch" "Bob" "Ray"];
     parties := [jane; blankOrg];
     cases := (case "z" "birch" 20 "foreclosure" "active" "zed" :: acmeCases)%list;
     security_interests := [interest "i1" "birch" "z" "zed" "zed"];
     documents := [document "d1" "birch" "z" 1; document "d2" "acme" "a" 2];
     deadlines :=
       [deadline "early" "acme" "a" 999999;
        deadline "first" "acme" "a" 1000000;
        deadline "last" "acme" "a" 604801000000;
        deadline "late" "acme" "a" 604801000001;
        deadline "theirs" "birch" "z" 1000000];
     financials := [financial "f1" "birch" "z"] |}.

(** A database that takes every row, and the form of the case
    "Roe Foreclosure" with a given case type. *)
Definition backend : NewCasePage.Backend :=
  {| NewCasePage.case_uuid := "roe"; NewCasePage.interest_uuid := "roe-si";
     NewCasePage.now := 100; NewCasePage.case_accepted := true;
     NewCasePage.interest_accepted := true |}.

Definition roeForm (type : string) : NewCasePage.NewCaseFormValues :=
  {| NewCasePage.title := "Roe Foreclosure";
     NewCasePage.case_number := "FC-001";
     NewCasePage.case_type := type;
     NewCasePage.status := "active";
     NewCasePage.description := None;
     NewCasePage.client_id := "jane";
     NewCasePage.opposing_party_id := None;
     NewCasePage.assigned_to := None;
     NewCasePage.court_name := None;
     NewCasePage.court_location := None;
     NewCasePage.judge_name := None;
     NewCasePage.filing_date := None |}.

(** The case "z" of "birch" and the page that shows it. *)
Definition birchCase : Cases.row :=
  case "z" "birch" 20 "foreclosure" "active" "zed".

Definition viewingBirchCase : CaseDetailPage.State :=
  CaseDetailPage.fetchCaseData db "z" CaseDetailPage.initial.

Definition world : CaseDetailPage.World :=
  {| CaseDetailPage.store := db; CaseDetailPage.answered := [] |}.

(** The deletion of documents does not go through. *)
Definition documentsFail : CaseDetailPage.Faults :=
  {| CaseDetailPage.child_fails :=
       fun t => match t with
                | CaseDetailPage.documents_t => true
                | _ => false
                end;
     CaseDetailPage.case_fails := false |}.

(** An [ILIKE] for the examples: the pattern between its two percent
    signs occurs in the text, whatever the letter case. *)
Definition ilike (pattern text : string) : bool :=
  Js.includes (Js.toLowerCase text)
    (Js.toLowerCase (substring 1 (String.length pattern - 2) pattern)).

(** A database for the examples: of the values of [or] it reads the
    search for "roe", and no other. *)
Definition logic (filters : string) : option (Cases.row -> bool) :=
  if (filters =? "title.ilike.%roe%,case_number.ilike.%roe%")%string
  then Some (fun c => ilike "%roe%" (Cases.title c)
                      || ilike "%roe%" (Cases.case_number c))
  else None.

(** The case list of "acme" without filters, on a given page. *)
Definition listState (page : Z) : CasesPage.State :=
  {| CasesPage.cases_shown := []; CasesPage.isLoading := true;
     CasesPage.firmId := Some "acme"; CasesPage.searchTerm := "";
     CasesPage.statusFilter := "all"; CasesPage.typeFilter := "all";
     CasesPage.currentPage := page; CasesPage.totalPages := 1 |}.


(** The case list of "acme" on page one, ten rows shown, a term typed
    into the search box. *)
Definition searching (term : string) : CasesPage.State :=
  {| CasesPage.cases_shown :=
       map (CasesPage.withDetails db) (firstn 10 acmeCases);
     CasesPage.isLoading := false;
     CasesPage.firmId := Some "acme"; CasesPage.searchTerm := term;
     CasesPage.statusFilter := "all"; CasesPage.typeFilter := "all";
     CasesPage.currentPage := 1; CasesPage.totalPages := 0 |}.

End Sample.

(* ------------------------------------------------------------------ *)
(** ** Numbers as text *)

Module JsNumber.

(** [String(n)], [`${n}`] and [n.toString()] for an integer [n] within the
    safe range: the decimal digits, with a minus sign below zero. *)
Definition toString (n : Z) : string := NilZero.string_of_int (Z.to_int n).

(** [(num / den).toFixed(1)] for [num >= 0] and [den] a power of two, so
    that the quotient is exact: the tenths [n] nearest to the quotient,
    the larger of two equally near, written with one decimal. *)
Definition tenths (num den : Z) : Z := (2 * 10 * num + den) / (2 * den).

Definition toFixed1 (num den : Z) : string :=
  toString (tenths num den / 10) ++ "." ++ toString (tenths num den mod 10).

End JsNumber.

(** [formatFileSize], the same on the document list, the case-detail
    page and the template list. *)
Definition formatFileSize (sizeInBytes : Z) : string :=
  if sizeInBytes <? 1024
  then JsNumber.toString sizeInBytes ++ " B"
  else if sizeInBytes <? 1024 * 1024
  then JsNumber.toFixed1 sizeInBytes 1024 ++ " KB"
  else JsNumber.toFixed1 sizeInBytes (1024 * 1024) ++ " MB".

(* ------------------------------------------------------------------ *)
(** ** The middleware and the sidebar *)

Module Middleware.

Inductive Response :=
| next                            (* [NextResponse.next()] *)
| redirect (pathname : string).   (* [NextResponse.redirect(new URL(pathname, req.url))] *)

Definition startsWith (s prefix : string) : bool := String.prefix prefix s.

Definition isProtectedRoute (pathname : string) : bool :=
  startsWith pathname "/dashboard"
  || startsWith pathname "/cases"
  || startsWith pathname "/clients"
  || startsWith pathname "/documents".

Definition isAuthRoute (pathname : string) : bool :=
  startsWith pathname "/login"
  || startsWith pathname "/register"
  || startsWith pathname "/reset-password".

(** [middleware]; [session] tells whether the request carries one. *)
Definition middleware (session : bool) (pathname : string) : Response :=
  if negb session && isProtectedRoute pathname then redirect "/login"
  else if session && isAuthRoute pathname then redirect "/dashboard"
  else next.

End Middleware.

Module Sidebar.

Record Item := {
  name : string;
  href : string
}.

Definition navigation : list Item :=
  [ {| name := "Dashboard"; href := "/dashboard" |};
    {| name := "Cases"; href := "/cases" |};
    {| name := "Parties"; href := "/parties" |};
    {| name := "Documents"; href := "/documents" |};
    {| name := "Deadlines"; href := "/deadlines" |};
    {| name := "Financials"; href := "/financials" |};
    {| name := "Settings"; href := "/settings" |} ].

(** [pathname === item.href || pathname?.startsWith(`${item.href}/`)];
    [usePathname] may give null. *)
Definition isActive (pathname : option string) (item : Item) : bool :=
  match pathname with
  | None => false
  | Some p => (p =? href item)%string || String.prefix (href item ++ "/") p
  end.

End Sidebar.

(* ------------------------------------------------------------------ *)
(** ** Status and priority badges *)

Module Badges.

Inductive Variant := default | success | warning | danger | info.

(** [getStatusBadgeVariant] of the dashboard and of the case list. *)
Definition getStatusBadgeVariant (status : string) : Variant :=
  let s := Js.toLowerCase status in
  if (s =? "active")%string then success
  else if (s =? "pending")%string then warning
  else if (s =? "closed")%string then default
  else info.

(** [getStatusBadgeVariant] of the case-detail page, which also badges
    the status of a deadline. *)
Definition getStatusBadgeVariant_detail (status : string) : Variant :=
  let s := Js.toLowerCase status in
  if (s =? "active")%string then success
  else if (s =? "pending")%string then warning
  else if (s =? "closed")%string then default
  else if (s =? "completed")%string then success
  else if (s =? "overdue")%string then danger
  else info.

(** [getPriorityBadgeVariant] of the case-detail page. *)
Definition getPriorityBadgeVariant (priority : string) : Variant :=
  let s := Js.toLowerCase priority in
  if (s =? "high")%string then danger
  else if (s =? "medium")%string then warning
  else if (s =? "low")%string then info
  else default.

End Badges.

(* ------------------------------------------------------------------ *)
(** ** Registration *)

Module RegisterPage.
Import Supabase.

(** The password rule of [registerSchema]: at least eight code units, an
    upper-case letter, a digit, and one of the listed special
    characters. *)
Definition hasChar (inClass : ascii -> bool) (s : string) : bool :=
  existsb inClass (list_ascii_of_string s).

Definition isUpper (c : ascii) : bool :=
  ((65 <=? nat_of_ascii c) && (nat_of_ascii c <=? 90))%nat.

Definition isDigit (c : ascii) : bool :=
  ((48 <=? nat_of_ascii c) && (nat_of_ascii c <=? 57))%nat.

(** The character class of the third pattern; the double quote is
    code unit 34. *)
Definition specials : list ascii :=
  list_ascii_of_string
    ("!@#$%^&*(),.?" ++ String (ascii_of_nat 34) ":{}|<>").

Definition isSpecial (c : ascii) : bool :=
  existsb (Ascii.eqb c) specials.

Definition passwordOk (password : string) : bool :=
  (8 <=? String.length password)%nat
  && hasChar isUpper password
  && hasChar isDigit password
  && hasChar isSpecial password.

(** The password rule of [loginSchema]. *)
Definition loginPasswordOk (password : string) : bool :=
  (6 <=? String.length password)%nat.

Record RegisterFormValues := {
  firstName : string;
  lastName : string;
  email : string;
  password : string;
  confirmPassword : string;
  firmName : string
}.

(** How the identity service and the database answer: the user signed
    up (or the error, or no user), the id the new firm gets, and whether
    each insert is taken. *)
Record Backend := {
  signedUp : Result (option uuid);
  firm_uuid : uuid;
  now : timestamp;
  firm_accepted : bool;
  user_accepted : bool
}.

(** Where a submission ended. *)
Inductive Submitted :=
| Confirmation           (* [router.push('/register/confirmation')] *)
| AuthError              (* [throw authError] *)
| UserCreationFailed     (* 'User creation failed' *)
| FirmError              (* [throw firmError] *)
| UserError.             (* [throw userError] *)

Definition firmRow (be : Backend) (data : RegisterFormValues) : Firms.row :=
  {| Firms.id := firm_uuid be; Firms.created_at := now be;
     Firms.name := firmName data; Firms.address := ""; Firms.phone := "";
     Firms.email := email data; Firms.logo_url := None;
     Firms.subscription_tier := "basic"; Firms.is_active := true |}.

Definition userRow (be : Backend) (uid : uuid) (data : RegisterFormValues)
    (firm : Firms.row) : Users.row :=
  {| Users.id := uid; Users.created_at := now be; Users.email := email data;
     Users.first_name := firstName data; Users.last_name := lastName data;
     Users.role := "admin"; Users.phone := None;
     Users.firm_id := Firms.id firm; Users.avatar_url := None;
     Users.is_active := true; Users.last_sign_in := None |}.

Definition with_firms (db : Store) (l : list Firms.row) : Store :=
  {| firms := l; users := users db; parties := parties db;
     cases := cases db; security_interests := security_interests db;
     documents := documents db; deadlines := deadlines db;
     financials := financials db |}.

Definition with_users (db : Store) (l : list Users.row) : Store :=
  {| firms := firms db; users := l; parties := parties db;
     cases := cases db; security_interests := security_interests db;
     documents := documents db; deadlines := deadlines db;
     financials := financials db |}.

(** [onSubmit]: sign up, create the firm, create the profile of its
    first user. *)
Definition onSubmit (be : Backend) (data : RegisterFormValues) (db : Store)
  : Store * Submitted :=
  match signedUp be with
  | Err _ => (db, AuthError)
  | Ok None => (db, UserCreationFailed)
  | Ok (Some uid) =>
      if firm_accepted be
      then
        let firm := firmRow be data in
        let db1 := with_firms db (firms db ++ [firm])%list in
        if user_accepted be
        then (with_users db1 (users db1 ++ [userRow be uid data firm])%list,
              Confirmation)
        else (db1, UserError)
      else (db, FirmError)
  end.

End RegisterPage.

(* ------------------------------------------------------------------ *)
(** ** Uploading a document *)

Module UploadPage.
Import Supabase.

Record File := {
  file_name : string;
  file_size : Z
}.

Record DocumentFormValues := {
  name : string;
  document_type : string;
  related_party_id : Js.nullable;
  file : File
}.

Record State := {
  isLoading : bool;
  caseData : option Cases.row;
  parties_shown : list Parties.row;
  firmId : option uuid
}.

Definition initial : State :=
  {| isLoading := false; caseData := None; parties_shown := []; firmId := None |}.

(** [fetchData].  The second component tells whether it ended by
    throwing: with no case found, [caseData.client_id] is read off null. *)
Definition fetchData (db : Store) (user : option uuid) (caseId : uuid)
    (s : State) : State * bool :=
  match Lookup.firmIdOf db user with
  | None => (s, false)
  | Some firm =>
      match data (NewDocumentPage.caseLookup db firm caseId) with
      | None =>
          ({| isLoading := isLoading s; caseData := None;
              parties_shown := parties_shown s; firmId := Some firm |}, true)
      | Some c =>
          ({| isLoading := isLoading s; caseData := Some c;
              parties_shown := rows (NewDocumentPage.partiesQuery firm c) (parties db);
              firmId := Some firm |}, false)
      end
  end.

(** The form is rendered once a case is loaded; before, the page shows
    its spinner. *)
Definition formShown (s : State) : bool :=
  match caseData s with Some _ => true | None => false end.

(** How the database answers the insert, and the reading of the clock
    the file name is built from. *)
Record Backend := {
  document_uuid : uuid;
  now : timestamp;
  clock : Z;
  accepted : bool
}.

Definition filePath (be : Backend) (caseId : uuid) (data : DocumentFormValues)
  : string :=
  "documents/" ++ caseId ++ "/"
  ++ (JsNumber.toString (clock be) ++ "_" ++ file_name (file data)).

Definition documentRow (be : Backend) (firm caseId uid : uuid)
    (data : DocumentFormValues) : Documents.row :=
  {| Documents.id := document_uuid be;
     Documents.created_at := now be;
     Documents.firm_id := firm;
     Documents.case_id := caseId;
     Documents.name := name data;
     Documents.document_type := document_type data;
     Documents.file_path := filePath be caseId data;
     Documents.file_size := file_size (file data);
     Documents.uploaded_by := uid;
     Documents.version := 1;
     Documents.is_template := false;
     Documents.related_party_id := NewCasePage.orNull (related_party_id data) |}.

Definition failed : Outcome :=
  Alerted "Failed to upload document. Please try again.".

Definition onSubmit (be : Backend) (user : option uuid) (caseId : uuid)
    (s : State) (data : DocumentFormValues) (db : Store) : Store * Outcome :=
  if Js.truthy (firmId s) && Js.truthy (Some caseId)
  then
    match user with
    | None => (db, failed)
    | Some uid =>
        if accepted be
        then (with_documents db
                (documents db
                 ++ [documentRow be (Js.interpolate (firmId s)) caseId uid data])%list,
              Redirected ("/cases/" ++ caseId ++ "?tab=documents"))
        else (db, failed)
    end
  else (db, Nothing).

End UploadPage.

(* ------------------------------------------------------------------ *)
(** ** The assistant page *)

Module AssistantPage.

Inductive Sender := user | ai.

Record Message := {
  id : string;
  sender : Sender;
  content : string;
  timestamp : Z
}.

Record State := {
  messages : list Message;
  input : string;
  isLoading : bool
}.

Definition greeting : string :=
  "Hello! I'm your AI legal assistant. I can help you draft documents, analyze legal content, summarize case information, and more. Select a case to get started, or just ask me a general legal question.".

(** The state once the page is mounted, at the instant [instant]. *)
Definition mounted (instant : Z) : State :=
  {| messages := [ {| id := "1"; sender := ai; content := greeting;
                      timestamp := instant |} ];
     input := ""; isLoading := false |}.

(** The readings of the clock that go into one message: [Date.now()] for
    its id, [new Date()] for its time. *)
Record Clock := {
  idAt : Z;
  stampAt : Z
}.

(** The page together with the calls of [handleSendMessage] that wait
    for their reply, each with the input it was called on. *)
Record Session := {
  page : State;
  awaited : list string
}.

Definition begun (instant : Z) : Session :=
  {| page := mounted instant; awaited := [] |}.

Definition setInput (text : string) (s : State) : State :=
  {| messages := messages s; input := text; isLoading := isLoading s |}.

(** [handleSendMessage] up to its [await]: the message of the user is
    added, the input cleared, and the reply to the input awaited. *)
Definition handleSendMessage (sent : Clock) (s : Session) : Session :=
  if (Js.trim (input (page s)) =? "")%string then s
  else
    let userMessage :=
      {| id := JsNumber.toString (idAt sent); sender := user;
         content := input (page s); timestamp := stampAt sent |} in
    {| page := {| messages := (messages (page s) ++ [userMessage])%list;
                  input := ""; isLoading := true |};
       awaited := (awaited s ++ [input (page s)])%list |}.

(** [handleSendMessage] from its [await] on, for a call that waited on
    [prompt]: the reply is added. *)
Definition resumed (prompt : string) (replied : Clock) (s : State) : State :=
  let aiMessage :=
    {| id := JsNumber.toString (idAt replied + 1); sender := ai;
       content := Assistant.fetchAIResponse prompt;
       timestamp := stampAt replied |} in
  {| messages := (messages s ++ [aiMessage])%list;
     input := input s; isLoading := false |}.

(** What happens on the page: the user types, sends (the Enter key of
    the input sends whether or not a reply is awaited), or the reply of
    one of the waiting calls arrives. *)
Inductive Event :=
| Typed (text : string)
| Sent (now : Clock)
| Replied (which : nat) (now : Clock).

Definition step (s : Session) (e : Event) : Session :=
  match e with
  | Typed text => {| page := setInput text (page s); awaited := awaited s |}
  | Sent now => handleSendMessage now s
  | Replied which now =>
      match nth_error (awaited s) which with
      | Some prompt =>
          {| page := resumed prompt now (page s);
             awaited := (firstn which (awaited s)
                         ++ skipn (S which) (awaited s))%list |}
      | None => s
      end
  end.

Definition run (instant : Z) (events : list Event) : Session :=
  fold_left step events (begun instant).


End AssistantPage.

(* ------------------------------------------------------------------ *)
(** ** Auxiliary views of the pages *)

Module DeleteSteps.
Import CaseDetailPage.

(** What one child deletion does to the store. *)
Definition onStore (fl : Faults) (cid : uuid) (db : Store) (t : ChildTable)
  : Store :=
  if child_fails fl t then db else deleteFrom t cid db.

End DeleteSteps.

(** More rows for the examples. *)
Module Fixture.

Definition uploadBackend : UploadPage.Backend :=
  {| UploadPage.document_uuid := "d3"; UploadPage.now := 50;
     UploadPage.clock := 1700000000000; UploadPage.accepted := true |}.

Definition complaint : UploadPage.DocumentFormValues :=
  {| UploadPage.name := "Complaint"; UploadPage.document_type := "pleading";
     UploadPage.related_party_id := Some "";
     UploadPage.file := {| UploadPage.file_name := "complaint.pdf";
                           UploadPage.file_size := 1048570 |} |}.

(** The upload page of "ann" on the case "a" of her firm. *)
Definition uploading : UploadPage.State :=
  fst (UploadPage.fetchData Sample.db (Some "ann") "a" UploadPage.initial).

Definition registration : RegisterPage.RegisterFormValues :=
  {| RegisterPage.firstName := "Cy"; RegisterPage.lastName := "Dow";
     RegisterPage.email := "cy@cedar.example";
     RegisterPage.password := "Passw0rd!";
     RegisterPage.confirmPassword := "Passw0rd!";
     RegisterPage.firmName := "Cedar Law" |}.

Definition registerBackend (userTaken : bool) : RegisterPage.Backend :=
  {| RegisterPage.signedUp := Supabase.Ok (Some "cy");
     RegisterPage.firm_uuid := "cedar"; RegisterPage.now := 60;
     RegisterPage.firm_accepted := true;
     RegisterPage.user_accepted := userTaken |}.

(** The document list of "acme" without filters, on a given page. *)
Definition documentList (page : Z) : DocumentsPage.State :=
  {| DocumentsPage.documents_shown := []; DocumentsPage.isLoading := true;
     DocumentsPage.firmId := Some "acme"; DocumentsPage.searchTerm := "";
     DocumentsPage.typeFilter := "all"; DocumentsPage.caseFilter := "all";
     DocumentsPage.currentPage := page; DocumentsPage.totalPages := 1 |}.

End Fixture.

(* ================================================================== *)
(** * Properties *)

(** ** Strings *)

Module JsFacts.
Import Js.

Lemma prefix_iff (k s : string) :
  String.prefix k s = true <-> exists b, s = k ++ b.
Proof.
  revert s; induction k as [|c k IH]; intros s.
  - split; [intros _; exists s; reflexivity | intros _; now destruct s].
  - destruct s as [|d s]; simpl.
    + split; [discriminate | intros [b Hb]; discriminate].
    + destruct (ascii_dec c d) as [->|Hcd].
      * rewrite IH. split; intros [b Hb].
        -- exists b. now rewrite Hb.
        -- exists b. now injection Hb.
      * split; [discriminate|].
        intros [b Hb]. injection Hb as Hd _. congruence.
Qed.

(** [includes] decides occurrence as a contiguous run. *)
Lemma includes_iff (s k : string) :
  includes s k = true <-> exists a b, s = a ++ k ++ b.
Proof.
  induction s as [|c s IH].
  - cbn [includes]. rewrite orb_false_r, prefix_iff. split.
    + intros [b Hb]. exists "", b. exact Hb.
    + intros [a [b Hab]]. destruct a; [exists b; exact Hab | discriminate].
  - cbn [includes]. rewrite orb_true_iff, prefix_iff, IH. split.
    + intros [[b Hb] | [a [b Hab]]].
      * exists "", b. exact Hb.
      * exists (String c a), b. simpl. now rewrite Hab.
    + intros [a [b Hab]]. destruct a as [|d a].
      * left. exists b. exact Hab.
      * right. exists a, b. simpl in Hab. now injection Hab.
Qed.

Lemma includes_false_iff (s k : string) :
  includes s k = false <-> ~ exists a b, s = a ++ k ++ b.
Proof.
  rewrite <- includes_iff. destruct (includes s k); split; intros H;
    try reflexivity; try discriminate; try (intros ?; discriminate).
  exfalso. now apply H.
Qed.

Lemma eqb_empty (s : string) : (s =? "")%string = true <-> s = "".
Proof. apply String.eqb_eq. Qed.

Lemma trimStart_starts (s : string) : startsWithSpace (trimStart s) = false.
Proof.
  induction s as [|c s IH]; simpl; [reflexivity|].
  destruct (isWhiteSpace c) eqn:E; [exact IH | simpl; exact E].
Qed.

Lemma trimStart_blank (s : string) : blank s = true -> trimStart s = "".
Proof.
  induction s as [|c s IH]; simpl; [reflexivity|].
  intros H. apply andb_true_iff in H as [Hc Hs]. rewrite Hc. now apply IH.
Qed.

Lemma trimStart_split (s : string) :
  exists l, blank l = true /\ s = l ++ trimStart s.
Proof.
  induction s as [|c s [l [Hl Hs]]]; simpl.
  - exists "". now split.
  - destruct (isWhiteSpace c) eqn:E.
    + exists (String c l). simpl. rewrite E, Hl. split; [reflexivity|].
      now rewrite <- Hs.
    + exists "". now split.
Qed.

Lemma trimEnd_split (s : string) :
  exists r, blank r = true /\ s = trimEnd s ++ r.
Proof.
  induction s as [|c s [r [Hr Hs]]]; simpl.
  - exists "". now split.
  - destruct (isWhiteSpace c) eqn:E; simpl.
    + destruct (trimEnd s) eqn:T; simpl.
      * exists (String c r). simpl. rewrite E, Hr. split; [reflexivity|].
        simpl in Hs. now rewrite <- Hs.
      * exists r. split; [exact Hr|]. simpl in Hs. now rewrite <- Hs.
    + exists r. split; [exact Hr|]. now rewrite <- Hs.
Qed.

Lemma trimEnd_ends (s : string) : endsWithSpace (trimEnd s) = false.
Proof.
  induction s as [|c s IH]; simpl; [reflexivity|].
  destruct (isWhiteSpace c) eqn:E; simpl.
  - destruct (trimEnd s) eqn:T; simpl; [reflexivity|]. exact IH.
  - destruct (trimEnd s) eqn:T; simpl; [exact E | exact IH].
Qed.

Lemma trimEnd_starts (s : string) :
  startsWithSpace s = false -> startsWithSpace (trimEnd s) = false.
Proof.
  destruct s as [|c s]; simpl; [reflexivity|].
  intros E. rewrite E. simpl. exact E.
Qed.

Lemma trim_starts (s : string) : startsWithSpace (trim s) = false.
Proof. apply trimEnd_starts, trimStart_starts. Qed.

Lemma trim_ends (s : string) : endsWithSpace (trim s) = false.
Proof. apply trimEnd_ends. Qed.

(** [trim] removes white space from both ends and nothing else. *)
Lemma trim_split (s : string) :
  exists l r, blank l = true /\ blank r = true /\ s = l ++ trim s ++ r.
Proof.
  destruct (trimStart_split s) as [l [Hl Hs]].
  destruct (trimEnd_split (trimStart s)) as [r [Hr Ht]].
  exists l, r. repeat split; trivial. unfold trim.
  now rewrite <- Ht.
Qed.

Lemma or_else_empty (v : nullable) :
  truthy v = false -> or_else v "" = "".
Proof.
  destruct v as [s|]; simpl; [|reflexivity].
  destruct (s =? "")%string eqn:E; [reflexivity | discriminate].
Qed.

Lemma or_else_value (v : nullable) :
  or_else v "" = match v with Some s => s | None => "" end.
Proof.
  destruct v as [s|]; simpl; [|reflexivity].
  destruct (s =? "")%string eqn:E; [|reflexivity].
  apply eqb_empty in E. now subst.
Qed.

End JsFacts.

(* ------------------------------------------------------------------ *)
(** ** The scripted assistant *)

Section AssistantTable.
Import Js AsSpecified Assistant JsFacts.

Lemma includes_mentions (prompt k : string) :
  includes (toLowerCase prompt) k = true <-> mentions prompt k.
Proof. apply includes_iff. Qed.

Lemma includes_not_mentions (prompt k : string) :
  includes (toLowerCase prompt) k = false <-> ~ mentions prompt k.
Proof. apply includes_false_iff. Qed.

End AssistantTable.

(** C9, as amended: the reply is chosen by case-insensitive substring
    match in a fixed order; a prompt containing "draft" or "write" gets
    the drafting reply; otherwise one containing "analyze" or "review" the
    analysis reply; otherwise "summarize" the summary reply; otherwise
    "deadline" or "timeline" the deadlines reply; every other prompt the
    default reply. *)
Theorem fetchAIResponse_table (prompt : string) :
  let has := AsSpecified.mentions prompt in
  ((has "draft" \/ has "write") ->
     Assistant.fetchAIResponse prompt = Assistant.draftingReply)
  /\ (~ (has "draft" \/ has "write") -> (has "analyze" \/ has "review") ->
      Assistant.fetchAIResponse prompt = Assistant.analysisReply)
  /\ (~ (has "draft" \/ has "write") -> ~ (has "analyze" \/ has "review") ->
      has "summarize" ->
      Assistant.fetchAIResponse prompt = Assistant.summaryReply)
  /\ (~ (has "draft" \/ has "write") -> ~ (has "analyze" \/ has "review") ->
      ~ has "summarize" -> (has "deadline" \/ has "timeline") ->
      Assistant.fetchAIResponse prompt = Assistant.deadlinesReply)
  /\ (~ (has "draft" \/ has "write") -> ~ (has "analyze" \/ has "review") ->
      ~ has "summarize" -> ~ (has "deadline" \/ has "timeline") ->
      Assistant.fetchAIResponse prompt = Assistant.defaultReply).
Proof.
  intros has. unfold has, Assistant.fetchAIResponse.
  pose proof (includes_mentions prompt) as Yes.
  destruct (Js.includes (Js.toLowerCase prompt) "draft") eqn:D;
  destruct (Js.includes (Js.toLowerCase prompt) "write") eqn:W;
  destruct (Js.includes (Js.toLowerCase prompt) "analyze") eqn:A;
  destruct (Js.includes (Js.toLowerCase prompt) "review") eqn:R;
  destruct (Js.includes (Js.toLowerCase prompt) "summarize") eqn:S;
  destruct (Js.includes (Js.toLowerCase prompt) "deadline") eqn:L;
  destruct (Js.includes (Js.toLowerCase prompt) "timeline") eqn:T;
  cbn [orb];
  repeat match goal with
         | H : Js.includes _ _ = true |- _ => apply Yes in H
         | H : Js.includes _ _ = false |- _ =>
             apply includes_not_mentions in H
         end;
  repeat split; intros; try reflexivity; exfalso; tauto.
Qed.

Lemma fetchAIResponse_table_witness :
  Assistant.fetchAIResponse "Write it up" = Assistant.draftingReply.
Proof.
  apply (proj1 (fetchAIResponse_table "Write it up")).
  right. exists "", " it up". reflexivity.
Defined.

(** C9 as stated fails: the prompt "write" contains none of the keywords
    the claim lists, and is answered with the drafting reply, not with
    the default one. *)
Lemma fetchAIResponse_write_counterexample :
  Assistant.fetchAIResponse "write" = Assistant.draftingReply
  /\ AsSpecified.reply "write" = Assistant.defaultReply
  /\ Assistant.fetchAIResponse "write" <> AsSpecified.reply "write".
Proof.
  repeat split; try reflexivity.
  intros H. vm_compute in H. discriminate H.
Qed.

(* ------------------------------------------------------------------ *)
(** ** Display names *)

(** C3, as amended: [getPartyDisplayName] returns the organization name
    when it is non-empty; otherwise the first and last names joined by a
    space, a null part counting as empty, with the white space at both
    ends removed; the fallback literal is returned when the party record
    itself is missing, and a record with none of the three names is
    rendered as the empty string.  It is total: no input makes it fail. *)
Theorem getPartyDisplayName_rule (party : option Parties.row) :
  match party with
  | None => DisplayName.getPartyDisplayName party = "Unknown"
  | Some p =>
      let shown := DisplayName.getPartyDisplayName party in
      let part v := match v with Some s => s | None => "" end in
      (forall s, Parties.organization_name p = Some s -> s <> "" -> shown = s)
      /\ (Js.truthy (Parties.organization_name p) = false ->
          shown = Js.trim (part (Parties.first_name p) ++ " "
                           ++ part (Parties.last_name p))
          /\ Js.startsWithSpace shown = false
          /\ Js.endsWithSpace shown = false)
      /\ (Js.truthy (Parties.organization_name p) = false ->
          Js.truthy (Parties.first_name p) = false ->
          Js.truthy (Parties.last_name p) = false -> shown = "")
  end.
Proof.
  destruct party as [p|]; [|reflexivity].
  cbv zeta. unfold DisplayName.getPartyDisplayName.
  repeat split.
  - intros s Hs Hne. rewrite Hs. simpl.
    destruct (s =? "")%string eqn:E; [|reflexivity].
    apply JsFacts.eqb_empty in E. contradiction.
  - rewrite H. now rewrite !JsFacts.or_else_value.
  - rewrite H. apply JsFacts.trim_starts.
  - rewrite H. apply JsFacts.trim_ends.
  - intros Ho Hf Hl. rewrite Ho.
    rewrite (JsFacts.or_else_empty _ Hf), (JsFacts.or_else_empty _ Hl).
    reflexivity.
Qed.

Lemma getPartyDisplayName_rule_witness :
  DisplayName.getPartyDisplayName (Some Sample.jane) = "Jane Roe"
  /\ DisplayName.getPartyDisplayName (Some Sample.blankOrg) = "".
Proof.
  split.
  - apply (proj1 (proj1 (proj2 (getPartyDisplayName_rule (Some Sample.jane)))
                    eq_refl)).
  - apply (proj2 (proj2 (getPartyDisplayName_rule (Some Sample.blankOrg)))
             eq_refl eq_refl eq_refl).
Defined.

(** C3 as stated fails.  The client name of the dashboard and of the case
    list renders a party whose person names are null as "null null"; and
    [getPartyDisplayName] renders a record with none of the three names as
    the empty string, not as the fallback literal. *)
Lemma displayName_counterexample :
  Parties.valid_name Sample.blankOrg = true
  /\ DisplayName.clientName (Some Sample.blankOrg) = "null null"
  /\ ~ AsSpecified.displayNameRule DisplayName.clientName "Unknown Client"
        Sample.blankOrg
  /\ DisplayName.getPartyDisplayName (Some Sample.nameless) = ""
  /\ ~ AsSpecified.displayNameRule DisplayName.getPartyDisplayName "Unknown"
        Sample.nameless.
Proof.
  repeat split.
  - intros (_ & _ & _ & _ & H). apply H. reflexivity.
  - intros (_ & _ & H & _). specialize (H eq_refl eq_refl eq_refl).
    discriminate H.
Qed.

(* ------------------------------------------------------------------ *)
(** ** Queries *)

Module QueryFacts.
Import Supabase.

Section Generic.
Context {Row : Type}.
Implicit Types (q : Query Row) (table l : list Row) (le : Row -> Row -> bool).

Lemma insert_sorted_perm le x l :
  Permutation (insert_sorted le x l) (x :: l).
Proof.
  induction l as [|y l IH]; simpl; [reflexivity|].
  destruct (le x y); [reflexivity|].
  rewrite IH. apply perm_swap.
Qed.

Lemma sort_perm le l : Permutation (sort le l) l.
Proof.
  induction l as [|x l IH]; simpl; [reflexivity|].
  rewrite insert_sorted_perm. now constructor.
Qed.

Lemma sort_length le l : List.length (sort le l) = List.length l.
Proof. apply Permutation_length, sort_perm. Qed.

Lemma sort_In le l r : In r (sort le l) <-> In r l.
Proof.
  split; apply Permutation_in; [|symmetry]; apply sort_perm.
Qed.

Lemma insert_sorted_sorted le x l :
  (forall a b, le a b = true \/ le b a = true) ->
  Sorted (fun a b => le a b = true) l ->
  Sorted (fun a b => le a b = true) (insert_sorted le x l).
Proof.
  intros Htot. induction 1 as [|y l Hs IH Hd]; simpl.
  - repeat constructor.
  - destruct (le x y) eqn:E.
    + constructor; [constructor; assumption | constructor; exact E].
    + constructor; [exact IH|].
      destruct l as [|z l]; simpl.
      * constructor. destruct (Htot x y); congruence.
      * destruct (le x z).
        -- constructor. destruct (Htot x y); congruence.
        -- inversion Hd; subst. now constructor.
Qed.

Lemma sort_sorted le l :
  (forall a b, le a b = true \/ le b a = true) ->
  Sorted (fun a b => le a b = true) (sort le l).
Proof.
  intros Htot. induction l as [|x l IH]; simpl; [constructor|].
  now apply insert_sorted_sorted.
Qed.

Lemma Sorted_impl (R R' : Row -> Row -> Prop) l :
  (forall a b, R a b -> R' a b) -> Sorted R l -> Sorted R' l.
Proof.
  intros Himp. induction 1 as [|a l _ IH Hd]; constructor; [exact IH|].
  destruct Hd; constructor. now apply Himp.
Qed.

Lemma Sorted_skipn (R : Row -> Row -> Prop) n l :
  Sorted R l -> Sorted R (skipn n l).
Proof.
  revert l; induction n as [|n IH]; intros l H; [exact H|].
  destruct l as [|x l]; [constructor|]. simpl. apply IH.
  now inversion H.
Qed.

Lemma Sorted_firstn (R : Row -> Row -> Prop) n l :
  Sorted R l -> Sorted R (firstn n l).
Proof.
  revert l; induction n as [|n IH]; intros l H; [constructor|].
  destruct l as [|x l]; [constructor|]. simpl.
  inversion H as [|? ? Hs Hd]; subst. constructor; [now apply IH|].
  destruct n; [constructor|].
  destruct l; simpl; [constructor|]. inversion Hd; subst. now constructor.
Qed.

Lemma Sorted_window (R : Row -> Row -> Prop) off lim l :
  Sorted R l -> Sorted R (window off lim l).
Proof.
  intros H. unfold window. destruct lim.
  - now apply Sorted_firstn, Sorted_skipn.
  - now apply Sorted_skipn.
Qed.

Lemma window_length off n l :
  List.length (window off (Some n) l)
  = Nat.min (Z.to_nat n) (List.length l - Z.to_nat off).
Proof.
  unfold window. now rewrite length_firstn, length_skipn.
Qed.

Lemma In_firstn n l r : In r (firstn n l) -> In r l.
Proof.
  intros H. rewrite <- (firstn_skipn n l). apply in_or_app. now left.
Qed.

Lemma In_skipn n l r : In r (skipn n l) -> In r l.
Proof.
  intros H. rewrite <- (firstn_skipn n l). apply in_or_app. now right.
Qed.

Lemma window_In off lim l r : In r (window off lim l) -> In r l.
Proof.
  unfold window. intros H. destruct lim.
  - eapply In_skipn, In_firstn, H.
  - eapply In_skipn, H.
Qed.

Lemma matching_In q table r :
  In r (matching q table) <-> In r table /\ q_where q r = true.
Proof.
  unfold matching. destruct (q_order q).
  - rewrite sort_In. apply filter_In.
  - apply filter_In.
Qed.

Lemma matching_length q table :
  Z.of_nat (List.length (matching q table)) = count_exact q table.
Proof.
  unfold matching, count_exact. destruct (q_order q); [|reflexivity].
  now rewrite sort_length.
Qed.

(** Every row of an answer comes from the table and passes the
    filters. *)
Lemma rows_In q table r :
  In r (rows q table) -> In r table /\ q_where q r = true.
Proof.
  unfold rows. intros H. apply window_In in H. now apply matching_In.
Qed.

Lemma matching_range from to q table :
  matching (range from to q) table = matching q table.
Proof. reflexivity. Qed.

Lemma count_range from to q table :
  count_exact (range from to q) table = count_exact q table.
Proof. reflexivity. Qed.

Lemma rows_range from to q table :
  rows (range from to q) table
  = firstn (Z.to_nat (to - from + 1))
           (skipn (Z.to_nat from) (matching q table)).
Proof. reflexivity. Qed.

Lemma rows_select_filter (p : Row -> bool) table :
  rows (filter_ p select) table = filter p table.
Proof.
  unfold rows, matching, window; simpl. apply filter_ext.
  intros r. reflexivity.
Qed.

(** An answer ordered by a column is sorted on it. *)
Lemma matching_ordered (col : Row -> Z) (ascending : bool) q table :
  q_order q = Some (fun a b => if ascending then col a <=? col b
                               else col b <=? col a) ->
  Sorted (fun a b => if ascending then col a <= col b else col b <= col a)
         (matching q table).
Proof.
  intros Ho. unfold matching. rewrite Ho.
  eapply Sorted_impl; [|apply sort_sorted].
  - intros a b. cbv beta. destruct ascending; apply Z.leb_le.
  - intros a b. destruct ascending; rewrite !Z.leb_le; lia.
Qed.

End Generic.

Lemma ceil_div_10 (n : Z) : ceil_div n itemsPerPage = (n + 9) / 10.
Proof.
  unfold ceil_div, itemsPerPage.
  pose proof (Z.div_mod (- n) 10 ltac:(lia)).
  pose proof (Z.mod_pos_bound (- n) 10 ltac:(lia)).
  pose proof (Z.div_mod (n + 9) 10 ltac:(lia)).
  pose proof (Z.mod_pos_bound (n + 9) 10 ltac:(lia)).
  lia.
Qed.

(** [ceil_div n 10] is the least number of pages of ten that hold [n]
    rows. *)
Lemma ceil_div_least (n : Z) :
  n <= ceil_div n itemsPerPage * 10
  /\ forall k, n <= k * 10 -> ceil_div n itemsPerPage <= k.
Proof.
  rewrite ceil_div_10.
  pose proof (Z.div_mod (n + 9) 10 ltac:(lia)).
  pose proof (Z.mod_pos_bound (n + 9) 10 ltac:(lia)).
  split; [lia|]. intros k Hk. lia.
Qed.

Lemma ceil_div_exact (n : Z) :
  ceil_div n itemsPerPage * itemsPerPage = n <-> n mod 10 = 0.
Proof.
  rewrite ceil_div_10. unfold itemsPerPage.
  pose proof (Z.div_mod (n + 9) 10 ltac:(lia)).
  pose proof (Z.mod_pos_bound (n + 9) 10 ltac:(lia)).
  pose proof (Z.div_mod n 10 ltac:(lia)).
  pose proof (Z.mod_pos_bound n 10 ltac:(lia)).
  lia.
Qed.

End QueryFacts.

(* ------------------------------------------------------------------ *)
(** ** The list views *)

Module ListFacts.
Import Supabase QueryFacts.

Section Cases.
Variable logic : string -> option (Cases.row -> bool).
Variables (firm : uuid) (s : CasesPage.State) (query : Query Cases.row).
Hypothesis accepted : CasesPage.listQuery logic firm s = Ok query.



End Cases.

(** Without a search term no [or] value is sent, and the request is one
    the database reads. *)
Lemma plain_accepted (logic : string -> option (Cases.row -> bool))
    (firm : uuid) (s : CasesPage.State) :
  CasesPage.searchTerm s = "" ->
  exists query, CasesPage.listQuery logic firm s = Ok query.
Proof.
  intros Hs. unfold CasesPage.listQuery. rewrite Hs. cbn. eexists. reflexivity.
Qed.

(** With an [or] value the database cannot read, the fetch fails and the
    page keeps the rows and the page count it had. *)
Lemma rejected_keeps (logic : string -> option (Cases.row -> bool))
    (db : Store) (firm : uuid) (s : CasesPage.State) (e : Error) :
  CasesPage.firmId s = Some firm ->
  CasesPage.listQuery logic firm s = Err e ->
  CasesPage.cases_shown (CasesPage.fetchCases logic db s) = CasesPage.cases_shown s
  /\ CasesPage.totalPages (CasesPage.fetchCases logic db s) = CasesPage.totalPages s.
Proof.
  intros Hfirm Hq. unfold CasesPage.fetchCases, CasesPage.pageRequest.
  rewrite Hfirm, Hq. now split.
Qed.

Section Documents.
Variable ilike : string -> string -> bool.
Variables (firm : uuid) (s : DocumentsPage.State).

Lemma documents_order :
  q_order (DocumentsPage.listQuery ilike firm s)
  = Some (fun a b =>
            if false then Documents.created_at a <=? Documents.created_at b
            else Documents.created_at b <=? Documents.created_at a).
Proof.
  unfold DocumentsPage.listQuery.
  destruct (negb (DocumentsPage.searchTerm s =? "")%string),
           (negb (DocumentsPage.typeFilter s =? "all")%string),
           (negb (DocumentsPage.caseFilter s =? "all")%string); reflexivity.
Qed.


End Documents.

(** The page of a query: a window of ten on an ordering of the rows
    under its filters, as long as what those rows leave from the window's
    start. *)
Lemma page_length {Row} (q : Query Row) (table : list Row) (from : Z) :
  List.length (rows (range from (from + itemsPerPage - 1) q) table)
  = Nat.min 10 (Z.to_nat (count_exact q table) - Z.to_nat from).
Proof.
  rewrite rows_range, length_firstn, length_skipn.
  rewrite <- matching_length, Nat2Z.id. unfold itemsPerPage.
  replace (from + 10 - 1 - from + 1) with 10 by lia. reflexivity.
Qed.

End ListFacts.

(** C7: in neither list view is the count taken that the pagination is
    computed from.  The count request is made by [select] on the builder
    that carries the filters, which asks for no count; its [count] is
    null, and after every fetch the database answers the number of pages
    is [Math.ceil(0 / 10) = 0], whatever the number [N] of rows under the
    filters, while the page shows the rows of its window on those [N]. *)
Theorem list_pages_not_counted
    (logic : string -> option (Cases.row -> bool))
    (ilike : string -> string -> bool) (db : Store) (firm : uuid) :
  (forall (s : CasesPage.State) (query : Supabase.Query Cases.row),
     CasesPage.firmId s = Some firm ->
     CasesPage.listQuery logic firm s = Supabase.Ok query ->
     let after := CasesPage.fetchCases logic db s in
     let N := Supabase.count_exact query (cases db) in
     CasesPage.countRequest logic db firm s = None
     /\ CasesPage.totalPages after = 0
     /\ List.length (CasesPage.cases_shown after)
        = Nat.min 10 (Z.to_nat N - Z.to_nat (CasesPage.pageFrom s)))
  /\ (forall s : DocumentsPage.State,
        DocumentsPage.firmId s = Some firm ->
        let after := DocumentsPage.fetchDocuments ilike db s in
        let N := Supabase.count_exact (DocumentsPage.listQuery ilike firm s)
                   (documents db) in
        DocumentsPage.countRequest ilike db firm s = None
        /\ DocumentsPage.totalPages after = 0
        /\ List.length (DocumentsPage.documents_shown after)
           = Nat.min 10 (Z.to_nat N - Z.to_nat (DocumentsPage.pageFrom s))).
Proof.
  split.
  - intros s query Hfirm Hq after N. subst after N.
    unfold CasesPage.fetchCases, CasesPage.countRequest, CasesPage.pageRequest.
    rewrite Hfirm, Hq. cbn [CasesPage.totalPages CasesPage.cases_shown].
    repeat split.
    rewrite length_map. unfold CasesPage.pageTo. apply ListFacts.page_length.
  - intros s Hfirm after N. subst after N.
    unfold DocumentsPage.fetchDocuments, DocumentsPage.countRequest,
      DocumentsPage.pageRequest.
    rewrite Hfirm. cbn [DocumentsPage.totalPages DocumentsPage.documents_shown].
    repeat split.
    rewrite length_map. unfold DocumentsPage.pageTo. apply ListFacts.page_length.
Qed.

Lemma list_pages_not_counted_witness :
  CasesPage.totalPages
    (CasesPage.fetchCases Sample.logic Sample.db (Sample.listState 1)) = 0
  /\ List.length
       (CasesPage.cases_shown
          (CasesPage.fetchCases Sample.logic Sample.db (Sample.listState 1)))
     = 10%nat
  /\ Supabase.count_exact
       (Supabase.order Cases.created_at false
          (Supabase.eq Cases.firm_id "acme" Supabase.select))
       (cases Sample.db) = 12.
Proof.
  destruct (proj1 (@list_pages_not_counted Sample.logic Sample.ilike Sample.db
                     "acme")
              (Sample.listState 1) _ eq_refl eq_refl) as [_ [Hpages Hrows]].
  split; [exact Hpages|]. split; [|reflexivity].
  rewrite Hrows. reflexivity.
Defined.

(** A search term with a comma in it, on a database that does not read
    the value it makes: the fetch fails and the ten rows shown stay; the
    search for "roe", which it reads, finds no case and empties the list. *)
Example fetchCases_search_rejected :
  CasesPage.cases_shown
    (CasesPage.fetchCases Sample.logic Sample.db (Sample.searching "Roe, Jane"))
  = CasesPage.cases_shown (Sample.searching "Roe, Jane")
  /\ CasesPage.cases_shown
       (CasesPage.fetchCases Sample.logic Sample.db (Sample.searching "roe"))
     = [].
Proof.
  split.
  - apply (@ListFacts.rejected_keeps Sample.logic Sample.db "acme"
             (Sample.searching "Roe, Jane") Supabase.Malformed);
      reflexivity.
  - reflexivity.
Qed.





(* ------------------------------------------------------------------ *)
(** ** The dashboard *)

Module DashboardFacts.

(** The count of upcoming deadlines for the two readings of the clock
    the request is built from. *)
Lemma upcoming_two_readings (db : Store) (firm : uuid) (now1 now2 : Z) :
  Dashboard.upcomingDeadlines (Dashboard.fetchStats db firm now1 now2)
  = Z.of_nat (List.length
      (filter (fun d => (Deadlines.firm_id d =? firm)%string
                        && (now1 * 1000 <=? Deadlines.due_date d)
                        && (Deadlines.due_date d <=? (now2 + 604800000) * 1000))
              (deadlines db))).
Proof.
  unfold Dashboard.fetchStats. cbn [Dashboard.upcomingDeadlines].
  unfold Supabase.count_exact. do 2 f_equal.
Qed.

Lemma dueWithinWeek_iff (firm : uuid) (now : Z) (d : Deadlines.row) :
  AsSpecified.dueWithinWeek firm now d = true
  <-> Deadlines.firm_id d = firm
      /\ now * 1000 <= Deadlines.due_date d
         <= (now + 7 * 24 * 60 * 60 * 1000) * 1000.
Proof.
  unfold AsSpecified.dueWithinWeek.
  rewrite !andb_true_iff, String.eqb_eq, !Z.leb_le.
  split; [intros [[? ?] ?] | intros [? [? ?]]]; repeat split; trivial; lia.
Qed.

End DashboardFacts.

(** C5: the dashboard's count of upcoming deadlines is the exact number
    of deadline rows of the caller's firm whose due date lies between now
    and seven days from now, both ends included. *)
Theorem upcomingDeadlines_exact
    (db : Store) (authUser : option uuid) (firm : uuid) (now : Z)
    (s : Dashboard.State) :
  Lookup.firmIdOf db authUser = Some firm ->
  let upcoming := filter (AsSpecified.dueWithinWeek firm now) (deadlines db) in
  Dashboard.upcomingDeadlines
    (Dashboard.stats (Dashboard.fetchUserAndData db authUser now now s))
  = Z.of_nat (List.length upcoming)
  /\ forall d, In d upcoming <->
       In d (deadlines db) /\ Deadlines.firm_id d = firm
       /\ now * 1000 <= Deadlines.due_date d
          <= (now + 7 * 24 * 60 * 60 * 1000) * 1000.
Proof.
  intros Hfirm upcoming. split.
  - unfold Dashboard.fetchUserAndData. rewrite Hfirm. cbn [Dashboard.stats].
    apply DashboardFacts.upcoming_two_readings.
  - intros d. unfold upcoming.
    rewrite filter_In, DashboardFacts.dueWithinWeek_iff. tauto.
Qed.

Lemma upcomingDeadlines_exact_witness :
  Dashboard.upcomingDeadlines
    (Dashboard.stats
       (Dashboard.fetchUserAndData Sample.db (Some "ann") 1000 1000
          Dashboard.initial))
  = 2.
Proof.
  apply (proj1 (@upcomingDeadlines_exact Sample.db (Some "ann") "acme" 1000
                  Dashboard.initial eq_refl)).
Defined.

(* ------------------------------------------------------------------ *)
(** ** Creating a case *)

(** C2, as amended: when the database takes the rows, creating a case
    whose case type is exactly "foreclosure", the value the form offers,
    adds exactly one security interest for the new case, with amount 0,
    the placeholder description, the client as lender, and as borrower
    the opposing party when one is given, the client otherwise; creating
    a case of any other type adds no security interest. *)
Theorem onSubmit_placeholder_interest
    (be : NewCasePage.Backend) (firm : uuid)
    (data : NewCasePage.NewCaseFormValues) (db : Store) :
  NewCasePage.case_accepted be = true ->
  let db' := fst (NewCasePage.onSubmit be (Some firm) data db) in
  let newCase := NewCasePage.caseRow be firm data in
  cases db' = (cases db ++ [newCase])%list
  /\ (NewCasePage.case_type data = "foreclosure" ->
      NewCasePage.interest_accepted be = true ->
      exists si,
        security_interests db' = (security_interests db ++ [si])%list
        /\ SecurityInterests.case_id si = Cases.id newCase
        /\ SecurityInterests.firm_id si = firm
        /\ SecurityInterests.amount si = 0
        /\ SecurityInterests.description si = "Primary mortgage on property"
        /\ SecurityInterests.lender_id si = NewCasePage.client_id data
        /\ SecurityInterests.borrower_id si
           = match NewCasePage.opposing_party_id data with
             | Some party => if (party =? "")%string
                             then NewCasePage.client_id data else party
             | None => NewCasePage.client_id data
             end)
  /\ (NewCasePage.case_type data <> "foreclosure" ->
      security_interests db' = security_interests db).
Proof.
  intros Hacc db' newCase. subst db'.
  unfold NewCasePage.onSubmit, NewCasePage.insert. rewrite Hacc.
  repeat split.
  - destruct (NewCasePage.case_type data =? "foreclosure")%string; reflexivity.
  - intros Htype Hsi. rewrite Htype, Hsi. simpl.
    eexists. split; [reflexivity|]. repeat split.
  - intros Htype. apply String.eqb_neq in Htype. now rewrite Htype.
Qed.

Lemma onSubmit_placeholder_interest_witness :
  exists si,
    security_interests
      (fst (NewCasePage.onSubmit Sample.backend (Some "acme")
              (Sample.roeForm "foreclosure") Sample.db))
    = (security_interests Sample.db ++ [si])%list
    /\ SecurityInterests.amount si = 0
    /\ SecurityInterests.lender_id si = "jane".
Proof.
  destruct (proj1 (proj2 (@onSubmit_placeholder_interest Sample.backend "acme"
                            (Sample.roeForm "foreclosure") Sample.db eq_refl))
              eq_refl eq_refl)
    as [si [Hsi [_ [_ [Ha [_ [Hl _]]]]]]].
  exists si. repeat split; assumption.
Defined.

(** C2 as stated fails: "Foreclosure" is "foreclosure" in another letter
    casing, and creating a case of that type adds no security interest. *)
Lemma onSubmit_casing_counterexample :
  AsSpecified.isForeclosureType "Foreclosure" = true
  /\ cases (fst (NewCasePage.onSubmit Sample.backend (Some "acme")
                   (Sample.roeForm "Foreclosure") Sample.db))
     = (cases Sample.db
        ++ [NewCasePage.caseRow Sample.backend "acme"
              (Sample.roeForm "Foreclosure")])%list
  /\ security_interests
       (fst (NewCasePage.onSubmit Sample.backend (Some "acme")
               (Sample.roeForm "Foreclosure") Sample.db))
     = security_interests Sample.db.
Proof. repeat split. Qed.

(* ------------------------------------------------------------------ *)
(** ** Deleting a case *)

Module DeleteFacts.
Import Supabase CaseDetailPage.

Lemma length_filter_delete {Row} (p : Row -> bool) (table : list Row) :
  filter p (delete p table) = [].
Proof.
  unfold delete. induction table as [|r l IH]; simpl; [reflexivity|].
  destruct (p r) eqn:E; simpl; [exact IH|]. now rewrite E.
Qed.

Lemma filter_delete_le {Row} (p p' : Row -> bool) (table : list Row) :
  filter p table = [] -> filter p (delete p' table) = [].
Proof.
  unfold delete. induction table as [|r l IH]; simpl; [reflexivity|].
  destruct (p r) eqn:E; [discriminate|]. intros H.
  destruct (p' r); simpl; [now apply IH|]. rewrite E. now apply IH.
Qed.

Lemma childRows_filter (t : ChildTable) (cid : uuid) (db : Store) :
  childRows t cid db
  = match t with
    | security_interests_t =>
        List.length (filter (fun r => (SecurityInterests.case_id r =? cid)%string)
                            (security_interests db))
    | documents_t =>
        List.length (filter (fun r => (Documents.case_id r =? cid)%string)
                            (documents db))
    | deadlines_t =>
        List.length (filter (fun r => (Deadlines.case_id r =? cid)%string)
                            (deadlines db))
    | financials_t =>
        List.length (filter (fun r => (Financials.case_id r =? cid)%string)
                            (financials db))
    end.
Proof.
  destruct t; unfold childRows, eq; now rewrite QueryFacts.rows_select_filter.
Qed.

(** A deletion empties its own table of the case's rows. *)
Lemma deleteFrom_own (t : ChildTable) (cid : uuid) (db : Store) :
  childRows t cid (deleteFrom t cid db) = 0%nat.
Proof.
  rewrite childRows_filter.
  destruct t; simpl; now rewrite length_filter_delete.
Qed.

(** A deletion leaves an empty table empty. *)
Lemma deleteFrom_keeps (t t' : ChildTable) (cid : uuid) (db : Store) :
  childRows t' cid db = 0%nat -> childRows t' cid (deleteFrom t cid db) = 0%nat.
Proof.
  rewrite !childRows_filter. intros H.
  destruct t, t'; simpl in *; try exact H;
    apply length_zero_iff_nil in H; now rewrite filter_delete_le.
Qed.

Lemma deleteFrom_cases (t : ChildTable) (cid : uuid) (db : Store) :
  cases (deleteFrom t cid db) = cases db.
Proof. now destruct t. Qed.

Lemma deleteChildren_keeps fl cid w t t' :
  childRows t' cid (store w) = 0%nat ->
  childRows t' cid (store (deleteChildren fl cid w t)) = 0%nat.
Proof.
  intros H. unfold deleteChildren; simpl.
  destruct (child_fails fl t); [exact H | now apply deleteFrom_keeps].
Qed.

Lemma fold_keeps fl cid order w t' :
  childRows t' cid (store w) = 0%nat ->
  childRows t' cid (store (fold_left (deleteChildren fl cid) order w)) = 0%nat.
Proof.
  revert w; induction order as [|t order IH]; intros w H; simpl; [exact H|].
  now apply IH, deleteChildren_keeps.
Qed.

(** After the deletions, every table whose request went through holds
    no row of the case. *)
Lemma fold_deletes fl cid order w t :
  In t order -> child_fails fl t = false ->
  childRows t cid (store (fold_left (deleteChildren fl cid) order w)) = 0%nat.
Proof.
  revert w; induction order as [|t0 order IH]; intros w Hin Hok; [easy|].
  simpl. destruct Hin as [->|Hin].
  - apply fold_keeps. unfold deleteChildren; simpl. rewrite Hok.
    apply deleteFrom_own.
  - now apply IH.
Qed.

Lemma fold_answered fl cid order w :
  answered (fold_left (deleteChildren fl cid) order w)
  = (answered w ++ map DeleteChildren order)%list.
Proof.
  revert w; induction order as [|t order IH]; intros w; simpl.
  - now rewrite app_nil_r.
  - rewrite IH. simpl. now rewrite <- app_assoc.
Qed.

Lemma fold_cases fl cid order w :
  cases (store (fold_left (deleteChildren fl cid) order w)) = cases (store w).
Proof.
  revert w; induction order as [|t order IH]; intros w; simpl; [reflexivity|].
  rewrite IH. unfold deleteChildren; simpl.
  destruct (child_fails fl t); [reflexivity | apply deleteFrom_cases].
Qed.

Lemma referenced_false (cid : uuid) (db : Store) :
  referenced cid db = false <-> forall t, childRows t cid db = 0%nat.
Proof.
  unfold referenced, childDeletions. cbn [existsb].
  rewrite orb_false_r, !orb_false_iff, !negb_false_iff, !Nat.eqb_eq. split.
  - intros (? & ? & ? & ?) t. now destruct t.
  - intros H. repeat split; apply H.
Qed.

(** The schedule of [Promise.all] holds each of the four deletions. *)
Lemma every_child_scheduled (order : list ChildTable) (t : ChildTable) :
  Permutation order childDeletions -> In t order.
Proof.
  intros Hp. apply (Permutation_in t (Permutation_sym Hp)).
  destruct t; simpl; tauto.
Qed.

(** The order in which the four deletions are answered does not show in
    the store. *)
Lemma schedule_irrelevant fl cid order w (t : ChildTable) :
  Permutation order childDeletions ->
  childRows t cid (store (fold_left (deleteChildren fl cid) order w))
  = if child_fails fl t then childRows t cid (store w) else 0%nat.
Proof.
  intros Hp. destruct (child_fails fl t) eqn:E.
  - clear Hp. revert w. induction order as [|t0 order IH]; intros w; simpl;
      [reflexivity|].
    rewrite IH. unfold deleteChildren; simpl.
    destruct (child_fails fl t0) eqn:E0; [reflexivity|].
    rewrite !childRows_filter.
    destruct t, t0; simpl; try reflexivity; congruence.
  - apply fold_deletes; [now apply every_child_scheduled | exact E].
Qed.

End DeleteFacts.

(** C4: a deletion that the user confirms, whatever the order in which
    the four child deletions are answered, goes through when no request
    fails; and once it has gone through, a query by the deleted case id
    finds no row in any of the four child tables, the case row is gone,
    and the four child deletions were answered before the deletion of the
    case was. *)
Theorem handleDeleteCase_cascade
    (fl : CaseDetailPage.Faults) (order : list CaseDetailPage.ChildTable)
    (s : CaseDetailPage.State) (w : CaseDetailPage.World) (c : Cases.row) :
  CaseDetailPage.caseData s = Some c ->
  Permutation order CaseDetailPage.childDeletions ->
  let after := CaseDetailPage.handleDeleteCase fl order true s w in
  ((forall t, CaseDetailPage.child_fails fl t = false) ->
   CaseDetailPage.case_fails fl = false ->
   snd after = Redirected "/cases")
  /\ (snd after = Redirected "/cases" ->
      (forall t,
         CaseDetailPage.childRows t (Cases.id c)
           (CaseDetailPage.store (fst after)) = 0%nat)
      /\ Supabase.rows (Supabase.eq Cases.id (Cases.id c) Supabase.select)
           (cases (CaseDetailPage.store (fst after))) = []
      /\ CaseDetailPage.answered (fst after)
         = (CaseDetailPage.answered w
            ++ map CaseDetailPage.DeleteChildren order
            ++ [CaseDetailPage.DeleteCase])%list
      /\ forall t, In (CaseDetailPage.DeleteChildren t)
                      (map CaseDetailPage.DeleteChildren order)).
Proof.
  intros Hc Hperm after. subst after.
  unfold CaseDetailPage.handleDeleteCase. rewrite Hc.
  set (w1 := fold_left (CaseDetailPage.deleteChildren fl (Cases.id c)) order w).
  unfold CaseDetailPage.deleteCase.
  split.
  - intros Hchildren Hcase. rewrite Hcase.
    assert (Href : CaseDetailPage.referenced (Cases.id c)
                     (CaseDetailPage.store w1) = false).
    { apply DeleteFacts.referenced_false. intros t.
      apply DeleteFacts.fold_deletes; [|apply Hchildren].
      now apply DeleteFacts.every_child_scheduled. }
    now rewrite Href.
  - destruct (CaseDetailPage.case_fails fl); [discriminate|].
    destruct (CaseDetailPage.referenced (Cases.id c) (CaseDetailPage.store w1))
      eqn:Href; [discriminate|].
    intros _. cbn [fst CaseDetailPage.store CaseDetailPage.answered].
    repeat split.
    + intros t. apply DeleteFacts.referenced_false with (t := t) in Href.
      rewrite DeleteFacts.childRows_filter in *. now destruct t.
    + unfold Supabase.eq. rewrite QueryFacts.rows_select_filter. simpl.
      apply DeleteFacts.length_filter_delete.
    + unfold w1. rewrite DeleteFacts.fold_answered. now rewrite <- app_assoc.
    + intros t. apply in_map. now apply DeleteFacts.every_child_scheduled.
Qed.

Lemma handleDeleteCase_cascade_witness :
  let after :=
    CaseDetailPage.handleDeleteCase CaseDetailPage.noFaults
      (rev CaseDetailPage.childDeletions) true Sample.viewingBirchCase
      Sample.world in
  snd after = Redirected "/cases"
  /\ forall t,
       CaseDetailPage.childRows t "z" (CaseDetailPage.store (fst after)) = 0%nat.
Proof.
  destruct (@handleDeleteCase_cascade CaseDetailPage.noFaults
              (rev CaseDetailPage.childDeletions) Sample.viewingBirchCase
              Sample.world Sample.birchCase eq_refl
              (Permutation_sym (Permutation_rev CaseDetailPage.childDeletions)))
    as [Hgoes Hthen].
  split.
  - apply Hgoes; reflexivity.
  - apply (Hthen (Hgoes (fun _ => eq_refl) eq_refl)).
Defined.

(** When the deletion of the documents does not go through, the case is
    still referenced: its deletion is refused and the user is alerted. *)
Example handleDeleteCase_refused :
  let after :=
    CaseDetailPage.handleDeleteCase Sample.documentsFail
      CaseDetailPage.childDeletions true Sample.viewingBirchCase Sample.world in
  snd after = Alerted "Failed to delete the case. Please try again."
  /\ cases (CaseDetailPage.store (fst after)) = cases Sample.db
  /\ CaseDetailPage.childRows CaseDetailPage.documents_t "z"
       (CaseDetailPage.store (fst after)) = 1%nat.
Proof. repeat split. Qed.

(* ------------------------------------------------------------------ *)
(** ** The authorization gate *)

Module RlsFacts.
Import Supabase.

(** The gate admits a row only of the firm the caller is resolved to. *)
Lemma row_policy_firm {Row} `{FirmScoped Row}
    (st : Store) (uid firm : uuid) (r : Row) :
  Rls.caller_firm st (Some uid) = Some firm ->
  Rls.row_policy st (Some uid) r = true -> firm_of r = firm.
Proof.
  unfold Rls.caller_firm, Rls.row_policy. intros Hfirm Hrow.
  apply existsb_exists in Hrow as [u [Hin Hu]].
  apply andb_true_iff in Hu as [Hid Hf].
  assert (Hfil : In u (filter (fun u => (Users.id u =? uid)%string) (users st)))
    by (apply filter_In; now split).
  destruct (filter (fun u => (Users.id u =? uid)%string) (users st))
    as [|u0 [|u1 l]]; try discriminate.
  injection Hfirm as <-. destruct Hfil as [->|[]].
  apply String.eqb_eq in Hf. now symmetry.
Qed.

(** It admits every row of that firm. *)
Lemma row_policy_own {Row} `{FirmScoped Row}
    (st : Store) (uid firm : uuid) (r : Row) :
  Rls.caller_firm st (Some uid) = Some firm ->
  firm_of r = firm -> Rls.row_policy st (Some uid) r = true.
Proof.
  unfold Rls.caller_firm, Rls.row_policy. intros Hfirm Hrow.
  destruct (filter (fun u => (Users.id u =? uid)%string) (users st))
    as [|u0 [|u1 l]] eqn:E; try discriminate.
  injection Hfirm as Hf.
  assert (Hin : In u0 (filter (fun u => (Users.id u =? uid)%string) (users st)))
    by (rewrite E; now left).
  apply filter_In in Hin as [Hin Hid].
  apply existsb_exists. exists u0. split; [exact Hin|].
  rewrite Hid. simpl. apply String.eqb_eq. congruence.
Qed.

(** Whatever policy stands at the gate, if it lets through no more than
    the rows of the caller's firm, no query answers with a row of another
    firm.  The schema as it stands ([Rls.no_policy]) is such a policy. *)
Lemma isolation_under {Row} `{FirmScoped Row} (policy : Row -> bool)
    (st : Store) (uid firm : uuid) (table : list Row) (q : Query Row) (r : Row) :
  Rls.caller_firm st (Some uid) = Some firm ->
  (forall x, policy x = true -> Rls.row_policy st (Some uid) x = true) ->
  In r (rows q (filter policy table)) -> In r table /\ firm_of r = firm.
Proof.
  intros Hfirm Hstrict Hin. apply QueryFacts.rows_In in Hin as [Hin _].
  apply filter_In in Hin as [Hin Hp]. split; [exact Hin|].
  apply (@row_policy_firm _ _ st uid firm r Hfirm). now apply Hstrict.
Qed.

Lemma isolation_as_declared {Row} `{FirmScoped Row}
    (table : list Row) (q : Query Row) :
  rows q (filter Rls.no_policy table) = [].
Proof.
  assert (Hnone : filter (@Rls.no_policy Row) table = []).
  { induction table as [|r l IH]; [reflexivity | exact IH]. }
  rewrite Hnone. unfold rows, matching, window. cbn [filter].
  destruct (q_order q), (q_limit q); cbn [sort];
    now rewrite ?skipn_nil, ?firstn_nil.
Qed.

(** A principal without a User record is shown nothing. *)
Lemma no_record_no_rows {Row} `{FirmScoped Row}
    (st : Store) (caller : Rls.Principal) (table : list Row) :
  (forall uid u, caller = Some uid -> In u (users st) -> Users.id u <> uid) ->
  Rls.visible st caller table = [].
Proof.
  intros Hnone. unfold Rls.visible.
  induction table as [|r l IH]; simpl; [reflexivity|].
  rewrite IH. unfold Rls.row_policy. destruct caller as [uid|]; [|reflexivity].
  destruct (existsb _ (users st)) eqn:E; [|reflexivity].
  apply existsb_exists in E as [u [Hin Hu]].
  apply andb_true_iff in Hu as [Hid _]. apply String.eqb_eq in Hid.
  now destruct (Hnone uid u eq_refl Hin).
Qed.

Lemma filter_comm {A} (f g : A -> bool) (l : list A) :
  filter f (filter g l) = filter g (filter f l).
Proof.
  induction l as [|x l IH]; simpl; [reflexivity|].
  destruct (f x) eqn:F, (g x) eqn:G; simpl; rewrite ?F, ?G, IH; reflexivity.
Qed.

(** Read through the gate, the page resolves the caller to the firm the
    gate resolves the caller to. *)
Lemma firmIdOf_view (st : Store) (uid firm : uuid) :
  Rls.caller_firm st (Some uid) = Some firm -> firm <> "" ->
  Lookup.firmIdOf (Rls.view st (Some uid)) (Some uid) = Some firm.
Proof.
  intros Hfirm Hne. pose proof Hfirm as Hres.
  unfold Rls.caller_firm in Hres.
  destruct (filter (fun u => (Users.id u =? uid)%string) (users st))
    as [|u0 [|u1 l]] eqn:E; try discriminate.
  injection Hres as Hf.
  unfold Lookup.firmIdOf, single, eq.
  rewrite QueryFacts.rows_select_filter. cbn [users Rls.view].
  unfold Rls.visible. rewrite filter_comm, E. cbn [filter].
  rewrite (@row_policy_own Users.row users_firm st uid firm u0 Hfirm Hf).
  cbn [data]. rewrite Hf. unfold Js.truthy.
  destruct (firm =? "")%string eqn:Ee; [|reflexivity].
  apply String.eqb_eq in Ee. contradiction.
Qed.

(** The rows of the caller's firm pass the gate unchanged. *)
Lemma visible_own {Row} `{FirmScoped Row}
    (st : Store) (uid firm : uuid) (p : Row -> bool) (table : list Row) :
  Rls.caller_firm st (Some uid) = Some firm ->
  filter (fun r => (firm_of r =? firm)%string && p r)
         (Rls.visible st (Some uid) table)
  = filter (fun r => (firm_of r =? firm)%string && p r) table.
Proof.
  intros Hfirm. unfold Rls.visible.
  induction table as [|r l IH]; [reflexivity|].
  cbn [filter].
  destruct (Rls.row_policy st (Some uid) r) eqn:Hp; cbn [filter].
  - now rewrite IH.
  - destruct (firm_of r =? firm)%string eqn:E; cbn [andb]; [|exact IH].
    apply String.eqb_eq in E.
    now rewrite (@row_policy_own _ _ st uid firm r Hfirm E) in Hp.
Qed.

(** Through the gate, the dashboard counts the upcoming deadlines of the
    caller's firm as they stand in the store. *)
Lemma upcoming_through_gate (st : Store) (uid firm : uuid) (now : Z)
    (s : Dashboard.State) :
  Rls.caller_firm st (Some uid) = Some firm -> firm <> "" ->
  Dashboard.upcomingDeadlines
    (Dashboard.stats
       (Dashboard.fetchUserAndData (Rls.view st (Some uid)) (Some uid)
          now now s))
  = Z.of_nat (List.length
                (filter (AsSpecified.dueWithinWeek firm now) (deadlines st))).
Proof.
  intros Hfirm Hne. unfold Dashboard.fetchUserAndData.
  rewrite (@firmIdOf_view st uid firm Hfirm Hne). cbn [Dashboard.stats].
  rewrite DashboardFacts.upcoming_two_readings. cbn [deadlines Rls.view].
  do 2 f_equal.
  set (p := fun d => (now * 1000 <=? Deadlines.due_date d)
                     && (Deadlines.due_date d <=? (now + 604800000) * 1000)).
  transitivity
    (filter (fun d => (firm_of d =? firm)%string && p d)
            (Rls.visible st (Some uid) (deadlines st))).
  - apply filter_ext. intros d. unfold p, firm_of, deadlines_firm.
    now rewrite andb_assoc.
  - rewrite (@visible_own Deadlines.row deadlines_firm st uid firm p
               (deadlines st) Hfirm).
    apply filter_ext. intros d.
    unfold p, firm_of, deadlines_firm, AsSpecified.dueWithinWeek.
    now rewrite andb_assoc.
Qed.

(** The lookup of the case-detail page carries no firm: it leans on the
    gate alone.  Read without the gate, the case of another firm is
    found; read through it, it is not. *)
Example caseLookup_leans_on_gate :
  CaseDetailPage.caseLookup Sample.db "z" = Ok Sample.birchCase
  /\ CaseDetailPage.caseLookup (Rls.view Sample.db (Some "ann")) "z"
     = Err NoRows
  /\ NewDocumentPage.caseLookup Sample.db "acme" "z" = Err NoRows.
Proof. repeat split. Qed.

End RlsFacts.

(** C1: through the gate, whatever query a principal resolved to firm F1
    issues on a firm-scoped table (cases, parties, documents, deadlines,
    financials, security interests), every row of the answer has
    [firm_id] F1, and none has the [firm_id] of another firm F2. *)
Theorem tenant_isolation {Row} `{FirmScoped Row}
    (st : Store) (uid F1 : uuid) (table : list Row) (q : Supabase.Query Row) :
  Rls.caller_firm st (Some uid) = Some F1 ->
  (forall r, In r (Supabase.rows q (Rls.visible st (Some uid) table)) ->
             In r table /\ firm_of r = F1)
  /\ (forall F2 r, F2 <> F1 ->
        In r (Supabase.rows q (Rls.visible st (Some uid) table)) ->
        firm_of r <> F2)
  /\ Supabase.count_exact q (Rls.visible st (Some uid) table)
     = Supabase.count_exact
         (Supabase.filter_ (fun r => (firm_of r =? F1)%string) q) table.
Proof.
  intros Hfirm.
  assert (Hrow : forall r,
             In r (Supabase.rows q (Rls.visible st (Some uid) table)) ->
             In r table /\ firm_of r = F1).
  { intros r Hin.
    apply (@RlsFacts.isolation_under _ _ (Rls.row_policy st (Some uid))
             st uid F1 table q r Hfirm); [tauto | exact Hin]. }
  repeat split; try (now apply Hrow).
  - intros F2 r Hne Hin. apply Hrow in Hin as [_ ->]. congruence.
  - assert (Hg : forall r, Rls.row_policy st (Some uid) r
                             = (firm_of r =? F1)%string).
    { intros r. destruct (firm_of r =? F1)%string eqn:E.
      - apply String.eqb_eq in E.
        apply (@RlsFacts.row_policy_own _ _ st uid F1 r Hfirm E).
      - destruct (Rls.row_policy st (Some uid) r) eqn:Hp; [|reflexivity].
        apply String.eqb_neq in E.
        destruct (E (@RlsFacts.row_policy_firm _ _ st uid F1 r Hfirm Hp)). }
    unfold Supabase.count_exact, Rls.visible.
    rewrite (filter_ext _ _ Hg). cbn [Supabase.q_where Supabase.filter_].
    do 2 f_equal. clear. induction table as [|r l IH]; simpl; [reflexivity|].
    destruct (firm_of r =? F1)%string; simpl.
    + rewrite andb_true_r. destruct (Supabase.q_where q r); now rewrite IH.
    + rewrite andb_false_r. exact IH.
Qed.

Lemma tenant_isolation_witness :
  Supabase.count_exact (CaseDetailPage.documentsQuery Sample.birchCase)
    (Rls.visible Sample.db (Some "ann") (documents Sample.db))
  = 0.
Proof.
  rewrite (proj2 (proj2 (@tenant_isolation Documents.row _ Sample.db "ann" "acme"
                           (documents Sample.db)
                           (CaseDetailPage.documentsQuery Sample.birchCase)
                           eq_refl))).
  reflexivity.
Defined.

(* ------------------------------------------------------------------ *)
(** ** The case-detail page *)

Module DetailFacts.
Import Supabase.

(** No case under the id: the lookup finds no row. *)
Lemma lookup_missing (db : Store) (caseId : uuid) :
  (forall c, In c (cases db) -> Cases.id c <> caseId) ->
  rows (eq Cases.id caseId select) (cases db) = [].
Proof.
  intros Hnone. unfold eq. rewrite QueryFacts.rows_select_filter.
  induction (cases db) as [|c l IH]; simpl; [reflexivity|].
  destruct (Cases.id c =? caseId)%string eqn:E.
  - apply String.eqb_eq in E. destruct (Hnone c (or_introl Logic.eq_refl) E).
  - apply IH. intros c' Hin. apply Hnone. now right.
Qed.

(** A case of another firm: through the gate, the lookup finds no row. *)
Lemma lookup_other_firm (st : Store) (uid firm caseId : uuid) :
  Rls.caller_firm st (Some uid) = Some firm ->
  (forall c, In c (cases st) -> Cases.id c = caseId -> Cases.firm_id c <> firm) ->
  rows (eq Cases.id caseId select) (cases (Rls.view st (Some uid))) = [].
Proof.
  intros Hfirm Hother. apply lookup_missing. intros c Hin Hid.
  apply filter_In in Hin as [Hin Hp].
  apply (Hother c Hin Hid).
  now apply (RlsFacts.row_policy_firm st uid).
Qed.

End DetailFacts.

(** C10: when the lookup of the case finds no row, the page treats the
    case as not found: it goes to the case list, none of the child
    fetches has touched the state, and a page that had nothing loaded has
    nothing to show. *)
Theorem fetchCaseData_not_found
    (db : Store) (caseId : uuid) (s : CaseDetailPage.State) :
  Supabase.rows (Supabase.eq Cases.id caseId Supabase.select) (cases db) = [] ->
  let s' := CaseDetailPage.fetchCaseData db caseId s in
  CaseDetailPage.caseLookup db caseId = Supabase.Err Supabase.NoRows
  /\ CaseDetailPage.went_to s' = Redirected "/cases"
  /\ CaseDetailPage.isLoading s' = false
  /\ CaseDetailPage.caseData s' = CaseDetailPage.caseData s
  /\ CaseDetailPage.client s' = CaseDetailPage.client s
  /\ CaseDetailPage.opposingParty s' = CaseDetailPage.opposingParty s
  /\ CaseDetailPage.assignedUser s' = CaseDetailPage.assignedUser s
  /\ CaseDetailPage.securityInterests s' = CaseDetailPage.securityInterests s
  /\ CaseDetailPage.documents_shown s' = CaseDetailPage.documents_shown s
  /\ CaseDetailPage.deadlines_shown s' = CaseDetailPage.deadlines_shown s
  /\ CaseDetailPage.financials_shown s' = CaseDetailPage.financials_shown s
  /\ (s = CaseDetailPage.initial ->
      CaseDetailPage.caseData s' = None
      /\ CaseDetailPage.securityInterests s' = []
      /\ CaseDetailPage.documents_shown s' = []
      /\ CaseDetailPage.deadlines_shown s' = []
      /\ CaseDetailPage.financials_shown s' = []).
Proof.
  intros Hrows s'. subst s'.
  assert (Hlook : CaseDetailPage.caseLookup db caseId = Supabase.Err Supabase.NoRows).
  { unfold CaseDetailPage.caseLookup, Supabase.single. now rewrite Hrows. }
  unfold CaseDetailPage.fetchCaseData. rewrite Hlook.
  cbn [CaseDetailPage.went_to CaseDetailPage.isLoading CaseDetailPage.caseData
       CaseDetailPage.client CaseDetailPage.opposingParty
       CaseDetailPage.assignedUser CaseDetailPage.securityInterests
       CaseDetailPage.documents_shown CaseDetailPage.deadlines_shown
       CaseDetailPage.financials_shown].
  repeat (split; [reflexivity|]).
  intros ->. repeat split.
Qed.

Lemma fetchCaseData_not_found_witness :
  CaseDetailPage.went_to
    (CaseDetailPage.fetchCaseData (Rls.view Sample.db (Some "ann")) "z"
       CaseDetailPage.initial)
  = Redirected "/cases".
Proof.
  apply (proj1 (proj2 (@fetchCaseData_not_found
                         (Rls.view Sample.db (Some "ann")) "z"
                         CaseDetailPage.initial eq_refl))).
Defined.

(* ------------------------------------------------------------------ *)
(** ** More on strings *)

Module StringFacts.

Lemma append_assoc (a b c : string) : (a ++ b) ++ c = a ++ (b ++ c).
Proof. induction a as [|x a IH]; simpl; [reflexivity | now rewrite IH]. Qed.

Lemma append_nil_r (a : string) : a ++ "" = a.
Proof. induction a as [|x a IH]; simpl; [reflexivity | now rewrite IH]. Qed.

Lemma blank_app (a b : string) :
  Js.blank (a ++ b) = Js.blank a && Js.blank b.
Proof.
  induction a as [|x a IH]; simpl; [reflexivity|].
  rewrite IH. now rewrite andb_assoc.
Qed.

(** [trim] gives the empty string exactly on white space. *)
Lemma trim_empty_iff (s : string) : Js.trim s = "" <-> Js.blank s = true.
Proof.
  split.
  - intros H. destruct (JsFacts.trim_split s) as (l & r & Hl & Hr & Hs).
    rewrite H in Hs. rewrite Hs. simpl. rewrite blank_app, Hl, Hr. reflexivity.
  - intros H. unfold Js.trim. now rewrite (JsFacts.trimStart_blank s H).
Qed.

End StringFacts.

(* ------------------------------------------------------------------ *)
(** ** The middleware and the sidebar *)

Module MiddlewareFacts.
Import Middleware.

Lemma startsWith_iff (s root : string) :
  startsWith s root = true <-> exists rest, s = root ++ rest.
Proof. apply JsFacts.prefix_iff. Qed.

Lemma isProtectedRoute_iff (pathname : string) :
  isProtectedRoute pathname = true
  <-> exists root rest,
        In root ["/dashboard"; "/cases"; "/clients"; "/documents"]
        /\ pathname = root ++ rest.
Proof.
  unfold isProtectedRoute. rewrite !orb_true_iff, !startsWith_iff. split.
  - intros [[[[r H]|[r H]]|[r H]]|[r H]]; eexists; exists r; (split; [|exact H]);
      simpl; tauto.
  - intros (root & rest & Hin & ->). simpl in Hin.
    destruct Hin as [<-|[<-|[<-|[<-|[]]]]]; eauto 6.
Qed.

Lemma isAuthRoute_iff (pathname : string) :
  isAuthRoute pathname = true
  <-> exists root rest,
        In root ["/login"; "/register"; "/reset-password"]
        /\ pathname = root ++ rest.
Proof.
  unfold isAuthRoute. rewrite !orb_true_iff, !startsWith_iff. split.
  - intros [[[r H]|[r H]]|[r H]]; eexists; exists r; (split; [|exact H]);
      simpl; tauto.
  - intros (root & rest & Hin & ->). simpl in Hin.
    destruct Hin as [<-|[<-|[<-|[]]]]; eauto 6.
Qed.

End MiddlewareFacts.

(** X1: a redirect of the middleware is final: the path it sends the
    request to is let through for the same session, so no request is
    redirected twice. *)
Theorem middleware_redirect_settles (session : bool) (pathname target : string) :
  Middleware.middleware session pathname = Middleware.redirect target ->
  Middleware.middleware session target = Middleware.next.
Proof.
  unfold Middleware.middleware at 1.
  destruct session; simpl.
  - destruct (Middleware.isAuthRoute pathname); [|discriminate].
    intros H. injection H as <-. reflexivity.
  - destruct (Middleware.isProtectedRoute pathname); [|discriminate].
    intros H. injection H as <-. reflexivity.
Qed.

Lemma middleware_redirect_settles_witness :
  Middleware.middleware false "/login" = Middleware.next.
Proof.
  apply (@middleware_redirect_settles false "/cases/42/documents/new" "/login").
  reflexivity.
Defined.

(** X2: without a session a request is sent to the login page exactly
    when its path begins with one of the four protected roots, and is let
    through otherwise; with a session it is sent to the dashboard exactly
    when its path begins with one of the three sign-in roots, and is let
    through otherwise. *)
Theorem middleware_by_prefix (pathname : string) :
  (Middleware.middleware false pathname = Middleware.redirect "/login"
   <-> exists root rest,
         In root ["/dashboard"; "/cases"; "/clients"; "/documents"]
         /\ pathname = root ++ rest)
  /\ (Middleware.middleware false pathname = Middleware.next
      <-> ~ exists root rest,
              In root ["/dashboard"; "/cases"; "/clients"; "/documents"]
              /\ pathname = root ++ rest)
  /\ (Middleware.middleware true pathname = Middleware.redirect "/dashboard"
      <-> exists root rest,
            In root ["/login"; "/register"; "/reset-password"]
            /\ pathname = root ++ rest)
  /\ (Middleware.middleware true pathname = Middleware.next
      <-> ~ exists root rest,
              In root ["/login"; "/register"; "/reset-password"]
              /\ pathname = root ++ rest).
Proof.
  rewrite <- MiddlewareFacts.isProtectedRoute_iff, <- MiddlewareFacts.isAuthRoute_iff.
  unfold Middleware.middleware; simpl.
  destruct (Middleware.isProtectedRoute pathname),
           (Middleware.isAuthRoute pathname);
    repeat split; intros; try reflexivity; try discriminate; try congruence;
    try (exfalso; auto; fail).
Qed.

Module SidebarFacts.
Import Sidebar.

Lemma active_prefix (p : string) (item : Item) :
  isActive (Some p) item = true -> exists rest, p = href item ++ rest.
Proof.
  unfold isActive. rewrite orb_true_iff, String.eqb_eq, JsFacts.prefix_iff.
  intros [->|[rest ->]].
  - exists "". now rewrite StringFacts.append_nil_r.
  - exists ("/" ++ rest). now rewrite StringFacts.append_assoc.
Qed.

(** Two entries active on one path are the same entry. *)
Lemma active_exclusive (p : string) (a b : Item) :
  In a navigation -> In b navigation ->
  isActive (Some p) a = true -> isActive (Some p) b = true -> a = b.
Proof.
  intros Ha Hb Aa Ab.
  apply active_prefix in Aa as [ra Ea]. apply active_prefix in Ab as [rb Eb].
  rewrite Ea in Eb. clear Ea. unfold navigation in Ha, Hb. simpl in Ha, Hb.
  repeat match goal with
         | H : _ \/ _ |- _ => destruct H as [H|H]
         | H : False |- _ => destruct H
         end; subst; try reflexivity; simpl in Eb; discriminate Eb.
Qed.

Lemma filter_at_most_one {A} (f : A -> bool) (l : list A) :
  NoDup l ->
  (forall a b, In a l -> In b l -> f a = true -> f b = true -> a = b) ->
  (List.length (filter f l) <= 1)%nat.
Proof.
  induction 1 as [|x l Hx Hnd IH]; intros Hex; simpl; [lia|].
  destruct (f x) eqn:Fx.
  - assert (Hnone : filter f l = []).
    { destruct (filter f l) as [|y l'] eqn:E; [reflexivity|exfalso].
      assert (Hy : In y (filter f l)) by (rewrite E; now left).
      apply filter_In in Hy as [Hy Fy].
      assert (x = y) by (apply Hex; simpl; auto). subst. contradiction. }
    rewrite Hnone. simpl. lia.
  - apply IH. intros a b Ha Hb. apply Hex; now right.
Qed.

Lemma navigation_NoDup : NoDup navigation.
Proof.
  unfold navigation.
  repeat (constructor;
          [simpl; intros H;
           repeat match goal with
                  | H : _ \/ _ |- _ => destruct H as [H|H]
                  | H : False |- _ => destruct H
                  end; discriminate|]).
  constructor.
Qed.

End SidebarFacts.

(** X3: on no path does the sidebar mark two of its entries as the
    current one. *)
Theorem sidebar_at_most_one_active (pathname : option string) :
  (List.length (filter (Sidebar.isActive pathname) Sidebar.navigation) <= 1)%nat.
Proof.
  apply SidebarFacts.filter_at_most_one; [apply SidebarFacts.navigation_NoDup|].
  destruct pathname as [p|]; [apply SidebarFacts.active_exclusive|].
  intros a b _ _ H. discriminate H.
Qed.

(* ------------------------------------------------------------------ *)
(** ** File sizes *)

Module NumberFacts.

Lemma tenths_near (num den : Z) :
  0 < den ->
  2 * Z.abs (JsNumber.tenths num den * den - 10 * num) <= den.
Proof.
  intros Hd. unfold JsNumber.tenths.
  pose proof (Z.div_mod (2 * 10 * num + den) (2 * den) ltac:(lia)) as E.
  pose proof (Z.mod_pos_bound (2 * 10 * num + den) (2 * den) ltac:(lia)) as B.
  nia.
Qed.

Lemma tenths_least (num den : Z) :
  0 < den -> den <= num -> 10 <= JsNumber.tenths num den.
Proof.
  intros Hd Hn. unfold JsNumber.tenths.
  apply Z.div_le_lower_bound; nia.
Qed.

End NumberFacts.

(** X4: from 1024 bytes on, the figure [formatFileSize] prints, read as a
    number of tenths of the unit it prints (KB below 1024 * 1024 bytes, MB
    from there on), is within a twentieth of the unit of the true size,
    and is never below 1.0. *)
Theorem formatFileSize_accuracy (size : Z) :
  1024 <= size ->
  let den := if size <? 1024 * 1024 then 1024 else 1024 * 1024 in
  let unit := if size <? 1024 * 1024 then " KB" else " MB" in
  exists t,
    formatFileSize size
    = JsNumber.toString (t / 10) ++ "." ++ JsNumber.toString (t mod 10) ++ unit
    /\ 10 <= t
    /\ 2 * Z.abs (t * den - 10 * size) <= den.
Proof.
  intros Hs den unit. subst den unit. unfold formatFileSize.
  destruct (size <? 1024) eqn:E; [apply Z.ltb_lt in E; lia|].
  destruct (size <? 1024 * 1024) eqn:E2.
  - exists (JsNumber.tenths size 1024). split; [|split].
    + unfold JsNumber.toFixed1. now rewrite !StringFacts.append_assoc.
    + apply NumberFacts.tenths_least; lia.
    + apply NumberFacts.tenths_near; lia.
  - apply Z.ltb_ge in E2.
    exists (JsNumber.tenths size (1024 * 1024)). split; [|split].
    + unfold JsNumber.toFixed1. now rewrite !StringFacts.append_assoc.
    + apply NumberFacts.tenths_least; lia.
    + apply NumberFacts.tenths_near; lia.
Qed.

Lemma formatFileSize_accuracy_witness :
  exists t,
    formatFileSize 1536
    = JsNumber.toString (t / 10) ++ "." ++ JsNumber.toString (t mod 10) ++ " KB"
    /\ 10 <= t
    /\ 2 * Z.abs (t * 1024 - 10 * 1536) <= 1024.
Proof.
  apply (@formatFileSize_accuracy 1536). lia.
Defined.

(** X5: the sizes of the last 51 bytes below one megabyte, 1048525 to
    1048575, are still printed in kilobytes, rounded up to "1024.0 KB". *)
Theorem formatFileSize_top_of_kilobytes (size : Z) :
  1048525 <= size < 1048576 -> formatFileSize size = "1024.0 KB".
Proof.
  intros Hs. unfold formatFileSize.
  destruct (size <? 1024) eqn:E; [apply Z.ltb_lt in E; lia|].
  destruct (size <? 1024 * 1024) eqn:E2; [|apply Z.ltb_ge in E2; lia].
  unfold JsNumber.toFixed1.
  assert (Ht : JsNumber.tenths size 1024 = 10240).
  { unfold JsNumber.tenths. symmetry.
    apply (Z.div_unique _ _ 10240 (2 * 10 * size + 1024 - 2 * 1024 * 10240)); lia. }
  rewrite Ht. reflexivity.
Qed.

Lemma formatFileSize_top_of_kilobytes_witness :
  formatFileSize (UploadPage.file_size (UploadPage.file Fixture.complaint))
  = "1024.0 KB".
Proof.
  apply formatFileSize_top_of_kilobytes. simpl. lia.
Defined.

(* ------------------------------------------------------------------ *)
(** ** Passwords and badges *)

(** X6: every password the registration form accepts is accepted by the
    login form. *)
Theorem registered_password_logs_in (password : string) :
  RegisterPage.passwordOk password = true ->
  RegisterPage.loginPasswordOk password = true.
Proof.
  unfold RegisterPage.passwordOk, RegisterPage.loginPasswordOk.
  rewrite !andb_true_iff, !Nat.leb_le. intros [[[H _] _] _]. lia.
Qed.

Lemma registered_password_logs_in_witness :
  RegisterPage.loginPasswordOk
    (RegisterPage.password Fixture.registration) = true.
Proof.
  apply registered_password_logs_in. reflexivity.
Defined.

(** X7: the case list and the case-detail page give a status the same
    badge, save for "completed" and "overdue" in any letter case, which
    the case-detail page alone tells from an unknown status. *)
Theorem status_badges_agree (status : string) :
  Badges.getStatusBadgeVariant status
  = Badges.getStatusBadgeVariant_detail status
  \/ (Js.toLowerCase status = "completed"
      /\ Badges.getStatusBadgeVariant status = Badges.info
      /\ Badges.getStatusBadgeVariant_detail status = Badges.success)
  \/ (Js.toLowerCase status = "overdue"
      /\ Badges.getStatusBadgeVariant status = Badges.info
      /\ Badges.getStatusBadgeVariant_detail status = Badges.danger).
Proof.
  unfold Badges.getStatusBadgeVariant, Badges.getStatusBadgeVariant_detail.
  cbv zeta.
  destruct (Js.toLowerCase status =? "active")%string; [now left|].
  destruct (Js.toLowerCase status =? "pending")%string; [now left|].
  destruct (Js.toLowerCase status =? "closed")%string; [now left|].
  destruct (Js.toLowerCase status =? "completed")%string eqn:C.
  - apply String.eqb_eq in C. right; left. now repeat split.
  - destruct (Js.toLowerCase status =? "overdue")%string eqn:O; [|now left].
    apply String.eqb_eq in O. right; right. now repeat split.
Qed.

(* ------------------------------------------------------------------ *)
(** ** More on display names *)

(** X8: [getPartyDisplayName] renders a party as the empty string
    exactly when it has no organization name and its first and last
    names, a null one counting as empty, hold nothing but white space. *)
Theorem getPartyDisplayName_empty_iff (p : Parties.row) :
  let part v := match v with Some s => s | None => "" end in
  DisplayName.getPartyDisplayName (Some p) = ""
  <-> Js.truthy (Parties.organization_name p) = false
      /\ Js.blank (part (Parties.first_name p)) = true
      /\ Js.blank (part (Parties.last_name p)) = true.
Proof.
  cbv zeta. unfold DisplayName.getPartyDisplayName.
  destruct (Js.truthy (Parties.organization_name p)) eqn:T.
  - split; [|intros [H _]; discriminate H].
    intros H. destruct (Parties.organization_name p) as [o|]; [|discriminate T].
    simpl in H, T. subst o. discriminate T.
  - rewrite StringFacts.trim_empty_iff, !JsFacts.or_else_value.
    rewrite !StringFacts.blank_app. cbn [Js.blank].
    replace (Js.isWhiteSpace " ") with true by reflexivity.
    rewrite !andb_true_iff. tauto.
Qed.

(** X9: for a party the CHECK constraint admits and whose organization
    name is not the empty string: when it has an organization name,
    [getPartyDisplayName] gives the client name of the dashboard and of the
    case list as it is; when it has none, [getPartyDisplayName] gives that
    client name trimmed. *)
Theorem clientName_agrees (p : Parties.row) :
  Parties.valid_name p = true ->
  Parties.organization_name p <> Some "" ->
  DisplayName.getPartyDisplayName (Some p)
  = if Js.truthy (Parties.organization_name p)
    then DisplayName.clientName (Some p)
    else Js.trim (DisplayName.clientName (Some p)).
Proof.
  unfold Parties.valid_name, DisplayName.getPartyDisplayName,
    DisplayName.clientName.
  intros Hv Hne.
  destruct (Parties.organization_name p) as [o|] eqn:O.
  - assert (Ht : Js.truthy (Some o) = true).
    { simpl. destruct (o =? "")%string eqn:E; [|reflexivity].
      apply String.eqb_eq in E. subst o. now destruct Hne. }
    now rewrite Ht.
  - destruct (Parties.first_name p) as [f|], (Parties.last_name p) as [l|];
      try discriminate Hv.
    cbn [Js.truthy Js.interpolate]. now rewrite !JsFacts.or_else_value.
Qed.

Lemma clientName_agrees_witness :
  DisplayName.getPartyDisplayName (Some Sample.jane)
  = Js.trim (DisplayName.clientName (Some Sample.jane)).
Proof.
  apply (@clientName_agrees Sample.jane); [reflexivity | discriminate].
Defined.

(* ------------------------------------------------------------------ *)
(** ** More on the dashboard *)

Module TopFacts.
Import Supabase.

Lemma sorted_split {A} (R : A -> A -> Prop) (n : nat) (l : list A) (a b : A) :
  StronglySorted R l -> In a (firstn n l) -> In b (skipn n l) -> R a b.
Proof.
  revert l. induction n as [|n IH]; intros l Hs Ha Hb; [destruct Ha|].
  destruct l as [|x l]; [destruct Ha|].
  inversion Hs as [|? ? Hs' Hall]; subst. simpl in Ha, Hb.
  destruct Ha as [<-|Ha].
  - rewrite Forall_forall in Hall. apply Hall. eapply QueryFacts.In_skipn, Hb.
  - now apply (IH l).
Qed.

Lemma filter_length_le {A} (f g : A -> bool) (l : list A) :
  (forall x, f x = true -> g x = true) ->
  (List.length (filter f l) <= List.length (filter g l))%nat.
Proof.
  intros H. induction l as [|x l IH]; simpl; [lia|].
  destruct (f x) eqn:F.
  - rewrite (H x F). simpl. lia.
  - destruct (g x); simpl; lia.
Qed.

Lemma recent_rows (firm : uuid) (table : list Cases.row) :
  rows (Dashboard.recentCasesQuery firm) table
  = firstn 5 (matching (order Cases.created_at false
                          (eq Cases.firm_id firm select)) table).
Proof. reflexivity. Qed.

End TopFacts.

(** X10: the recent cases of the dashboard are cases of the caller's
    firm, latest created first, and they are the latest: no case of the
    firm left out was created after one that is shown. *)
Theorem recentCases_are_the_latest
    (db : Store) (authUser : option uuid) (firm : uuid) (now1 now2 : Z)
    (s : Dashboard.State) :
  Lookup.firmIdOf db authUser = Some firm ->
  let shown :=
    map Dashboard.item
        (Dashboard.recentCases
           (Dashboard.fetchUserAndData db authUser now1 now2 s)) in
  (forall c, In c shown -> In c (cases db) /\ Cases.firm_id c = firm)
  /\ Sorted (fun a b => Cases.created_at b <= Cases.created_at a) shown
  /\ (forall c c',
        In c (cases db) -> Cases.firm_id c = firm -> ~ In c shown ->
        In c' shown -> Cases.created_at c <= Cases.created_at c').
Proof.
  intros Hfirm shown.
  set (q := Supabase.order Cases.created_at false
              (Supabase.eq Cases.firm_id firm Supabase.select)).
  assert (Hshown : shown = firstn 5 (Supabase.matching q (cases db))).
  { unfold shown, Dashboard.fetchUserAndData. rewrite Hfirm.
    cbn [Dashboard.recentCases]. rewrite map_map. cbn [Dashboard.item Dashboard.withClient].
    rewrite map_id. apply TopFacts.recent_rows. }
  assert (Hsorted : Sorted (fun a b => Cases.created_at b <= Cases.created_at a)
                      (Supabase.matching q (cases db))).
  { apply (QueryFacts.matching_ordered Cases.created_at false). reflexivity. }
  rewrite Hshown. repeat split.
  - apply QueryFacts.In_firstn, QueryFacts.matching_In in H. tauto.
  - apply QueryFacts.In_firstn, QueryFacts.matching_In in H.
    destruct H as [_ H]. unfold q in H. simpl in H. now apply String.eqb_eq.
  - now apply QueryFacts.Sorted_firstn.
  - intros c c' Hin Hf Hout Hin'.
    assert (Hm : In c (Supabase.matching q (cases db))).
    { apply QueryFacts.matching_In. split; [exact Hin|].
      unfold q. simpl. now apply String.eqb_eq. }
    rewrite <- (firstn_skipn 5 (Supabase.matching q (cases db))) in Hm.
    apply in_app_or in Hm as [Hm|Hm]; [contradiction|].
    apply (@TopFacts.sorted_split _
             (fun a b => Cases.created_at b <= Cases.created_at a)
             5 (Supabase.matching q (cases db)) c' c); trivial.
    apply Sorted_StronglySorted; [|exact Hsorted].
    intros x y z Hxy Hyz. lia.
Qed.

Lemma recentCases_are_the_latest_witness :
  Sorted (fun a b => Cases.created_at b <= Cases.created_at a)
    (map Dashboard.item
       (Dashboard.recentCases
          (Dashboard.fetchUserAndData Sample.db (Some "ann") 1000 1000
             Dashboard.initial))).
Proof.
  apply (proj1 (proj2 (@recentCases_are_the_latest Sample.db (Some "ann") "acme"
                         1000 1000 Dashboard.initial eq_refl))).
Defined.

(** X11: on the dashboard the count of active cases never exceeds the
    count of all cases, and the list of recent cases holds five of them,
    or all of them when there are fewer. *)
Theorem dashboard_counts_cohere
    (db : Store) (authUser : option uuid) (firm : uuid) (now1 now2 : Z)
    (s : Dashboard.State) :
  Lookup.firmIdOf db authUser = Some firm ->
  let after := Dashboard.fetchUserAndData db authUser now1 now2 s in
  0 <= Dashboard.activeCases (Dashboard.stats after)
    <= Dashboard.totalCases (Dashboard.stats after)
  /\ Z.of_nat (List.length (Dashboard.recentCases after))
     = Z.min 5 (Dashboard.totalCases (Dashboard.stats after)).
Proof.
  intros Hfirm after. subst after. unfold Dashboard.fetchUserAndData.
  rewrite Hfirm. cbn [Dashboard.stats Dashboard.recentCases].
  unfold Dashboard.fetchStats.
  cbn [Dashboard.activeCases Dashboard.totalCases]. split.
  - unfold Supabase.count_exact. split; [lia|]. apply inj_le.
    apply TopFacts.filter_length_le. intros c. simpl.
    rewrite !andb_true_iff. tauto.
  - rewrite length_map, TopFacts.recent_rows, length_firstn.
    rewrite Nat2Z.inj_min, QueryFacts.matching_length. reflexivity.
Qed.

Lemma dashboard_counts_cohere_witness :
  Z.of_nat (List.length
              (Dashboard.recentCases
                 (Dashboard.fetchUserAndData Sample.db (Some "ann") 1000 1000
                    Dashboard.initial)))
  = Z.min 5 (Dashboard.totalCases
               (Dashboard.stats
                  (Dashboard.fetchUserAndData Sample.db (Some "ann") 1000 1000
                     Dashboard.initial))).
Proof.
  apply (proj2 (@dashboard_counts_cohere Sample.db (Some "ann") "acme"
                  1000 1000 Dashboard.initial eq_refl)).
Defined.

(* ------------------------------------------------------------------ *)
(** ** More on the list views *)

Module PagingFacts.

(** A fetch leaves the number of pages at zero, or as it was. *)
Lemma fetched_pages (logic : string -> option (Cases.row -> bool))
    (db : Store) (s : CasesPage.State) :
  CasesPage.totalPages (CasesPage.fetchCases logic db s) = 0
  \/ CasesPage.totalPages (CasesPage.fetchCases logic db s)
     = CasesPage.totalPages s.
Proof.
  unfold CasesPage.fetchCases, CasesPage.countRequest, CasesPage.pageRequest.
  destruct (CasesPage.firmId s) as [firm|]; [|now right].
  destruct (CasesPage.listQuery logic firm s); [left|right]; reflexivity.
Qed.

Lemma fetched_page (logic : string -> option (Cases.row -> bool))
    (db : Store) (s : CasesPage.State) :
  CasesPage.currentPage (CasesPage.fetchCases logic db s)
  = CasesPage.currentPage s.
Proof.
  unfold CasesPage.fetchCases.
  destruct (CasesPage.firmId s) as [firm|]; [|reflexivity].
  now destruct (CasesPage.pageRequest logic db firm s).
Qed.

(** What holds of the page whatever happens on it. *)
Lemma step_keeps (s : CasesPage.State) (e : CasesPage.Event) :
  0 <= CasesPage.totalPages s <= 1 /\ CasesPage.currentPage s = 1 ->
  0 <= CasesPage.totalPages (CasesPage.step s e) <= 1
  /\ CasesPage.currentPage (CasesPage.step s e) = 1.
Proof.
  intros [Hp Hc]. destruct e as [firm|term|status|type|page|logic db];
    cbn [CasesPage.step].
  - destruct (Js.truthy (Some firm)); now split.
  - now split.
  - now split.
  - now split.
  - unfold CasesPage.paginationFooter.
    destruct (CasesPage.totalPages s >? 1) eqn:E; [|now split].
    apply Z.gtb_lt in E. lia.
  - rewrite fetched_page. split; [|exact Hc].
    destruct (fetched_pages logic db s) as [-> | ->]; lia.
Qed.

End PagingFacts.

(** X12: the pagination footer of the case list is never offered.
    Whatever is typed, chosen or fetched, and however many cases the firm
    has, the number of pages stays at one or zero, the footer with its
    page buttons is not rendered, and the list stays on page one. *)
Theorem footer_never_offered (events : list CasesPage.Event) :
  let s := fold_left CasesPage.step events CasesPage.initial in
  0 <= CasesPage.totalPages s <= 1
  /\ CasesPage.paginationFooter s = None
  /\ CasesPage.currentPage s = 1.
Proof.
  cbv zeta.
  assert (Hinv : forall s0,
            0 <= CasesPage.totalPages s0 <= 1 /\ CasesPage.currentPage s0 = 1 ->
            0 <= CasesPage.totalPages (fold_left CasesPage.step events s0) <= 1
            /\ CasesPage.currentPage (fold_left CasesPage.step events s0) = 1).
  { induction events as [|e events IH]; intros s0 H0; [exact H0|].
    cbn [fold_left]. apply IH. now apply PagingFacts.step_keeps. }
  destruct (Hinv CasesPage.initial) as [Hp Hc].
  { cbn. lia. }
  split; [exact Hp|]. split; [|exact Hc].
  unfold CasesPage.paginationFooter.
  destruct (CasesPage.totalPages _ >? 1) eqn:E; [|reflexivity].
  apply Z.gtb_lt in E. lia.
Qed.



(** X16: the document list pages as the case list does: a page beyond
    the last is answered with no rows and without error, and with ten
    documents or more under the filters page one holds exactly ten, latest
    created first. *)
Theorem fetchDocuments_page_bounds
    (ilike : string -> string -> bool) (db : Store) (firm : uuid)
    (s : DocumentsPage.State) :
  DocumentsPage.firmId s = Some firm ->
  let N := Supabase.count_exact (DocumentsPage.listQuery ilike firm s)
             (documents db) in
  (ceil_div N itemsPerPage < DocumentsPage.currentPage s ->
     DocumentsPage.pageRequest ilike db firm s = Supabase.Ok []
     /\ DocumentsPage.documents_shown (DocumentsPage.fetchDocuments ilike db s)
        = [])
  /\ (DocumentsPage.currentPage s = 1 -> 10 <= N ->
      exists page,
        DocumentsPage.pageRequest ilike db firm s = Supabase.Ok page
        /\ List.length page = 10%nat
        /\ Sorted (fun a b => Documents.created_at b <= Documents.created_at a)
                  page
        /\ map DocumentsPage.item
               (DocumentsPage.documents_shown
                  (DocumentsPage.fetchDocuments ilike db s)) = page).
Proof.
  intros Hfirm N.
  pose proof (QueryFacts.matching_length
                (DocumentsPage.listQuery ilike firm s) (documents db)) as HN.
  change (Supabase.count_exact (DocumentsPage.listQuery ilike firm s)
            (documents db)) with N in HN.
  assert (Hshown : forall page,
             DocumentsPage.pageRequest ilike db firm s = Supabase.Ok page ->
             map DocumentsPage.item
                 (DocumentsPage.documents_shown
                    (DocumentsPage.fetchDocuments ilike db s)) = page).
  { intros page Hp. unfold DocumentsPage.fetchDocuments. rewrite Hfirm, Hp.
    simpl. rewrite map_map. simpl. apply map_id. }
  split.
  - intros Hbeyond.
    assert (Hempty : DocumentsPage.pageRequest ilike db firm s = Supabase.Ok []).
    { unfold DocumentsPage.pageRequest. rewrite QueryFacts.rows_range.
      rewrite skipn_all2; [now rewrite firstn_nil|].
      destruct (QueryFacts.ceil_div_least N) as [Hle _].
      unfold DocumentsPage.pageFrom, itemsPerPage in *. lia. }
    split; [exact Hempty|].
    apply Hshown in Hempty. now apply map_eq_nil in Hempty.
  - intros Hone Hten.
    assert (Hpage : DocumentsPage.pageRequest ilike db firm s
                    = Supabase.Ok
                        (firstn 10 (Supabase.matching
                                      (DocumentsPage.listQuery ilike firm s)
                                      (documents db)))).
    { unfold DocumentsPage.pageRequest. rewrite QueryFacts.rows_range.
      unfold DocumentsPage.pageTo, DocumentsPage.pageFrom, itemsPerPage.
      rewrite Hone.
      replace (Z.to_nat ((1 - 1) * 10 + 10 - 1 - (1 - 1) * 10 + 1)) with 10%nat
        by lia.
      replace (Z.to_nat ((1 - 1) * 10)) with 0%nat by lia. reflexivity. }
    eexists. split; [exact Hpage|]. split; [|split].
    + rewrite length_firstn. lia.
    + apply QueryFacts.Sorted_firstn.
      apply (QueryFacts.matching_ordered Documents.created_at false).
      apply ListFacts.documents_order.
    + now apply Hshown.
Qed.

Lemma fetchDocuments_page_bounds_witness :
  DocumentsPage.pageRequest Sample.ilike Sample.db "acme" (Fixture.documentList 2)
  = Supabase.Ok [].
Proof.
  apply (proj1 (@fetchDocuments_page_bounds Sample.ilike Sample.db "acme"
                  (Fixture.documentList 2) eq_refl)).
  vm_compute. reflexivity.
Defined.

(* ------------------------------------------------------------------ *)
(** ** More on the case-detail page *)

Module FoundFacts.
Import Supabase.

Lemma single_Ok {Row} (q : Query Row) (table : list Row) (r : Row) :
  single q table = Ok r -> rows q table = [r].
Proof.
  unfold single. destruct (rows q table) as [|x [|y l]]; try discriminate.
  intros H. now injection H as ->.
Qed.

(** The answer to a query by [case_id], ordered on a column: the rows
    of the case, all of them, in the order asked for. *)
Lemma ordered_children {Row} (case_id : Row -> string) (col : Row -> Z)
    (ascending : bool) (cid : uuid) (table : list Row) :
  let found := rows (order col ascending (eq case_id cid select)) table in
  Permutation found (filter (fun r => (case_id r =? cid)%string) table)
  /\ Sorted (fun a b => if ascending then col a <= col b else col b <= col a)
            found.
Proof.
  cbv zeta.
  assert (Hrows : rows (order col ascending (eq case_id cid select)) table
                  = matching (order col ascending (eq case_id cid select)) table)
    by reflexivity.
  rewrite Hrows. split.
  - unfold matching. cbn [q_order order]. rewrite QueryFacts.sort_perm.
    cbn [q_where order eq filter_ select].
    rewrite (filter_ext _ (fun r => (case_id r =? cid)%string)); reflexivity.
  - now apply (QueryFacts.matching_ordered col ascending).
Qed.

End FoundFacts.

(** X17: when the case is found, the page shows that case, and under it
    the documents, the deadlines and the financial entries whose [case_id]
    is its id: all of them and no other, the documents latest created
    first, the deadlines earliest due first, the financial entries latest
    dated first. *)
Theorem fetchCaseData_found
    (db : Store) (caseId : uuid) (s : CaseDetailPage.State) (c : Cases.row) :
  CaseDetailPage.caseLookup db caseId = Supabase.Ok c ->
  let s' := CaseDetailPage.fetchCaseData db caseId s in
  CaseDetailPage.caseData s' = Some c
  /\ In c (cases db) /\ Cases.id c = caseId
  /\ (Permutation (map CaseDetailPage.document (CaseDetailPage.documents_shown s'))
        (filter (fun d => (Documents.case_id d =? caseId)%string) (documents db))
      /\ Sorted (fun a b => Documents.created_at b <= Documents.created_at a)
           (map CaseDetailPage.document (CaseDetailPage.documents_shown s')))
  /\ (Permutation (map CaseDetailPage.deadline (CaseDetailPage.deadlines_shown s'))
        (filter (fun d => (Deadlines.case_id d =? caseId)%string) (deadlines db))
      /\ Sorted (fun a b => Deadlines.due_date a <= Deadlines.due_date b)
           (map CaseDetailPage.deadline (CaseDetailPage.deadlines_shown s')))
  /\ (Permutation (map CaseDetailPage.financial (CaseDetailPage.financials_shown s'))
        (filter (fun f => (Financials.case_id f =? caseId)%string) (financials db))
      /\ Sorted (fun a b => Financials.transaction_date b
                            <= Financials.transaction_date a)
           (map CaseDetailPage.financial (CaseDetailPage.financials_shown s'))).
Proof.
  intros Hlook s'. subst s'.
  assert (Hc : In c (cases db) /\ Cases.id c = caseId).
  { unfold CaseDetailPage.caseLookup in Hlook.
    apply FoundFacts.single_Ok in Hlook.
    assert (Hin : In c (Supabase.rows
                          (Supabase.eq Cases.id caseId Supabase.select) (cases db)))
      by (rewrite Hlook; now left).
    apply QueryFacts.rows_In in Hin as [Hin Hw]. split; [exact Hin|].
    simpl in Hw. now apply String.eqb_eq. }
  destruct Hc as [Hin Hid].
  unfold CaseDetailPage.fetchCaseData. rewrite Hlook.
  cbn [CaseDetailPage.caseData CaseDetailPage.documents_shown
       CaseDetailPage.deadlines_shown CaseDetailPage.financials_shown].
  unfold CaseDetailPage.fetchDocuments, CaseDetailPage.fetchDeadlines,
    CaseDetailPage.fetchFinancials.
  rewrite !map_map. cbn [CaseDetailPage.document CaseDetailPage.deadline
                         CaseDetailPage.financial].
  rewrite !map_id.
  unfold CaseDetailPage.documentsQuery, CaseDetailPage.deadlinesQuery,
    CaseDetailPage.financialsQuery. rewrite Hid.
  repeat split; trivial.
  - apply (FoundFacts.ordered_children Documents.case_id Documents.created_at false).
  - apply (FoundFacts.ordered_children Documents.case_id Documents.created_at false).
  - apply (FoundFacts.ordered_children Deadlines.case_id Deadlines.due_date true).
  - apply (FoundFacts.ordered_children Deadlines.case_id Deadlines.due_date true).
  - apply (FoundFacts.ordered_children Financials.case_id
             Financials.transaction_date false).
  - apply (FoundFacts.ordered_children Financials.case_id
             Financials.transaction_date false).
Qed.

Lemma fetchCaseData_found_witness :
  CaseDetailPage.caseData Sample.viewingBirchCase = Some Sample.birchCase.
Proof.
  apply (proj1 (@fetchCaseData_found Sample.db "z" CaseDetailPage.initial
                  Sample.birchCase eq_refl)).
Defined.

(** X18: the page fetches security interests for a foreclosure case, in
    any letter case of its type, and then shows all of the case's, each
    under the display names of its lender and borrower; for any other
    case it leaves the security interests as they were, so that a page
    just opened shows none. *)
Theorem fetchCaseData_interests
    (db : Store) (caseId : uuid) (s : CaseDetailPage.State) (c : Cases.row) :
  CaseDetailPage.caseLookup db caseId = Supabase.Ok c ->
  let s' := CaseDetailPage.fetchCaseData db caseId s in
  (Js.toLowerCase (Cases.case_type c) = "foreclosure" ->
     map CaseDetailPage.interest (CaseDetailPage.securityInterests s')
     = filter (fun i => (SecurityInterests.case_id i =? Cases.id c)%string)
              (security_interests db)
     /\ forall shown, In shown (CaseDetailPage.securityInterests s') ->
          CaseDetailPage.lender_name shown
          = DisplayName.getPartyDisplayName
              (Lookup.partyById db
                 (SecurityInterests.lender_id (CaseDetailPage.interest shown)))
          /\ CaseDetailPage.borrower_name shown
             = DisplayName.getPartyDisplayName
                 (Lookup.partyById db
                    (SecurityInterests.borrower_id (CaseDetailPage.interest shown))))
  /\ (Js.toLowerCase (Cases.case_type c) <> "foreclosure" ->
      CaseDetailPage.securityInterests s' = CaseDetailPage.securityInterests s).
Proof.
  intros Hlook s'. subst s'. unfold CaseDetailPage.fetchCaseData.
  rewrite Hlook. cbn [CaseDetailPage.securityInterests].
  unfold CaseDetailPage.fetchSecurityInterests, CaseDetailPage.isForeclosure.
  split.
  - intros Hf. rewrite Hf. cbn [String.eqb Ascii.eqb Bool.eqb CaseDetailPage.keep].
    split.
    + rewrite map_map. cbn [CaseDetailPage.interest]. rewrite map_id.
      unfold CaseDetailPage.interestsQuery, Supabase.eq.
      now rewrite QueryFacts.rows_select_filter.
    + intros shown Hin. apply in_map_iff in Hin as [i [<- _]]. now split.
  - intros Hf. apply String.eqb_neq in Hf. now rewrite Hf.
Qed.

Lemma fetchCaseData_interests_witness :
  map CaseDetailPage.interest
      (CaseDetailPage.securityInterests Sample.viewingBirchCase)
  = [Sample.interest "i1" "birch" "z" "zed" "zed"].
Proof.
  apply (proj1 (proj1 (@fetchCaseData_interests Sample.db "z"
                         CaseDetailPage.initial Sample.birchCase eq_refl)
                  eq_refl)).
Defined.

(* ------------------------------------------------------------------ *)
(** ** More on deleting a case *)

Module OrderFacts.
Import CaseDetailPage.

Lemma store_fold (fl : Faults) (cid : uuid) (order : list ChildTable) (w : World) :
  store (fold_left (deleteChildren fl cid) order w)
  = fold_left (DeleteSteps.onStore fl cid) order (store w).
Proof.
  revert w. induction order as [|t order IH]; intros w; [reflexivity|].
  simpl. now rewrite IH.
Qed.

Lemma onStore_commute (fl : Faults) (cid : uuid) (db : Store) (a b : ChildTable) :
  DeleteSteps.onStore fl cid (DeleteSteps.onStore fl cid db a) b
  = DeleteSteps.onStore fl cid (DeleteSteps.onStore fl cid db b) a.
Proof.
  unfold DeleteSteps.onStore.
  destruct (child_fails fl a), (child_fails fl b); try reflexivity.
  destruct a, b; reflexivity.
Qed.

Lemma fold_permuted (fl : Faults) (cid : uuid) (l l' : list ChildTable) :
  Permutation l l' ->
  forall db, fold_left (DeleteSteps.onStore fl cid) l db
             = fold_left (DeleteSteps.onStore fl cid) l' db.
Proof.
  induction 1 as [|x l l' _ IH|x y l|l l' l'' _ IH1 _ IH2]; intros db; simpl.
  - reflexivity.
  - apply IH.
  - now rewrite onStore_commute.
  - now rewrite IH1.
Qed.

End OrderFacts.

(** X19: when the deletion of one child table does not go through and
    that table holds a row of the case, the deletion of the case is
    refused: the user is alerted and the case row stays.  The cascade is
    not undone: the tables whose deletion went through have lost the rows
    of the case. *)
Theorem handleDeleteCase_refused_keeps_case
    (fl : CaseDetailPage.Faults) (order : list CaseDetailPage.ChildTable)
    (s : CaseDetailPage.State) (w : CaseDetailPage.World) (c : Cases.row)
    (t : CaseDetailPage.ChildTable) :
  CaseDetailPage.caseData s = Some c ->
  Permutation order CaseDetailPage.childDeletions ->
  CaseDetailPage.child_fails fl t = true ->
  CaseDetailPage.childRows t (Cases.id c) (CaseDetailPage.store w) <> 0%nat ->
  let after := CaseDetailPage.handleDeleteCase fl order true s w in
  snd after = Alerted "Failed to delete the case. Please try again."
  /\ cases (CaseDetailPage.store (fst after)) = cases (CaseDetailPage.store w)
  /\ forall t', CaseDetailPage.child_fails fl t' = false ->
       CaseDetailPage.childRows t' (Cases.id c)
         (CaseDetailPage.store (fst after)) = 0%nat.
Proof.
  intros Hc Hperm Hfail Hrows after. subst after.
  unfold CaseDetailPage.handleDeleteCase. rewrite Hc.
  set (w1 := fold_left (CaseDetailPage.deleteChildren fl (Cases.id c)) order w).
  assert (Hleft : CaseDetailPage.childRows t (Cases.id c)
                    (CaseDetailPage.store w1)
                  = CaseDetailPage.childRows t (Cases.id c)
                      (CaseDetailPage.store w)).
  { unfold w1. rewrite (DeleteFacts.schedule_irrelevant fl (Cases.id c) w t Hperm).
    now rewrite Hfail. }
  assert (Href : CaseDetailPage.referenced (Cases.id c)
                   (CaseDetailPage.store w1) = true).
  { destruct (CaseDetailPage.referenced (Cases.id c) (CaseDetailPage.store w1))
      eqn:E; [reflexivity|].
    rewrite DeleteFacts.referenced_false in E. specialize (E t). congruence. }
  assert (Hgone : forall t', CaseDetailPage.child_fails fl t' = false ->
                    CaseDetailPage.childRows t' (Cases.id c)
                      (CaseDetailPage.store w1) = 0%nat).
  { intros t' Hok. unfold w1. apply DeleteFacts.fold_deletes; [|exact Hok].
    now apply DeleteFacts.every_child_scheduled. }
  assert (Hcases : cases (CaseDetailPage.store w1)
                   = cases (CaseDetailPage.store w))
    by apply DeleteFacts.fold_cases.
  unfold CaseDetailPage.deleteCase. rewrite Href.
  destruct (CaseDetailPage.case_fails fl); cbn [fst snd CaseDetailPage.store];
    repeat split; trivial.
Qed.

Lemma handleDeleteCase_refused_keeps_case_witness :
  cases (CaseDetailPage.store
           (fst (CaseDetailPage.handleDeleteCase Sample.documentsFail
                   CaseDetailPage.childDeletions true Sample.viewingBirchCase
                   Sample.world)))
  = cases Sample.db.
Proof.
  apply (proj1 (proj2
    (@handleDeleteCase_refused_keeps_case Sample.documentsFail
       CaseDetailPage.childDeletions Sample.viewingBirchCase Sample.world
       Sample.birchCase CaseDetailPage.documents_t eq_refl
       (Permutation_refl _) eq_refl
       ltac:(vm_compute; discriminate)))).
Defined.

(** X20: the order in which the database answers the four deletions of
    [Promise.all] shows neither in the store the deletion leaves nor in
    what the user is told. *)
Theorem handleDeleteCase_order_irrelevant
    (fl : CaseDetailPage.Faults) (order order' : list CaseDetailPage.ChildTable)
    (confirmed : bool) (s : CaseDetailPage.State) (w : CaseDetailPage.World) :
  Permutation order order' ->
  CaseDetailPage.store
    (fst (CaseDetailPage.handleDeleteCase fl order confirmed s w))
  = CaseDetailPage.store
      (fst (CaseDetailPage.handleDeleteCase fl order' confirmed s w))
  /\ snd (CaseDetailPage.handleDeleteCase fl order confirmed s w)
     = snd (CaseDetailPage.handleDeleteCase fl order' confirmed s w).
Proof.
  intros Hperm. unfold CaseDetailPage.handleDeleteCase.
  destruct (CaseDetailPage.caseData s) as [c|]; [|now split].
  destruct confirmed; [|now split].
  assert (Hstore :
    CaseDetailPage.store
      (fold_left (CaseDetailPage.deleteChildren fl (Cases.id c)) order w)
    = CaseDetailPage.store
        (fold_left (CaseDetailPage.deleteChildren fl (Cases.id c)) order' w)).
  { rewrite !OrderFacts.store_fold. now apply OrderFacts.fold_permuted. }
  unfold CaseDetailPage.deleteCase. rewrite Hstore.
  destruct (CaseDetailPage.case_fails fl); [now split|].
  destruct (CaseDetailPage.referenced _ _); now split.
Qed.

Lemma handleDeleteCase_order_irrelevant_witness :
  CaseDetailPage.store
    (fst (CaseDetailPage.handleDeleteCase Sample.documentsFail
            (rev CaseDetailPage.childDeletions) true Sample.viewingBirchCase
            Sample.world))
  = CaseDetailPage.store
      (fst (CaseDetailPage.handleDeleteCase Sample.documentsFail
              CaseDetailPage.childDeletions true Sample.viewingBirchCase
              Sample.world)).
Proof.
  apply (proj1 (@handleDeleteCase_order_irrelevant Sample.documentsFail
                  (rev CaseDetailPage.childDeletions)
                  CaseDetailPage.childDeletions true Sample.viewingBirchCase
                  Sample.world
                  (Permutation_sym (Permutation_rev CaseDetailPage.childDeletions)))).
Defined.

(* ------------------------------------------------------------------ *)
(** ** Creating a case, and deleting it again *)

Module CreateFacts.
Import Supabase.

Lemma delete_none {Row} (p : Row -> bool) (table : list Row) :
  filter p table = [] -> delete p table = table.
Proof.
  unfold delete. induction table as [|r l IH]; simpl; [reflexivity|].
  destruct (p r); [discriminate|]. intros H. simpl. now rewrite IH.
Qed.

Lemma delete_all {Row} (p : Row -> bool) (table : list Row) :
  (forall r, In r table -> p r = true) -> delete p table = [].
Proof.
  unfold delete. induction table as [|r l IH]; simpl; [reflexivity|].
  intros H. rewrite (H r (or_introl Logic.eq_refl)). simpl.
  apply IH. intros r' Hin. apply H. now right.
Qed.

Lemma delete_app {Row} (p : Row -> bool) (a b : list Row) :
  delete p (a ++ b) = (delete p a ++ delete p b)%list.
Proof. unfold delete. apply filter_app. Qed.

Lemma fresh_id (cid : uuid) (table : list Cases.row) :
  (forall c, In c table -> Cases.id c <> cid) ->
  filter (fun c => (Cases.id c =? cid)%string) table = [].
Proof.
  induction table as [|c l IH]; simpl; [reflexivity|]. intros H.
  destruct (Cases.id c =? cid)%string eqn:E.
  - apply String.eqb_eq in E. destruct (H c (or_introl Logic.eq_refl) E).
  - apply IH. intros c' Hin. apply H. now right.
Qed.

(** The store a taken case insert leaves: the case at the end of its
    table, and at the end of the security interests at most rows of the
    new case. *)
Lemma created (be : NewCasePage.Backend) (firm : uuid)
    (data : NewCasePage.NewCaseFormValues) (db : Store) :
  NewCasePage.case_accepted be = true ->
  exists extra,
    fst (NewCasePage.onSubmit be (Some firm) data db)
    = {| firms := firms db; users := users db; parties := parties db;
         cases := (cases db ++ [NewCasePage.caseRow be firm data])%list;
         security_interests := (security_interests db ++ extra)%list;
         documents := documents db; deadlines := deadlines db;
         financials := financials db |}
    /\ forall i, In i extra ->
         SecurityInterests.case_id i = NewCasePage.case_uuid be.
Proof.
  intros Hacc. unfold NewCasePage.onSubmit, NewCasePage.insert. rewrite Hacc.
  destruct (NewCasePage.case_type data =? "foreclosure")%string.
  - destruct (NewCasePage.interest_accepted be).
    + eexists [_]. split; [reflexivity|].
      intros i [<-|[]]. reflexivity.
    + exists []. split; [|easy]. cbn. now rewrite app_nil_r.
  - exists []. split; [|easy]. cbn. now rewrite app_nil_r.
Qed.

End CreateFacts.

(** X21: creating a case writes nothing unless it ends on the page of the
    new case; the placeholder security interest is never written without
    the case it belongs to; and when the database takes the case but not
    the placeholder, the user is sent to the new case all the same, which
    then has no security interest. *)
Theorem onSubmit_writes_case_first
    (be : NewCasePage.Backend) (firmId : option uuid)
    (data : NewCasePage.NewCaseFormValues) (db : Store) :
  let r := NewCasePage.onSubmit be firmId data db in
  ((forall path, snd r <> Redirected path) -> fst r = db)
  /\ (security_interests (fst r) <> security_interests db ->
      exists firm,
        firmId = Some firm
        /\ NewCasePage.case_type data = "foreclosure"
        /\ cases (fst r) = (cases db ++ [NewCasePage.caseRow be firm data])%list
        /\ security_interests (fst r)
           = (security_interests db
              ++ [NewCasePage.placeholderInterest be firm data
                    (NewCasePage.caseRow be firm data)])%list)
  /\ (forall firm,
        firmId = Some firm ->
        NewCasePage.case_accepted be = true ->
        NewCasePage.interest_accepted be = false ->
        snd r = Redirected ("/cases/" ++ NewCasePage.case_uuid be)
        /\ cases (fst r) = (cases db ++ [NewCasePage.caseRow be firm data])%list
        /\ security_interests (fst r) = security_interests db).
Proof.
  cbv zeta. unfold NewCasePage.onSubmit, NewCasePage.insert.
  destruct firmId as [firm|]; cbn [fst snd].
  2:{ repeat split; try easy; intros; discriminate. }
  destruct (NewCasePage.case_accepted be); cbn [fst snd].
  2:{ repeat split; try easy; intros; discriminate. }
  split; [|split].
  - intros H. destruct (H _ Logic.eq_refl).
  - intros Hsi. exists firm.
    destruct (NewCasePage.case_type data =? "foreclosure")%string eqn:Et.
    + apply String.eqb_eq in Et.
      destruct (NewCasePage.interest_accepted be); cbn in Hsi |- *.
      * repeat split; trivial.
      * now destruct Hsi.
    + now destruct Hsi.
  - intros firm' Hf _ Hi. injection Hf as <-. rewrite Hi.
    destruct (NewCasePage.case_type data =? "foreclosure")%string;
      repeat split.
Qed.

Lemma onSubmit_writes_case_first_witness :
  fst (NewCasePage.onSubmit
         {| NewCasePage.case_uuid := "roe"; NewCasePage.interest_uuid := "roe-si";
            NewCasePage.now := 100; NewCasePage.case_accepted := false;
            NewCasePage.interest_accepted := true |}
         (Some "acme") (Sample.roeForm "foreclosure") Sample.db)
  = Sample.db.
Proof.
  apply (proj1 (@onSubmit_writes_case_first _ (Some "acme")
                  (Sample.roeForm "foreclosure") Sample.db)).
  intros path. vm_compute. discriminate.
Defined.

(** X22: a case just created is found by the case-detail page under the
    id the database gave it, and deleting it there restores the store as
    it was before the creation, the placeholder security interest of a
    foreclosure case included. *)
Theorem create_then_delete_restores
    (be : NewCasePage.Backend) (firm : uuid)
    (data : NewCasePage.NewCaseFormValues) (db : Store)
    (order : list CaseDetailPage.ChildTable) :
  NewCasePage.case_accepted be = true ->
  (forall c, In c (cases db) -> Cases.id c <> NewCasePage.case_uuid be) ->
  (forall t, CaseDetailPage.childRows t (NewCasePage.case_uuid be) db = 0%nat) ->
  Permutation order CaseDetailPage.childDeletions ->
  let db1 := fst (NewCasePage.onSubmit be (Some firm) data db) in
  let s := CaseDetailPage.fetchCaseData db1 (NewCasePage.case_uuid be)
             CaseDetailPage.initial in
  let after := CaseDetailPage.handleDeleteCase CaseDetailPage.noFaults order true s
                 {| CaseDetailPage.store := db1; CaseDetailPage.answered := [] |} in
  CaseDetailPage.caseData s = Some (NewCasePage.caseRow be firm data)
  /\ CaseDetailPage.store (fst after) = db
  /\ snd after = Redirected "/cases".
Proof.
  intros Hacc Hfresh Hnone Hperm db1 s after.
  destruct (CreateFacts.created be firm data db Hacc) as [extra [Hdb1 Hextra]].
  fold db1 in Hdb1.
  set (cid := NewCasePage.case_uuid be) in *.
  set (new := NewCasePage.caseRow be firm data) in *.
  assert (Hlook : CaseDetailPage.caseLookup db1 cid = Supabase.Ok new).
  { unfold CaseDetailPage.caseLookup, Supabase.single, Supabase.eq.
    rewrite QueryFacts.rows_select_filter, Hdb1. cbn [cases].
    rewrite filter_app, (@CreateFacts.fresh_id cid (cases db) Hfresh).
    cbn [filter app]. unfold new at 1. cbn [Cases.id NewCasePage.caseRow].
    fold cid. now rewrite String.eqb_refl. }
  assert (Hs : CaseDetailPage.caseData s = Some new).
  { unfold s, CaseDetailPage.fetchCaseData. now rewrite Hlook. }
  split; [exact Hs|].
  subst after. unfold CaseDetailPage.handleDeleteCase. rewrite Hs.
  change (Cases.id new) with cid.
  set (w := {| CaseDetailPage.store := db1; CaseDetailPage.answered := [] |}).
  set (w1 := fold_left (CaseDetailPage.deleteChildren CaseDetailPage.noFaults cid)
               order w).
  assert (Href : CaseDetailPage.referenced cid (CaseDetailPage.store w1) = false).
  { apply DeleteFacts.referenced_false. intros t. unfold w1.
    now rewrite (@DeleteFacts.schedule_irrelevant CaseDetailPage.noFaults cid _ w t
                   Hperm). }
  unfold CaseDetailPage.deleteCase. cbn [CaseDetailPage.case_fails
                                         CaseDetailPage.noFaults].
  rewrite Href. cbn [fst snd CaseDetailPage.store]. split; [|reflexivity].
  unfold w1. rewrite OrderFacts.store_fold,
    (@OrderFacts.fold_permuted CaseDetailPage.noFaults cid _ _ Hperm).
  unfold w. cbn [CaseDetailPage.store]. rewrite Hdb1.
  assert (Hsi : filter (fun r => (SecurityInterests.case_id r =? cid)%string)
                  (security_interests db) = []).
  { apply length_zero_iff_nil.
    specialize (Hnone CaseDetailPage.security_interests_t).
    now rewrite DeleteFacts.childRows_filter in Hnone. }
  assert (Hdoc : filter (fun r => (Documents.case_id r =? cid)%string)
                   (documents db) = []).
  { apply length_zero_iff_nil. specialize (Hnone CaseDetailPage.documents_t).
    now rewrite DeleteFacts.childRows_filter in Hnone. }
  assert (Hdl : filter (fun r => (Deadlines.case_id r =? cid)%string)
                  (deadlines db) = []).
  { apply length_zero_iff_nil. specialize (Hnone CaseDetailPage.deadlines_t).
    now rewrite DeleteFacts.childRows_filter in Hnone. }
  assert (Hfin : filter (fun r => (Financials.case_id r =? cid)%string)
                   (financials db) = []).
  { apply length_zero_iff_nil. specialize (Hnone CaseDetailPage.financials_t).
    now rewrite DeleteFacts.childRows_filter in Hnone. }
  unfold CaseDetailPage.childDeletions, DeleteSteps.onStore.
  cbn [fold_left CaseDetailPage.child_fails CaseDetailPage.noFaults
       CaseDetailPage.deleteFrom with_security_interests with_documents
       with_deadlines with_financials with_cases firms users parties cases
       security_interests documents deadlines financials].
  rewrite !CreateFacts.delete_app.
  rewrite (@CreateFacts.delete_none _ _ _ Hsi), (@CreateFacts.delete_none _ _ _ Hdoc),
    (@CreateFacts.delete_none _ _ _ Hdl), (@CreateFacts.delete_none _ _ _ Hfin),
    (@CreateFacts.delete_none _ _ _ (@CreateFacts.fresh_id cid (cases db) Hfresh)).
  rewrite (@CreateFacts.delete_all _
             (fun r => (SecurityInterests.case_id r =? cid)%string) extra).
  2:{ intros i Hin. rewrite (Hextra i Hin). apply String.eqb_refl. }
  rewrite (@CreateFacts.delete_all _ (fun c => (Cases.id c =? cid)%string) [new]).
  2:{ intros c [<-|[]]. apply String.eqb_refl. }
  rewrite !app_nil_r. now destruct db.
Qed.

Lemma create_then_delete_restores_witness :
  CaseDetailPage.store
    (fst (CaseDetailPage.handleDeleteCase CaseDetailPage.noFaults
            CaseDetailPage.childDeletions true
            (CaseDetailPage.fetchCaseData
               (fst (NewCasePage.onSubmit Sample.backend (Some "acme")
                       (Sample.roeForm "foreclosure") Sample.db))
               "roe" CaseDetailPage.initial)
            {| CaseDetailPage.store :=
                 fst (NewCasePage.onSubmit Sample.backend (Some "acme")
                        (Sample.roeForm "foreclosure") Sample.db);
               CaseDetailPage.answered := [] |}))
  = Sample.db.
Proof.
  apply (proj1 (proj2
    (@create_then_delete_restores Sample.backend "acme"
       (Sample.roeForm "foreclosure") Sample.db CaseDetailPage.childDeletions
       eq_refl
       ltac:(intros c Hin; vm_compute in Hin;
             repeat (destruct Hin as [<-|Hin]; [vm_compute; discriminate|]);
             destruct Hin)
       ltac:(intros t; destruct t; reflexivity)
       (Permutation_refl _)))).
Defined.

(* ------------------------------------------------------------------ *)
(** ** Uploading a document *)

Module UploadFacts.
Import Supabase.

Lemma truthy_Some (v : string) : Js.truthy (Some v) = true <-> v <> "".
Proof.
  unfold Js.truthy. rewrite negb_true_iff. apply String.eqb_neq.
Qed.

Lemma firmIdOf_truthy (db : Store) (user : option uuid) (firm : uuid) :
  Lookup.firmIdOf db user = Some firm -> firm <> "".
Proof.
  unfold Lookup.firmIdOf. destruct user as [uid|]; [|discriminate].
  destruct (data _) as [u|]; [|discriminate].
  destruct (Js.truthy (Some (Users.firm_id u))) eqn:E; [|discriminate].
  intros H. injection H as <-. now apply truthy_Some.
Qed.

End UploadFacts.

(** X23: a document uploaded from the form of a case is then on the
    documents tab of that case, together with the documents that were
    there before, and the user is sent to that tab. *)
Theorem uploaded_document_is_listed
    (be : UploadPage.Backend) (uid caseId firm : uuid) (s : UploadPage.State)
    (data : UploadPage.DocumentFormValues) (db : Store) (c : Cases.row) :
  UploadPage.firmId s = Some firm -> firm <> "" -> caseId <> "" ->
  UploadPage.accepted be = true ->
  Cases.id c = caseId ->
  let r := UploadPage.onSubmit be (Some uid) caseId s data db in
  snd r = Redirected ("/cases/" ++ caseId ++ "?tab=documents")
  /\ Permutation
       (map CaseDetailPage.document (CaseDetailPage.fetchDocuments (fst r) c))
       (UploadPage.documentRow be firm caseId uid data
        :: map CaseDetailPage.document (CaseDetailPage.fetchDocuments db c)).
Proof.
  intros Hfirm Hf Hc Hacc Hid r. subst r. unfold UploadPage.onSubmit.
  rewrite Hfirm, Hacc. unfold Js.truthy.
  rewrite (proj2 (String.eqb_neq firm "") Hf),
    (proj2 (String.eqb_neq caseId "") Hc).
  cbn [negb andb fst snd Js.interpolate]. split; [reflexivity|].
  unfold CaseDetailPage.fetchDocuments. rewrite !map_map.
  cbn [CaseDetailPage.document]. rewrite !map_id.
  unfold CaseDetailPage.documentsQuery. rewrite Hid.
  cbn [documents with_documents].
  destruct (FoundFacts.ordered_children Documents.case_id Documents.created_at
              false caseId
              (documents db ++ [UploadPage.documentRow be firm caseId uid data]))
    as [Hnew _].
  destruct (FoundFacts.ordered_children Documents.case_id Documents.created_at
              false caseId (documents db)) as [Hold _].
  rewrite Hnew, Hold, filter_app. cbn [filter UploadPage.documentRow
                                       Documents.case_id].
  rewrite String.eqb_refl. symmetry. apply Permutation_cons_append.
Qed.

Lemma uploaded_document_is_listed_witness :
  snd (UploadPage.onSubmit Fixture.uploadBackend (Some "ann") "a"
         Fixture.uploading Fixture.complaint Sample.db)
  = Redirected "/cases/a?tab=documents".
Proof.
  apply (proj1 (@uploaded_document_is_listed Fixture.uploadBackend "ann" "a"
                  "acme" Fixture.uploading Fixture.complaint Sample.db
                  (Sample.case "a" "acme" 1 "civil" "active" "jane")
                  eq_refl ltac:(discriminate) ltac:(discriminate)
                  eq_refl eq_refl)).
Defined.

(** X24: the upload form is shown only for a case of the firm of the
    signed-in user, with parties of that firm to choose from; and a
    document uploaded through it carries the firm and the id of that
    case. *)
Theorem upload_form_is_of_own_firm
    (db : Store) (user : option uuid) (caseId : uuid) :
  let s := fst (UploadPage.fetchData db user caseId UploadPage.initial) in
  UploadPage.formShown s = true ->
  exists c firm,
    UploadPage.caseData s = Some c
    /\ Lookup.firmIdOf db user = Some firm
    /\ UploadPage.firmId s = Some firm
    /\ In c (cases db) /\ Cases.id c = caseId /\ Cases.firm_id c = firm
    /\ (forall p, In p (UploadPage.parties_shown s) ->
          In p (parties db) /\ Parties.firm_id p = firm
          /\ (Parties.id p = Cases.client_id c
              \/ Some (Parties.id p) = Cases.opposing_party_id c))
    /\ (forall be uid data db',
          caseId <> "" ->
          UploadPage.accepted be = true ->
          exists d,
            documents (fst (UploadPage.onSubmit be (Some uid) caseId s data db'))
            = (documents db' ++ [d])%list
            /\ Documents.firm_id d = Cases.firm_id c
            /\ Documents.case_id d = Cases.id c).
Proof.
  cbv zeta. unfold UploadPage.fetchData.
  destruct (Lookup.firmIdOf db user) as [firm|] eqn:Hfirm; [|discriminate].
  destruct (Supabase.data (NewDocumentPage.caseLookup db firm caseId))
    as [c|] eqn:Hlook; [|discriminate].
  intros _. cbn [fst UploadPage.caseData UploadPage.firmId
                 UploadPage.parties_shown].
  assert (Hc : In c (cases db) /\ Cases.id c = caseId /\ Cases.firm_id c = firm).
  { unfold NewDocumentPage.caseLookup in Hlook.
    destruct (Supabase.single _ _) as [c'|] eqn:Hs; [|discriminate].
    injection Hlook as ->.
    apply FoundFacts.single_Ok in Hs.
    assert (Hin : In c (Supabase.rows
                          (Supabase.eq Cases.firm_id firm
                             (Supabase.eq Cases.id caseId Supabase.select))
                          (cases db)))
      by (rewrite Hs; now left).
    apply QueryFacts.rows_In in Hin as [Hin Hw]. cbn in Hw.
    apply andb_true_iff in Hw as [Hi Hf].
    apply String.eqb_eq in Hi, Hf. now repeat split. }
  destruct Hc as (Hin & Hid & Hcf).
  exists c, firm. repeat split; trivial.
  - now apply QueryFacts.rows_In in H.
  - apply QueryFacts.rows_In in H as [_ Hw]. cbn in Hw.
    apply andb_true_iff in Hw as [Hf _]. now apply String.eqb_eq.
  - apply QueryFacts.rows_In in H as [_ Hw].
    unfold NewDocumentPage.partiesQuery, Supabase.in_, Supabase.filter_ in Hw.
    cbn [Supabase.q_where] in Hw.
    apply andb_true_iff in Hw as [_ Hw].
    apply existsb_exists in Hw as [v [Hv Hpv]]. apply String.eqb_eq in Hpv.
    apply in_map_iff in Hv as [o [Ho Hov]]. apply filter_In in Hov as [Hov Ht].
    destruct Hov as [<-|[<-|[]]].
    + left. now rewrite Hpv, <- Ho.
    + right. destruct (Cases.opposing_party_id c); [|discriminate].
      cbn in Ho. now rewrite Hpv, <- Ho.
  - intros be uid data db' Hcid Hacc. unfold UploadPage.onSubmit.
    cbn [UploadPage.firmId]. rewrite Hacc. unfold Js.truthy.
    rewrite (proj2 (String.eqb_neq firm "")
               (UploadFacts.firmIdOf_truthy db user Hfirm)),
      (proj2 (String.eqb_neq caseId "") Hcid).
    cbn [negb andb fst documents with_documents Js.interpolate].
    eexists. split; [reflexivity|]. cbn. now rewrite Hcf, Hid.
Qed.

Lemma upload_form_is_of_own_firm_witness :
  exists c firm,
    UploadPage.caseData Fixture.uploading = Some c
    /\ Lookup.firmIdOf Sample.db (Some "ann") = Some firm
    /\ UploadPage.firmId Fixture.uploading = Some firm
    /\ In c (cases Sample.db) /\ Cases.id c = "a" /\ Cases.firm_id c = firm
    /\ (forall p, In p (UploadPage.parties_shown Fixture.uploading) ->
          In p (parties Sample.db) /\ Parties.firm_id p = firm
          /\ (Parties.id p = Cases.client_id c
              \/ Some (Parties.id p) = Cases.opposing_party_id c))
    /\ (forall be uid data db',
          "a" <> "" ->
          UploadPage.accepted be = true ->
          exists d,
            documents (fst (UploadPage.onSubmit be (Some uid) "a"
                              Fixture.uploading data db'))
            = (documents db' ++ [d])%list
            /\ Documents.firm_id d = Cases.firm_id c
            /\ Documents.case_id d = Cases.id c).
Proof.
  apply (@upload_form_is_of_own_firm Sample.db (Some "ann") "a").
  vm_compute. reflexivity.
Defined.

(** X25: for a case that is not of the firm of the signed-in user, or
    that does not exist, the upload page goes nowhere: the fetch ends by
    throwing on the missing case, nothing is loaded, and the page stays on
    its spinner, where the case-detail page would go back to the list. *)
Theorem fetchData_without_case_throws
    (db : Store) (user : option uuid) (caseId firm : uuid) (s : UploadPage.State) :
  Lookup.firmIdOf db user = Some firm ->
  (forall c, In c (cases db) -> Cases.id c = caseId -> Cases.firm_id c <> firm) ->
  let r := UploadPage.fetchData db user caseId s in
  snd r = true
  /\ UploadPage.formShown (fst r) = false
  /\ UploadPage.parties_shown (fst r) = UploadPage.parties_shown s
  /\ UploadPage.firmId (fst r) = Some firm.
Proof.
  intros Hfirm Hother r. subst r. unfold UploadPage.fetchData. rewrite Hfirm.
  assert (Hrows : Supabase.rows
                    (Supabase.eq Cases.firm_id firm
                       (Supabase.eq Cases.id caseId Supabase.select))
                    (cases db) = []).
  { destruct (Supabase.rows _ _) as [|c l] eqn:E; [reflexivity|].
    assert (Hin : In c (Supabase.rows
                          (Supabase.eq Cases.firm_id firm
                             (Supabase.eq Cases.id caseId Supabase.select))
                          (cases db)))
      by (rewrite E; now left).
    apply QueryFacts.rows_In in Hin as [Hin Hw]. cbn in Hw.
    apply andb_true_iff in Hw as [Hi Hf]. apply String.eqb_eq in Hi, Hf.
    destruct (Hother c Hin Hi Hf). }
  unfold NewDocumentPage.caseLookup, Supabase.single. rewrite Hrows.
  cbn. repeat split.
Qed.

Lemma fetchData_without_case_throws_witness :
  snd (UploadPage.fetchData Sample.db (Some "ann") "z" UploadPage.initial) = true.
Proof.
  apply (proj1 (@fetchData_without_case_throws Sample.db (Some "ann") "z" "acme"
                  UploadPage.initial eq_refl
                  ltac:(intros c Hin Hid; vm_compute in Hin;
                        repeat (destruct Hin as [<-|Hin];
                                [try discriminate Hid; vm_compute; discriminate|]);
                        destruct Hin))).
Defined.

(* ------------------------------------------------------------------ *)
(** ** Registration *)

Module RegisterFacts.

Lemma fresh_user (uid : uuid) (table : list Users.row) :
  (forall u, In u table -> Users.id u <> uid) ->
  filter (fun u => (Users.id u =? uid)%string) table = [].
Proof.
  induction table as [|u l IH]; simpl; [reflexivity|]. intros H.
  destruct (Users.id u =? uid)%string eqn:E.
  - apply String.eqb_eq in E. destruct (H u (or_introl Logic.eq_refl) E).
  - apply IH. intros u' Hin. apply H. now right.
Qed.

End RegisterFacts.

(** X26: after a registration that went through, the new user resolves
    to the new firm: the profile found under the id of the account is an
    admin of the firm just created, pages that look the firm up by that
    id get it, and the one declared policy lets the user see the firm. *)
Theorem registered_user_resolves_to_new_firm
    (be : RegisterPage.Backend) (data : RegisterPage.RegisterFormValues)
    (db : Store) (uid : uuid) :
  RegisterPage.signedUp be = Supabase.Ok (Some uid) ->
  RegisterPage.firm_accepted be = true ->
  RegisterPage.user_accepted be = true ->
  (forall u, In u (users db) -> Users.id u <> uid) ->
  RegisterPage.firm_uuid be <> "" ->
  let r := RegisterPage.onSubmit be data db in
  snd r = RegisterPage.Confirmation
  /\ In (RegisterPage.firmRow be data) (firms (fst r))
  /\ (exists u, Lookup.userById (fst r) uid = Some u
                /\ Users.role u = "admin"
                /\ Users.firm_id u = RegisterPage.firm_uuid be)
  /\ Lookup.firmIdOf (fst r) (Some uid) = Some (RegisterPage.firm_uuid be)
  /\ Rls.caller_firm (fst r) (Some uid) = Some (RegisterPage.firm_uuid be)
  /\ Rls.firm_policy (fst r) (Some uid) (RegisterPage.firmRow be data) = true.
Proof.
  intros Hup Hfa Hua Hfresh Hne r. subst r. unfold RegisterPage.onSubmit.
  rewrite Hup, Hfa, Hua. cbn [fst snd].
  set (firm := RegisterPage.firmRow be data).
  set (new := RegisterPage.userRow be uid data firm).
  assert (Hrows : Supabase.rows (Supabase.eq Users.id uid Supabase.select)
                    (users db ++ [new]) = [new]).
  { unfold Supabase.eq. rewrite QueryFacts.rows_select_filter, filter_app.
    rewrite (@RegisterFacts.fresh_user uid (users db) Hfresh). cbn [filter app].
    unfold new at 1. cbn [Users.id RegisterPage.userRow].
    now rewrite String.eqb_refl. }
  split; [reflexivity|]. split.
  { cbn. apply in_or_app. right. now left. }
  split.
  { exists new. unfold Lookup.userById, Supabase.single.
    cbn [users RegisterPage.with_users RegisterPage.with_firms].
    rewrite Hrows. repeat split. }
  split.
  { unfold Lookup.firmIdOf, Supabase.single.
    cbn [users RegisterPage.with_users RegisterPage.with_firms].
    rewrite Hrows. cbn [Supabase.data]. unfold Js.truthy.
    cbn [Users.firm_id new RegisterPage.userRow Firms.id firm
         RegisterPage.firmRow].
    unfold new, firm. cbn [Users.firm_id RegisterPage.userRow Firms.id
                           RegisterPage.firmRow].
    now rewrite (proj2 (String.eqb_neq (RegisterPage.firm_uuid be) "") Hne). }
  split.
  { unfold Rls.caller_firm.
    cbn [users RegisterPage.with_users RegisterPage.with_firms].
    rewrite filter_app, (@RegisterFacts.fresh_user uid (users db) Hfresh). cbn [filter app].
    unfold new at 1. cbn [Users.id RegisterPage.userRow].
    now rewrite String.eqb_refl. }
  unfold Rls.firm_policy.
  cbn [users RegisterPage.with_users RegisterPage.with_firms].
  rewrite existsb_app. cbn [existsb]. unfold new at 1 2.
  cbn [Users.id Users.firm_id RegisterPage.userRow].
  rewrite !String.eqb_refl. cbn. now rewrite orb_true_r.
Qed.

Lemma registered_user_resolves_to_new_firm_witness :
  Lookup.firmIdOf
    (fst (RegisterPage.onSubmit (Fixture.registerBackend true)
            Fixture.registration Sample.db))
    (Some "cy")
  = Some "cedar".
Proof.
  apply (proj1 (proj2 (proj2 (proj2
    (@registered_user_resolves_to_new_firm (Fixture.registerBackend true)
       Fixture.registration Sample.db "cy" eq_refl eq_refl eq_refl
       ltac:(intros u Hin; vm_compute in Hin;
             repeat (destruct Hin as [<-|Hin]; [vm_compute; discriminate|]);
             destruct Hin)
       ltac:(discriminate)))))).
Defined.

(** X27: registration is not undone when its last step fails.  When the
    database takes the firm but not the profile of the user, the firm row
    stays, the users are as before, and, no user having referred to that
    firm, the declared policy shows the firm to no one. *)
Theorem refused_profile_orphans_firm
    (be : RegisterPage.Backend) (data : RegisterPage.RegisterFormValues)
    (db : Store) (uid : uuid) :
  RegisterPage.signedUp be = Supabase.Ok (Some uid) ->
  RegisterPage.firm_accepted be = true ->
  RegisterPage.user_accepted be = false ->
  (forall u, In u (users db) -> Users.firm_id u <> RegisterPage.firm_uuid be) ->
  let r := RegisterPage.onSubmit be data db in
  snd r = RegisterPage.UserError
  /\ firms (fst r) = (firms db ++ [RegisterPage.firmRow be data])%list
  /\ users (fst r) = users db
  /\ forall caller,
       Rls.firm_policy (fst r) caller (RegisterPage.firmRow be data) = false.
Proof.
  intros Hup Hfa Hua Hnone r. subst r. unfold RegisterPage.onSubmit.
  rewrite Hup, Hfa, Hua. cbn [fst snd]. repeat split.
  intros [caller|]; [|reflexivity]. unfold Rls.firm_policy.
  cbn [users RegisterPage.with_firms Firms.id RegisterPage.firmRow].
  induction (users db) as [|u l IH]; [reflexivity|]. cbn [existsb].
  rewrite IH by (intros u' Hin; apply Hnone; now right).
  rewrite (proj2 (String.eqb_neq _ _) (Hnone u (or_introl Logic.eq_refl))).
  now rewrite andb_false_r.
Qed.

Lemma refused_profile_orphans_firm_witness :
  snd (RegisterPage.onSubmit (Fixture.registerBackend false)
         Fixture.registration Sample.db)
  = RegisterPage.UserError.
Proof.
  apply (proj1
    (@refused_profile_orphans_firm (Fixture.registerBackend false)
       Fixture.registration Sample.db "cy" eq_refl eq_refl eq_refl
       ltac:(intros u Hin; vm_compute in Hin;
             repeat (destruct Hin as [<-|Hin]; [vm_compute; discriminate|]);
             destruct Hin))).
Defined.

(* ------------------------------------------------------------------ *)
(** ** The conversation with the assistant *)

Module ChatFacts.
Import AssistantPage.






End ChatFacts.


(** The replies may lag: a second message sent before the first reply
    gives two messages of the user and then the two replies. *)
Example replies_may_lag :
  let now := {| AssistantPage.idAt := 5; AssistantPage.stampAt := 5 |} in
  map AssistantPage.sender
      (AssistantPage.messages
         (AssistantPage.page
            (AssistantPage.run 0
               [AssistantPage.Typed "draft a letter"; AssistantPage.Sent now;
                AssistantPage.Typed "any deadline?"; AssistantPage.Sent now;
                AssistantPage.Replied 0 now; AssistantPage.Replied 0 now])))
  = [AssistantPage.ai; AssistantPage.user; AssistantPage.user;
     AssistantPage.ai; AssistantPage.ai].
Proof. reflexivity. Qed.

(* ------------------------------------------------------------------ *)
(** ** Badges and letter case *)

Module CaseFacts.
Import Js.

Lemma lowerChar_idem (c : ascii) : lowerChar (lowerChar c) = lowerChar c.
Proof.
  destruct c as [[] [] [] [] [] [] [] []]; vm_compute; reflexivity.
Qed.

Lemma toLowerCase_idem (s : string) : toLowerCase (toLowerCase s) = toLowerCase s.
Proof.
  induction s as [|c s IH]; simpl; [reflexivity|].
  now rewrite lowerChar_idem, IH.
Qed.

End CaseFacts.

(** X29: the badges do not depend on the letter case of what they badge:
    a status or a priority and its lower-cased form get the same badge,
    on the dashboard, in the case list and on the case-detail page. *)
Theorem badges_ignore_letter_case (text : string) :
  Badges.getStatusBadgeVariant (Js.toLowerCase text)
  = Badges.getStatusBadgeVariant text
  /\ Badges.getStatusBadgeVariant_detail (Js.toLowerCase text)
     = Badges.getStatusBadgeVariant_detail text
  /\ Badges.getPriorityBadgeVariant (Js.toLowerCase text)
     = Badges.getPriorityBadgeVariant text.
Proof.
  unfold Badges.getStatusBadgeVariant, Badges.getStatusBadgeVariant_detail,
    Badges.getPriorityBadgeVariant.
  now rewrite CaseFacts.toLowerCase_idem.
Qed.

(* ------------------------------------------------------------------ *)
(** ** The parties offered when creating a case *)

Module OfferFacts.

Lemma split_by {Row} (f c : Row -> bool) (l : list Row) :
  Permutation
    (filter (fun r => f r && Bool.eqb (c r) true) l
     ++ filter (fun r => f r && Bool.eqb (c r) false) l)
    (filter f l).
Proof.
  induction l as [|r l IH]; simpl; [constructor|].
  destruct (f r), (c r); simpl.
  - now constructor.
  - rewrite <- Permutation_middle. now constructor.
  - exact IH.
  - exact IH.
Qed.

End OfferFacts.

(** X30: the new-case form offers every party of the firm in exactly one
    of its two selects: the clients and the opposing parties together are
    the parties of the firm, and no party is in both. *)
Theorem offered_parties_partition (db : Store) (firmId : uuid) :
  let clients := Supabase.rows (NewCasePage.clientsQuery firmId) (parties db) in
  let opposing :=
    Supabase.rows (NewCasePage.opposingPartiesQuery firmId) (parties db) in
  Permutation (clients ++ opposing)
    (filter (fun p => (Parties.firm_id p =? firmId)%string) (parties db))
  /\ (forall p, In p clients -> Parties.is_client p = true)
  /\ (forall p, In p opposing -> Parties.is_client p = false).
Proof.
  cbv zeta. unfold NewCasePage.clientsQuery, NewCasePage.opposingPartiesQuery,
    Supabase.eq_bool, Supabase.eq.
  assert (Hc : forall v,
            Supabase.rows
              (Supabase.filter_ (fun r => Bool.eqb (Parties.is_client r) v)
                 (Supabase.filter_ (fun r => (Parties.firm_id r =? firmId)%string)
                    Supabase.select))
              (parties db)
            = filter (fun r => (Parties.firm_id r =? firmId)%string
                               && Bool.eqb (Parties.is_client r) v)
                     (parties db)).
  { intros v. unfold Supabase.rows, Supabase.matching, Supabase.window.
    cbn. apply filter_ext. intros r. reflexivity. }
  rewrite !Hc. split; [apply OfferFacts.split_by|].
  split; intros p Hin; apply filter_In in Hin as [_ Hw];
    apply andb_true_iff in Hw as [_ Hw]; now destruct (Parties.is_client p).
Qed.
